(** * astra: checkpointed task execution and task-instance provenance

    A shallow embedding of
    - [python/astra/__init__.py]         ([task], [_bulk_insert]) and
    - [python/astra/database/utils.py]   (primary-key (de)serialisation,
      the parameter store, the task-instance registry, the output linker)
    together with the properties of these functions.

    Conventions.  Python exceptions are values of [exn]; a call that may
    raise returns a [result].  The relational store is an explicit value
    [db] threaded through every call; SQL queries become list
    comprehensions over its tables.  Library code (json, the database
    driver, the timer of [astra.utils]) is a parameter of the sections
    below. *)

From Stdlib Require Import ZArith QArith Ascii String.
From stdpp Require Import base tactics option list strings gmap pretty.

Set Warnings "-register-all".

Local Open Scope Z_scope.
Local Open Scope string_scope.
Local Open Scope list_scope.

(** ** Python values, exceptions, results *)

Module Py.

(** A Python [float]: a finite double is a rational; the two infinities
    and NaN are kept apart because [int()] refuses them. *)
Inductive pyfloat : Type :=
  | Finite (q : Q)
  | Inf (negative : bool)
  | NaN.

(** The values that reach the functions modelled here: what [json.loads]
    can produce, plus tuples. *)
Inductive pyval : Type :=
  | PNone
  | PBool (b : bool)
  | PInt (z : Z)
  | PFloat (f : pyfloat)
  | PStr (s : string)
  | PList (l : list pyval)
  | PTuple (l : list pyval)
  | PDict (items : list (string * pyval)).

Inductive exn : Type :=
  | TypeError (msg : string)
  | ValueError (msg : string)
  | NameError (name : string)
  | OverflowError
  | AssertionError
  | JSONDecodeError
  | IntegrityError
  | MultipleResultsFound
  | UnmappedInstanceError
  | InvalidRequestError
  | OtherError (msg : string).

Inductive result (A : Type) : Type :=
  | Ok (a : A)
  | Raise (e : exn).
Arguments Ok {A} a.
Arguments Raise {A} e.

Definition rbind {A B} (m : result A) (k : A -> result B) : result B :=
  match m with
  | Ok a => k a
  | Raise e => Raise e
  end.

(** [result] is the error monad; stdpp's [x ← m; k] is sequencing with
    propagation of the first exception. *)
#[global] Instance result_ret : MRet result := fun A a => Ok a.
#[global] Instance result_bind : MBind result := fun A B k m => rbind m k.
#[global] Instance result_fmap : FMap result :=
  fun A B f m => rbind m (fun a => Ok (f a)).

(** [list(map(f, xs))]: left to right, the first exception escapes. *)
Fixpoint map_result {A B} (f : A -> result B) (xs : list A) : result (list B) :=
  match xs with
  | [] => Ok []
  | x :: xs' =>
      match f x with
      | Ok y =>
          match map_result f xs' with
          | Ok ys => Ok (y :: ys)
          | Raise e => Raise e
          end
      | Raise e => Raise e
      end
  end.

Definition is_ok {A} (r : result A) : bool :=
  match r with Ok _ => true | Raise _ => false end.

End Py.
Export Py.

(** ** The checkpointed task runner ([astra/__init__.py]) *)

Module Runner.

(** What the backend did with one batch handed to it. *)
Inductive write_outcome : Type :=
  | Saved
  | IntegrityFault
  | OtherFault (e : exn).

(** What one [next(timer)] gives; the end of the list of pulls is
    [StopIteration]. *)
Inductive pull (R : Type) : Type :=
  | Yielded (r : R)
  | Raised (e : exn).
Arguments Yielded {R} r.
Arguments Raised {R} e.

(** The first argument of the decorator.  A generator function is given
    by its body: what it does each time it is resumed, yield a record or
    raise, and it returns at the end of the list. *)
Inductive callable (R : Type) : Type :=
  | GeneratorFunction (body : list (pull R))
  | PlainFunction.
Arguments GeneratorFunction {R} body.
Arguments PlainFunction {R}.

(** What an observer of one invocation sees, in order. *)
Inductive event (R : Type) : Type :=
  | LogException (e : exn)
  | BulkInsert (batch : list R)
  | Emit (r : R).
Arguments LogException {R} e.
Arguments BulkInsert {R} batch.
Arguments Emit {R} r.

(** The keyword arguments popped by [task]. *)
Record task_kwargs : Type := {
  frequency : option nat;
  batch_size : option nat;
  re_raise_exceptions : option bool
}.

Definition no_kwargs : task_kwargs :=
  {| frequency := None; batch_size := None; re_raise_exceptions := None |}.

Section runner.
Context {R : Type}.

(** The database behind [_bulk_insert], asked during the pull of a given
    index (the index stands for the time of the call).  [ensure_table]
    is the check [model.table_exists()] with [model.create_table()]
    when it says no, for the model of the first record: [Some e] when
    one of them raises [e].  [db_write] is the outcome of writing a
    non-empty batch with a given batch size.  The driver annotates the
    record objects in place; the list keeps its length and order. *)
Variable ensure_table : nat -> list R -> option exn.
Variable db_write : nat -> list R -> nat -> write_outcome.

(** [timer.check_point] read after the pull of index [i] (counted from
    0) for a timer of the given frequency: a reading of the wall clock. *)
Variable check_point : nat -> nat -> bool.

(** The table check is made before the [try]: what it raises escapes
    whatever the flag says.  [now] is the index of the current pull. *)
Definition _bulk_insert (now : nat) (results : list R) (batch_size : nat)
    (re_raise_exceptions : bool) : result unit :=
  match results with
  | [] => Ok tt
  | _ =>
      match ensure_table now results with
      | Some e => Raise e
      | None =>
          match db_write now results batch_size with
          | Saved => Ok tt
          | IntegrityFault =>
              if re_raise_exceptions then Raise IntegrityError else Ok tt
          | OtherFault e =>
              if re_raise_exceptions then Raise e else Ok tt
          end
      end
  end.

(** The [while True] loop of [task] followed by the final flush.  [i] is
    the index of the pull about to be made, [results] the pending
    batch. *)
Fixpoint task_loop (freq bsize : nat) (re_raise : bool)
    (pulls : list (pull R)) (i : nat) (results : list R)
    : list (event R) * result unit :=
  match pulls with
  | [] =>
      match _bulk_insert i results bsize re_raise with
      | Ok _ => (BulkInsert results :: map Emit results, Ok tt)
      | Raise e => ([BulkInsert results], Raise e)
      end
  | Yielded r :: rest =>
      let results := results ++ [r] in
      if check_point freq i then
        match _bulk_insert i results bsize re_raise with
        | Ok _ =>
            let '(tr, res) := task_loop freq bsize re_raise rest (S i) [] in
            (BulkInsert results :: map Emit results ++ tr, res)
        | Raise e => ([BulkInsert results], Raise e)
        end
      else task_loop freq bsize re_raise rest (S i) results
  | Raised e :: rest =>
      if re_raise then ([LogException e], Raise e)
      else
        let '(tr, res) := task_loop freq bsize re_raise rest (S i) results in
        (LogException e :: tr, res)
  end.

(** A generator that has raised is finished: whatever its body holds
    after the [raise], every later [next] gives [StopIteration].  The
    pulls a run can make of a body are its yields up to the first raise,
    and that raise. *)
Fixpoint pulls_of (body : list (pull R)) : list (pull R) :=
  match body with
  | [] => []
  | Yielded r :: rest => Yielded r :: pulls_of rest
  | Raised e :: _ => [Raised e]
  end.

Definition task (function : callable R) (kwargs : task_kwargs)
    : list (event R) * result unit :=
  match function with
  | PlainFunction =>
      ([], Raise (TypeError "Tasks must be generators that `yield` results."))
  | GeneratorFunction body =>
      let frequency := default 300%nat (frequency kwargs) in
      let batch_size := default 999%nat (batch_size kwargs) in
      let re_raise_exceptions := default true (re_raise_exceptions kwargs) in
      task_loop frequency batch_size re_raise_exceptions (pulls_of body) 0 []
  end.

(** Projections of a trace. *)
Definition emitted (tr : list (event R)) : list R :=
  omap (fun ev => match ev with Emit r => Some r | _ => None end) tr.

Definition batches (tr : list (event R)) : list (list R) :=
  omap (fun ev => match ev with BulkInsert b => Some b | _ => None end) tr.

Definition logged (tr : list (event R)) : list exn :=
  omap (fun ev => match ev with LogException e => Some e | _ => None end) tr.

(** The records of a list of pulls, and the records a generator yields
    when it is driven to its end: those before its first raise. *)
Definition yields (pulls : list (pull R)) : list R :=
  omap (fun p => match p with Yielded r => Some r | _ => None end) pulls.


(** Every call of [_bulk_insert] returns: the table check passes, and
    the flag swallows the write errors or the backend saves every
    batch. *)
Definition writes_complete (re_raise : bool) : Prop :=
  (∀ i b, ensure_table i b = None)
  ∧ (re_raise = false ∨ ∀ i b n, db_write i b n = Saved).

Definition raised (pulls : list (pull R)) : list exn :=
  omap (fun p => match p with Raised e => Some e | _ => None end) pulls.

(** One flush as the caller sees it: the batch goes to the writer, then
    its records are emitted. *)
Definition flush_block (b : list R) : list (event R) :=
  BulkInsert b :: map Emit b.

End runner.

End Runner.

(** ** Serialised primary keys ([astra/database/utils.py], lines 14-59) *)

Module Pks.

(** What is at a path that exists: a file that [open] can read, with its
    contents, or something [open] refuses with an error (a directory:
    [IsADirectoryError]; a file the process may not read). *)
Inductive node : Type :=
  | File (text : string)
  | Unreadable (e : exn).

(** The paths for which [os.path.exists] says yes, with what is there. *)
Abbreviation filesystem := (gmap string node).

(** [log.warning] records of [deserialize_pks]. *)
Inductive log_record : Type :=
  | ForcingInteger (pk : pyfloat).

(** [s.replace(a, b)] for one-character [a] and [b]. *)
Fixpoint replace_char (a b : Ascii.ascii) (s : string) : string :=
  match s with
  | EmptyString => EmptyString
  | String c s' =>
      String (if Ascii.eqb c a then b else c) (replace_char a b s')
  end.

Definition single_quote : Ascii.ascii := Ascii.ascii_of_nat 39.
Definition double_quote : Ascii.ascii := Ascii.ascii_of_nat 34.


(** [int(x)] on a float truncates towards zero and refuses NaN and the
    infinities. *)
Definition int_of_float (f : pyfloat) : result Z :=
  match f with
  | Finite q => Ok (Z.quot (Qnum q) (Zpos (Qden q)))
  | Inf _ => Raise OverflowError
  | NaN => Raise (ValueError "cannot convert float NaN to integer")
  end.

(** The items [map(f, v)] walks over: elements of a list or tuple, the
    characters of a string, the keys of a dict; anything else is not
    iterable. *)
Definition iterate (v : pyval) : result (list pyval) :=
  match v with
  | PList l | PTuple l => Ok l
  | PStr s => Ok (map (fun c => PStr (String c EmptyString))
                      (String.list_ascii_of_string s))
  | PDict items => Ok (map (fun kv => PStr kv.1) items)
  | PNone | PBool _ | PInt _ | PFloat _ =>
      Raise (TypeError "object is not iterable")
  end.

(** Modelled from the spec: [astra.utils.flatten] is not part of the
    sources at hand; the specification has it flatten nested lists
    recursively into one flat list, anything that is not a list or tuple
    being a leaf. *)
Fixpoint _flatten (struct : pyval) : list pyval :=
  match struct with
  | PList l | PTuple l => flat_map _flatten l
  | _ => [struct]
  end.

(** [list(map(f, xs))] for an [f] that also logs. *)
Fixpoint map_logged {A B L} (f : A -> list L * result B) (xs : list A)
    : list L * result (list B) :=
  match xs with
  | [] => ([], Ok [])
  | x :: xs' =>
      match f x with
      | (lg, Ok y) =>
          match map_logged f xs' with
          | (lg', Ok ys) => (lg ++ lg', Ok (y :: ys))
          | (lg', Raise e) => (lg ++ lg', Raise e)
          end
      | (lg, Raise e) => (lg, Raise e)
      end
  end.

Definition cannot_deserialize : exn :=
  ValueError "Cannot deserialize primary key".

Section pks.
(** [json.loads] (and [json.load] on the text of a file): [None] is a
    decoding error. *)
Variable json_loads : string -> option pyval.
(** [json.dumps] (and [json.dump]): [None] is a value json cannot
    encode. *)
Variable json_dumps : pyval -> option string.
(** [tempfile.mktemp] with the keywords it was given. *)
Variable mktemp : list (string * string) -> filesystem -> string.

(** The contents a string primary key stands for.  When the path
    exists it is opened, outside the [try]: what [open] raises and what
    [json.load] raises reach the caller as they are.  When it does not
    exist the string itself is read as JSON after ' has become the
    double quote. *)
Definition contents_of (fs : filesystem) (pk : string) : result pyval :=
  match fs !! pk with
  | Some (File text) =>
      match json_loads text with
      | Some contents => Ok contents
      | None => Raise JSONDecodeError
      end
  | Some (Unreadable e) => Raise e
  | None =>
      match json_loads (replace_char single_quote double_quote pk) with
      | Some contents => Ok contents
      | None => Raise cannot_deserialize
      end
  end.

(** [fuel] is the interpreter's recursion limit. *)
Fixpoint deserialize_pks (fuel : nat) (fs : filesystem) (pk : pyval)
    (flatten : bool) : list log_record * result pyval :=
  match fuel with
  | O => ([], Raise (OtherError "RecursionError"))
  | S fuel' =>
      let recurse := fun x => deserialize_pks fuel' fs x false in
      let '(lg, rv) :=
        match pk with
        | PInt _ | PBool _ => ([], Ok pk)
        | PFloat f =>
            ([ForcingInteger f], z ← int_of_float f; mret (PInt z))
        | PList l | PTuple l =>
            let '(lg, r) := map_logged recurse l in (lg, PList <$> r)
        | PStr s =>
            match contents_of fs s with
            | Raise e => ([], Raise e)
            | Ok contents =>
                match iterate contents with
                | Raise e => ([], Raise e)
                | Ok items =>
                    let '(lg, r) := map_logged recurse items in
                    (lg, PList <$> r)
                end
            end
        | PNone | PDict _ => ([], Raise cannot_deserialize)
        end in
      (lg, v ← rv; mret (if flatten then PList (_flatten (PList [v])) else v))
  end.

Definition serialize_pks_to_path (fs : filesystem) (pks : pyval)
    (kwargs : list (string * string)) : result (string * filesystem) :=
  let keys := ["suffix"; "prefix"; "dir"] in
  let kwds := filter (fun kv => kv.1 ∈ keys) kwargs in
  let path := mktemp kwds fs in
  match json_dumps pks with
  | Some text => Ok (path, <[path := File text]> fs)
  | None => Raise (TypeError "Object is not JSON serializable")
  end.

Definition serialize (v : pyval) : result string :=
  match v with
  | PStr s => Ok s
  | _ =>
      match json_dumps v with
      | Some s => Ok s
      | None => Raise (TypeError "Object is not JSON serializable")
      end
  end.

End pks.

(** Nested lists of integers, the payload that is serialised. *)
Inductive nest : Type :=
  | Leaf (z : Z)
  | Nest (l : list nest).

Fixpoint to_py (n : nest) : pyval :=
  match n with
  | Leaf z => PInt z
  | Nest l => PList (map to_py l)
  end.

Fixpoint leaves (n : nest) : list Z :=
  match n with
  | Leaf z => [z]
  | Nest l => flat_map leaves l
  end.

Fixpoint depth (n : nest) : nat :=
  match n with
  | Leaf _ => 0
  | Nest l => S (foldr Nat.max 0%nat (map depth l))
  end.

End Pks.

(** ** The relational store *)

Module Db.

(** Rows of the tables [parameter], [task_instance],
    [task_instance_parameter] and [output_interface]. *)
Record ParameterRow : Type := {
  p_pk : Z;
  parameter_name : string;
  parameter_value : string
}.

Record TaskInstance : Type := {
  ti_pk : Z;
  dag_id : string;
  task_id : string;
  run_id : option string;
  output_pk : option Z
}.

Record TaskInstanceParameter : Type := {
  tip_ti_pk : Z;
  tip_parameter_pk : Z
}.

Record OutputInterface : Type := {
  oi_pk : Z
}.

(** A row of a result table: the keywords given to the model. *)
Definition OutputRecord : Type := list (string * pyval).

(** Committed writes, oldest first. *)
Inductive write : Type :=
  | InsertParameter (row : ParameterRow)
  | InsertTaskInstance (row : TaskInstance)
  | InsertTaskInstanceParameter (row : TaskInstanceParameter)
  | DeleteTaskInstanceParameter (row : TaskInstanceParameter)
  | InsertOutputInterface (row : OutputInterface)
  | InsertOutputRecord (model : string) (row : OutputRecord)
  | UpdateTaskInstanceOutput (ti : Z) (output : Z).

(** The store: its tables, the sequences behind the serial primary keys,
    and the journal of committed writes. *)
Record db : Type := {
  parameter : list ParameterRow;
  task_instance : list TaskInstance;
  task_instance_parameter : list TaskInstanceParameter;
  output_interface : list OutputInterface;
  output_record : list (string * OutputRecord);
  parameter_seq : Z;
  task_instance_seq : Z;
  output_interface_seq : Z;
  journal : list write
}.

Definition empty_db : db :=
  {| parameter := []; task_instance := []; task_instance_parameter := [];
     output_interface := []; output_record := [];
     parameter_seq := 1; task_instance_seq := 1; output_interface_seq := 1;
     journal := [] |}.

#[global] Instance ParameterRow_eq_dec : EqDecision ParameterRow.
Proof. solve_decision. Defined.
#[global] Instance TaskInstance_eq_dec : EqDecision TaskInstance.
Proof. solve_decision. Defined.
#[global] Instance TaskInstanceParameter_eq_dec : EqDecision TaskInstanceParameter.
Proof. solve_decision. Defined.

(** [Query.one_or_none()]. *)
Definition one_or_none {A} (rows : list A) : result (option A) :=
  match rows with
  | [] => Ok None
  | [row] => Ok (Some row)
  | _ :: _ :: _ => Raise MultipleResultsFound
  end.

(** [session.query(Parameter).filter_by(parameter_name=..., parameter_value=...)] *)
Definition find_parameter (d : db) (name value : string) : list ParameterRow :=
  filter (fun p => parameter_name p = name ∧ parameter_value p = value)
         (parameter d).

(** Modelled from the spec: the schema of table [parameter] is not part
    of the sources at hand; the specification has at most one row for a
    (name, serialised value) pair, so an insert of a pair that is already
    stored is refused with a uniqueness violation.  The primary key comes
    from the table's sequence. *)
Definition insert_parameter (d : db) (name value : string)
    : result (ParameterRow * db) :=
  match find_parameter d name value with
  | [] =>
      let row := {| p_pk := parameter_seq d; parameter_name := name;
                    parameter_value := value |} in
      Ok (row,
          {| parameter := parameter d ++ [row];
             task_instance := task_instance d;
             task_instance_parameter := task_instance_parameter d;
             output_interface := output_interface d;
             output_record := output_record d;
             parameter_seq := parameter_seq d + 1;
             task_instance_seq := task_instance_seq d;
             output_interface_seq := output_interface_seq d;
             journal := journal d ++ [InsertParameter row] |})
  | _ :: _ => Raise IntegrityError
  end.

Definition insert_task_instance (d : db) (dag task : string)
    (run : option string) : TaskInstance * db :=
  let row := {| ti_pk := task_instance_seq d; dag_id := dag; task_id := task;
                run_id := run; output_pk := None |} in
  (row,
   {| parameter := parameter d;
      task_instance := task_instance d ++ [row];
      task_instance_parameter := task_instance_parameter d;
      output_interface := output_interface d;
      output_record := output_record d;
      parameter_seq := parameter_seq d;
      task_instance_seq := task_instance_seq d + 1;
      output_interface_seq := output_interface_seq d;
      journal := journal d ++ [InsertTaskInstance row] |}).

Definition insert_task_instance_parameter (d : db) (ti pk : Z) : db :=
  let row := {| tip_ti_pk := ti; tip_parameter_pk := pk |} in
  {| parameter := parameter d;
     task_instance := task_instance d;
     task_instance_parameter := task_instance_parameter d ++ [row];
     output_interface := output_interface d;
     output_record := output_record d;
     parameter_seq := parameter_seq d;
     task_instance_seq := task_instance_seq d;
     output_interface_seq := output_interface_seq d;
     journal := journal d ++ [InsertTaskInstanceParameter row] |}.

Definition delete_task_instance_parameter (d : db)
    (row : TaskInstanceParameter) : db :=
  {| parameter := parameter d;
     task_instance := task_instance d;
     task_instance_parameter :=
       filter (fun r => r ≠ row) (task_instance_parameter d);
     output_interface := output_interface d;
     output_record := output_record d;
     parameter_seq := parameter_seq d;
     task_instance_seq := task_instance_seq d;
     output_interface_seq := output_interface_seq d;
     journal := journal d ++ [DeleteTaskInstanceParameter row] |}.

Definition insert_output_interface (d : db) : OutputInterface * db :=
  let row := {| oi_pk := output_interface_seq d |} in
  (row,
   {| parameter := parameter d;
      task_instance := task_instance d;
      task_instance_parameter := task_instance_parameter d;
      output_interface := output_interface d ++ [row];
      output_record := output_record d;
      parameter_seq := parameter_seq d;
      task_instance_seq := task_instance_seq d;
      output_interface_seq := output_interface_seq d + 1;
      journal := journal d ++ [InsertOutputInterface row] |}).

Definition insert_output_record (d : db) (model : string)
    (row : OutputRecord) : db :=
  {| parameter := parameter d;
     task_instance := task_instance d;
     task_instance_parameter := task_instance_parameter d;
     output_interface := output_interface d;
     output_record := output_record d ++ [(model, row)];
     parameter_seq := parameter_seq d;
     task_instance_seq := task_instance_seq d;
     output_interface_seq := output_interface_seq d;
     journal := journal d ++ [InsertOutputRecord model row] |}.

Definition set_output_pk (output : Z) (t : TaskInstance) : TaskInstance :=
  {| ti_pk := ti_pk t; dag_id := dag_id t; task_id := task_id t;
     run_id := run_id t; output_pk := Some output |}.

(** [UPDATE task_instance SET output_pk = output WHERE pk = ti]. *)
Definition update_task_instance_output (d : db) (ti output : Z) : db :=
  {| parameter := parameter d;
     task_instance :=
       map (fun t => if decide (ti_pk t = ti) then set_output_pk output t else t)
           (task_instance d);
     task_instance_parameter := task_instance_parameter d;
     output_interface := output_interface d;
     output_record := output_record d;
     parameter_seq := parameter_seq d;
     task_instance_seq := task_instance_seq d;
     output_interface_seq := output_interface_seq d;
     journal := journal d ++ [UpdateTaskInstanceOutput ti output] |}.

(** The parameter rows joined to a task instance, in the order of the
    parameter table. *)
Definition joined_parameters (d : db) (ti : Z) : list ParameterRow :=
  filter (fun p => {| tip_ti_pk := ti; tip_parameter_pk := p_pk p |}
                   ∈ task_instance_parameter d)
         (parameter d).

(** The primary keys of the parameters linked to a task instance. *)
Definition linked_pks (d : db) (ti : Z) : list Z :=
  map tip_parameter_pk
      (filter (fun r => tip_ti_pk r = ti) (task_instance_parameter d)).

(** Modelled from the spec: the property [TaskInstance.parameters] lives
    in [astra.database.astradb], which is not part of the sources at
    hand; the specification calls it the effective parameter map of the
    instance: the names and values of the Parameter rows joined to it (a
    later row wins over an earlier one of the same name). *)
Definition parameters (d : db) (ti : Z) : gmap string string :=
  foldl (fun m p => <[parameter_name p := parameter_value p]> m) ∅
        (joined_parameters d ti).

(** [d.update(other)] on dicts kept as association lists: a key that is
    present keeps its place and takes the new value, a new key goes to
    the end. *)
Fixpoint dict_set {V} (k : string) (v : V) (d : list (string * V))
    : list (string * V) :=
  match d with
  | [] => [(k, v)]
  | (k', v') :: d' =>
      if decide (k' = k) then (k, v) :: d' else (k', v') :: dict_set k v d'
  end.

Definition dict_update {V} (d other : list (string * V)) : list (string * V) :=
  foldl (fun acc kv => dict_set kv.1 kv.2 acc) d other.

End Db.

(** ** Parameter store, task-instance registry, output linker
       ([astra/database/utils.py], lines 575-862) *)

Module Registry.
Import Db.

(** *** One call of [get_or_create_parameter_pk], statement by statement

    Other sessions may write between two statements of a call, so the
    call is cut at its accesses to the store.  [name] and [value] are the
    keywords of the query, [value] already serialised. *)
Inductive call_state : Type :=
  | Start                            (* before the first query *)
  | Creating                         (* nothing found: about to insert *)
  | Conflict                         (* the insert raised IntegrityError *)
  | Returned (pk : Z) (create : bool)
  | Failed (e : exn).

(** [in_transaction] says that the call is made while a transaction of
    the session is open.  The calls of [create_task_instance] are: its
    generator of parameter keys is lazy and is consumed inside the
    [with session.begin()] that links them.  The calls of
    [add_task_instance_parameter] and [del_task_instance_parameter] are
    not.  Inside an open transaction [session.begin(subtransactions=True)]
    joins it, the insert that fails leaves it inactive, and the session
    refuses the query of the [except] branch with [InvalidRequestError];
    outside of one the failed insert is rolled back on its own and the
    query runs. *)
Definition call_step (in_transaction : bool) (name value : string)
    (st : call_state) (d : db) : call_state * db :=
  match st with
  | Start =>
      match one_or_none (find_parameter d name value) with
      | Ok (Some instance) => (Returned (p_pk instance) false, d)
      | Ok None => (Creating, d)
      | Raise e => (Failed e, d)
      end
  | Creating =>
      match insert_parameter d name value with
      | Ok (instance, d') => (Returned (p_pk instance) true, d')
      | Raise _ => (Conflict, d)
      end
  | Conflict =>
      if in_transaction then (Failed InvalidRequestError, d)
      else
        match one_or_none (find_parameter d name value) with
        | Ok (Some instance) => (Returned (p_pk instance) true, d)
        | Ok None => (Failed IntegrityError, d)
        | Raise e => (Failed e, d)
        end
  | Returned _ _ | Failed _ => (st, d)
  end.

(** Two sessions calling with the same keywords; the schedule says whose
    statement runs next ([false]: the first caller, [true]: the second).
    [in1] and [in2] say which of the two calls inside a transaction. *)
Record race : Type := {
  store : db;
  caller1 : call_state;
  caller2 : call_state
}.

Definition race_step (in1 in2 : bool) (name value : string) (who : bool)
    (r : race) : race :=
  if who then
    let '(st, d) := call_step in2 name value (caller2 r) (store r) in
    {| store := d; caller1 := caller1 r; caller2 := st |}
  else
    let '(st, d) := call_step in1 name value (caller1 r) (store r) in
    {| store := d; caller1 := st; caller2 := caller2 r |}.

Definition run_race (in1 in2 : bool) (name value : string)
    (schedule : list bool) (d : db) : race :=
  foldl (fun r who => race_step in1 in2 name value who r)
        {| store := d; caller1 := Start; caller2 := Start |} schedule.

Definition turns (who : bool) (schedule : list bool) : nat :=
  length (filter (fun b => b = who) schedule).

Definition finished (st : call_state) : Prop :=
  match st with
  | Returned _ _ | Failed _ => True
  | _ => False
  end.

Definition matches_run (run : option string) (t : TaskInstance) : Prop :=
  match run with
  | Some r => run_id t = Some r
  | None => True
  end.

#[global] Instance matches_run_dec run t : Decision (matches_run run t).
Proof. destruct run; simpl; apply _. Defined.

Section registry.
(** [json.dumps], as in [Pks.serialize]. *)
Variable json_dumps : pyval -> option string.

Definition serialize : pyval -> result string := Pks.serialize json_dumps.

(** A call with no other session writing in between: the three
    statements run back to back.  The insert then follows a query that
    found nothing and cannot raise, so the call runs the same inside a
    transaction and outside of one. *)
Definition get_or_create_parameter_pk (d : db) (name : string)
    (value : pyval) : result (Z * bool * db) :=
  v ← serialize value;
  let '(st1, d1) := call_step false name v Start d in
  let '(st2, d2) := call_step false name v st1 d1 in
  let '(st3, d3) := call_step false name v st2 d2 in
  match st3 with
  | Returned pk create => Ok (pk, create, d3)
  | Failed e => Raise e
  | _ => Raise (OtherError "unreachable")
  end.

(** The second transaction of [create_task_instance]: the generator of
    parameter keys is consumed inside it, one get-or-create and one
    link row per parameter. *)
Fixpoint link_parameters (d : db) (ti : Z)
    (parameters : list (string * pyval)) : result db :=
  match parameters with
  | [] => Ok d
  | (k, v) :: rest =>
      '(parameter_pk, _, d1) ← get_or_create_parameter_pk d k v;
      link_parameters (insert_task_instance_parameter d1 ti parameter_pk)
                      ti rest
  end.

(** The store is returned next to the result: when linking raises, its
    transaction is rolled back and the instance row stays. *)
Definition create_task_instance (d : db) (dag_id task_id : string)
    (run_id : option string) (parameters : option (list (string * pyval)))
    : db * result TaskInstance :=
  let parameters := default [] parameters in
  let '(ti, d1) := insert_task_instance d dag_id task_id run_id in
  match link_parameters d1 (ti_pk ti) parameters with
  | Ok d2 => (d2, Ok ti)
  | Raise e => (d1, Raise e)
  end.

(** The (name, serialised value) pairs a request asks for. *)
Definition wanted_pairs (parameters : list (string * pyval))
    : result (list (string * string)) :=
  map_result (fun kv => s ← serialize kv.2; mret (kv.1, s)) parameters.

(** [q_p]: the rows of [parameter] matching one of the pairs.  An
    [or_()] of no clause filters nothing. *)
Definition q_p (d : db) (wanted : list (string * string))
    : list ParameterRow :=
  match wanted with
  | [] => parameter d
  | _ :: _ =>
      filter (fun p => (parameter_name p, parameter_value p) ∈ wanted)
             (parameter d)
  end.

(** [count(distinct parameter_pk)] of the rows of one [ti_pk] group. *)
Definition count_distinct_pk (ti : Z) (rows : list TaskInstanceParameter)
    : nat :=
  length (remove_dups
    (map tip_parameter_pk (filter (fun r => tip_ti_pk r = ti) rows))).

(** The first subquery: instances linked to all [N_p] found parameters. *)
Definition sq_all (d : db) (pks : list Z) (N_p : nat) : list Z :=
  let hits := filter (fun r => tip_parameter_pk r ∈ pks)
                     (task_instance_parameter d) in
  filter (fun ti => count_distinct_pk ti hits = N_p)
         (remove_dups (map tip_ti_pk hits)).

(** The second subquery ([if True:]): of those, the instances with
    exactly [n] distinct links. *)
Definition sq_exact (d : db) (sq : list Z) (n : nat) : list Z :=
  filter (fun ti => count_distinct_pk ti (task_instance_parameter d) = n) sq.

Definition get_task_instance (d : db) (dag task : string)
    (run : option string) (parameters : list (string * pyval))
    : result (option TaskInstance) :=
  wanted ← wanted_pairs parameters;
  let rows := q_p d wanted in
  let N_p := length rows in
  if decide (N_p < length parameters)%nat then Ok None
  else
    let sq := sq_all d (map p_pk rows) N_p in
    let sq := sq_exact d sq (length parameters) in
    let q := filter (fun t => ti_pk t ∈ sq ∧ dag_id t = dag ∧
                              task_id t = task ∧ matches_run run t)
                    (task_instance d) in
    one_or_none q.

(** A stored task instance that the request describes exactly: the
    identifiers agree and the keys of its links are the keys of the
    parameter rows of the requested pairs, no more and no fewer. *)
Definition exact_match (d : db) (dag task : string) (run : option string)
    (wanted : list (string * string)) (t : TaskInstance) : Prop :=
  t ∈ task_instance d ∧ dag_id t = dag ∧ task_id t = task
  ∧ matches_run run t
  ∧ ∀ pk, pk ∈ linked_pks d (ti_pk t) ↔ pk ∈ map p_pk (q_p d wanted).

(** The lookup is commented out in the source ([instance = None]). *)
Definition get_or_create_task_instance (d : db) (dag_id task_id : string)
    (run_id : option string) (parameters : option (list (string * pyval)))
    : db * result TaskInstance :=
  let parameters := default [] parameters in
  let instance : option TaskInstance := None in
  match instance with
  | None => create_task_instance d dag_id task_id run_id (Some parameters)
  | Some instance => (d, Ok instance)
  end.

Definition add_task_instance_parameter (d : db) (task_instance : Z)
    (key : string) (value : pyval) : result (Z * db) :=
  '(parameter_pk, _, d1) ← get_or_create_parameter_pk d key value;
  mret (parameter_pk,
        insert_task_instance_parameter d1 task_instance parameter_pk).

Definition del_task_instance_parameter (d : db) (task_instance : Z)
    (key : string) : db * result bool :=
  match parameters d task_instance !! key with
  | None =>
      (* KeyError: that key isn't in there; the assertion holds *)
      (d, Ok true)
  | Some value =>
      match get_or_create_parameter_pk d key (PStr value) with
      | Raise e => (d, Raise e)
      | Ok (parameter_pk, _, d1) =>
          match one_or_none
                  (filter (fun r => tip_ti_pk r = task_instance ∧
                                    tip_parameter_pk r = parameter_pk)
                          (task_instance_parameter d1)) with
          | Raise e => (d1, Raise e)
          | Ok None => (d1, Raise UnmappedInstanceError)
          | Ok (Some q) =>
              let d2 := delete_task_instance_parameter d1 q in
              match parameters d2 task_instance !! key with
              | None => (d2, Ok true)
              | Some _ => (d2, Raise AssertionError)
              end
          end
      end
  end.

Fixpoint update_task_instance_parameters (d : db) (task_instance : Z)
    (params : list (string * pyval)) : db * result bool :=
  match params with
  | [] => (d, Ok true)
  | (key, value) :: rest =>
      match del_task_instance_parameter d task_instance key with
      | (d1, Raise e) => (d1, Raise e)
      | (d1, Ok _) =>
          match add_task_instance_parameter d1 task_instance key value with
          | Raise e => (d1, Raise e)
          | Ok (_, d2) => update_task_instance_parameters d2 task_instance rest
          end
      end
  end.

(** [task_instance_or_pk] is an instance or a primary key.  When the key
    resolves to no row, building the message of the [ValueError] reads
    the name [task_instance_pk], which is bound nowhere (the argument is
    [task_instance_or_pk]): that read raises [NameError]. *)
Definition create_task_output (d : db)
    (task_instance_or_pk : TaskInstance + Z) (model : string)
    (kwargs : list (string * pyval)) : db * result OutputRecord :=
  let resolved :=
    match task_instance_or_pk with
    | inl task_instance => Ok task_instance
    | inr pk =>
        match one_or_none (filter (fun t => ti_pk t = pk) (task_instance d)) with
        | Raise e => Raise e
        | Ok None => Raise (NameError "task_instance_pk")
        | Ok (Some task_instance) => Ok task_instance
        end
    end in
  match resolved with
  | Raise e => (d, Raise e)
  | Ok task_instance =>
      let '(output_interface, d1) := insert_output_interface d in
      let kwds := [("ti_pk", PInt (ti_pk task_instance));
                   ("output_pk", PInt (oi_pk output_interface))] in
      let kwds := dict_update kwds kwargs in
      let d2 := insert_output_record d1 model kwds in
      let d3 := update_task_instance_output d2 (ti_pk task_instance)
                                            (oi_pk output_interface) in
      (d3, Ok kwds)
  end.

End registry.

(** Invariants of the stored tables. *)

Definition pair_of (p : ParameterRow) : string * string :=
  (parameter_name p, parameter_value p).

(** At most one [parameter] row for a (name, value) pair. *)
Definition unique_pairs (d : db) : Prop :=
  NoDup (map pair_of (parameter d)).

(** [pk] is the primary key of [parameter]. *)
Definition unique_parameter_pks (d : db) : Prop :=
  NoDup (map p_pk (parameter d)).

(** What holds of a caller in a given state: a caller that has seen a
    conflict finds a stored row, a caller that has returned holds the
    primary key of the one stored row, and a caller has failed only
    inside a transaction, with the error of the session, while the row
    it was after is stored. *)
Definition caller_ok (in_transaction : bool) (name value : string) (d : db)
    (st : call_state) : Prop :=
  match st with
  | Start | Creating => True
  | Conflict => find_parameter d name value ≠ []
  | Returned pk _ =>
      ∃ row, find_parameter d name value = [row] ∧ p_pk row = pk
  | Failed e =>
      in_transaction = true ∧ e = InvalidRequestError
      ∧ find_parameter d name value ≠ []
  end.

(** Whether a caller of a race calls inside a transaction. *)
Definition inside (in1 in2 : bool) (who : bool) : bool :=
  if who then in2 else in1.

(** The statements a call has left, at most. *)
Definition statements_left (st : call_state) : nat :=
  match st with
  | Start => 3
  | Creating => 2
  | Conflict => 1
  | Returned _ _ | Failed _ => 0
  end.

Definition caller (who : bool) (r : race) : call_state :=
  if who then caller2 r else caller1 r.

(** A reference to the task instance whose row is [t]: an instance
    object with the primary key of [t], or that primary key. *)
Definition refers_to (ref : TaskInstance + Z) (t : TaskInstance) : Prop :=
  match ref with
  | inl t' => ti_pk t' = ti_pk t
  | inr pk => pk = ti_pk t
  end.


End Registry.

(** ** A JSON codec for nested integer lists

    The functions above take json as a parameter.  This codec covers the
    fragment of JSON that serialised primary keys live in (integers,
    arrays, and strings without escapes when reading) and is what the
    examples run on. *)

Module MiniJson.

Inductive token : Type :=
  | TOpen
  | TClose
  | TComma
  | TNum (z : Z)
  | TStr (s : string).

Definition digit (c : Ascii.ascii) : option Z :=
  let n := Ascii.nat_of_ascii c in
  if decide (48 ≤ n ∧ n ≤ 57)%nat then Some (Z.of_nat (n - 48)) else None.

Definition number_token (num : option (bool * Z)) : list token :=
  match num with
  | None => []
  | Some (negative, n) => [TNum (if negative then - n else n)]
  end.

(** The lexer reads the text left to right; [num] is the number being
    read, if any, and [str] the string being read, if any, last
    character first.  A string runs from one double quote to the next. *)
Fixpoint lex (cs : list Ascii.ascii) (num : option (bool * Z))
    (str : option (list Ascii.ascii)) : option (list token) :=
  match cs with
  | [] =>
      match str with
      | Some _ => None
      | None => Some (number_token num)
      end
  | c :: cs' =>
      match str with
      | Some acc =>
          if decide (c = Pks.double_quote) then
            rest ← lex cs' None None;
            Some (TStr (String.string_of_list_ascii (reverse acc)) :: rest)
          else lex cs' None (Some (c :: acc))
      | None =>
          match digit c with
          | Some d =>
              lex cs' (Some (match num with
                             | None => (false, d)
                             | Some (negative, n) => (negative, 10 * n + d)
                             end)) None
          | None =>
              if decide (c = "-"%char) then
                match num with
                | None => lex cs' (Some (true, 0)) None
                | Some _ => None
                end
              else if decide (c = Pks.double_quote) then
                rest ← lex cs' None (Some []);
                Some (number_token num ++ rest)
              else
                tok ← (if decide (c = "["%char) then Some [TOpen]
                       else if decide (c = "]"%char) then Some [TClose]
                       else if decide (c = ","%char) then Some [TComma]
                       else if decide (c = " "%char) then Some []
                       else None);
                rest ← lex cs' None None;
                Some (number_token num ++ tok ++ rest)
          end
      end
  end.

(** The parser keeps the arrays that are still open, innermost first and
    each in reverse; [after_value] says that a value has just ended. *)
Fixpoint parse (ts : list token) (open : list (list pyval))
    (after_value : bool) (top : option pyval) : option pyval :=
  match ts with
  | [] => match open with [] => top | _ :: _ => None end
  | TNum z :: ts' =>
      if after_value then None
      else
        match open with
        | [] => parse ts' [] true (Some (PInt z))
        | cur :: outer => parse ts' ((PInt z :: cur) :: outer) true top
        end
  | TStr str :: ts' =>
      if after_value then None
      else
        match open with
        | [] => parse ts' [] true (Some (PStr str))
        | cur :: outer => parse ts' ((PStr str :: cur) :: outer) true top
        end
  | TOpen :: ts' =>
      if after_value then None else parse ts' ([] :: open) false top
  | TComma :: ts' =>
      match open with
      | [] => None
      | _ :: _ => if after_value then parse ts' open false top else None
      end
  | TClose :: ts' =>
      match open with
      | [] => None
      | cur :: outer =>
          if after_value || bool_decide (cur = []) then
            let v := PList (reverse cur) in
            match outer with
            | [] => parse ts' [] true (Some v)
            | cur' :: outer' => parse ts' ((v :: cur') :: outer') true top
            end
          else None
      end
  end.

Definition loads (s : string) : option pyval :=
  ts ← lex (String.list_ascii_of_string s) None None;
  parse ts [] false None.

Fixpoint dumps (v : pyval) : option string :=
  match v with
  | PInt z => Some (pretty z)
  | PList l | PTuple l =>
      items ← (fix go (l : list pyval) : option (list string) :=
                 match l with
                 | [] => Some []
                 | x :: l' => s ← dumps x; ss ← go l'; Some (s :: ss)
                 end) l;
      Some ("[" +:+ String.concat ", " items +:+ "]")
  | _ => None
  end.

(** [create_task_instance] run for its effect on the store. *)
Definition with_task_instance (dag task run : string)
    (parameters : list (string * pyval)) (d : Db.db) : Db.db :=
  (Registry.create_task_instance dumps d dag task (Some run) (Some parameters)).1.

(** A store with three task instances of one task: the first with the
    parameters release and mjd, the second with release only, the third
    with release, mjd and healpix. *)
Definition three_instances : Db.db :=
  with_task_instance "ingest" "classify" "r1"
    [("release", PStr "sdss5"); ("mjd", PInt 59000); ("healpix", PInt 7)]
    (with_task_instance "ingest" "classify" "r1" [("release", PStr "sdss5")]
       (with_task_instance "ingest" "classify" "r1"
          [("release", PStr "sdss5"); ("mjd", PInt 59000)] Db.empty_db)).

(** A store in which the same request was registered twice. *)
Definition twice_registered : Db.db :=
  with_task_instance "ingest" "classify" "r1"
    [("mjd", PInt 59000); ("release", PStr "sdss5")]
    (with_task_instance "ingest" "classify" "r1"
       [("release", PStr "sdss5"); ("mjd", PInt 59000)] Db.empty_db).

(** A [mktemp] that numbers its files. *)
Definition mktemp (kwds : list (string * string)) (fs : Pks.filesystem)
    : string :=
  "/tmp/tmp" +:+ pretty (size fs).

End MiniJson.

(** ** Further definitions: measures and shapes used by the properties *)

Module Shapes.

(** How many of the pulls [i], ..., [i + n - 1] end on a checkpoint. *)
Definition checkpoints (check_point : nat -> nat -> bool) (freq i n : nat)
    : nat :=
  length (filter (fun j => check_point freq j = true) (seq i n)).

(** A primary key as [deserialize_pks] returns it: an integer (or a
    bool, which Python counts as one). *)
Definition is_key (v : pyval) : bool :=
  match v with
  | PInt _ | PBool _ => true
  | _ => false
  end.

(** Nested lists of keys. *)
Fixpoint key_tree (v : pyval) : bool :=
  match v with
  | PInt _ | PBool _ => true
  | PList l => forallb key_tree l
  | _ => false
  end.

(** [d[k]] on a dict kept as an association list. *)
Fixpoint dict_get {V} (k : string) (d : list (string * V)) : option V :=
  match d with
  | [] => None
  | (k', v) :: d' => if decide (k' = k) then Some v else dict_get k d'
  end.

End Shapes.

(** ** What the tables of a store in use look like *)

Module Store.
Import Db.

(** The constraints of the schema as the functions rely on them: the
    (name, value) pairs and the primary keys are unique, every key in
    use was handed out by its sequence, every link names a stored task
    instance and a stored parameter, and every [output_pk] names a
    stored output interface. *)
Record well_formed (d : db) : Prop := {
  wf_pairs : Registry.unique_pairs d;
  wf_parameter_pks : Registry.unique_parameter_pks d;
  wf_parameter_seq : ∀ p, p ∈ parameter d → p_pk p < parameter_seq d;
  wf_task_instance_pks : NoDup (map ti_pk (task_instance d));
  wf_task_instance_seq :
    ∀ t, t ∈ task_instance d → ti_pk t < task_instance_seq d;
  wf_links :
    ∀ r, r ∈ task_instance_parameter d →
         tip_ti_pk r ∈ map ti_pk (task_instance d)
         ∧ tip_parameter_pk r ∈ map p_pk (parameter d);
  wf_output_seq :
    ∀ o, o ∈ output_interface d → oi_pk o < output_interface_seq d;
  wf_outputs :
    ∀ t o, t ∈ task_instance d → output_pk t = Some o →
           {| oi_pk := o |} ∈ output_interface d
}.

(** The rows the last query of [get_task_instance] selects, for the
    serialised pairs [wanted]. *)
Definition candidates (d : db) (dag task : string) (run : option string)
    (wanted : list (string * string)) : list TaskInstance :=
  filter (fun t =>
            ti_pk t ∈ Registry.sq_exact d
                        (Registry.sq_all d (map p_pk (Registry.q_p d wanted))
                                         (length (Registry.q_p d wanted)))
                        (length wanted)
            ∧ dag_id t = dag ∧ task_id t = task ∧ Registry.matches_run run t)
         (task_instance d).

(** Every pair of [wanted] has a row in [parameter]. *)
Definition all_stored (d : db) (wanted : list (string * string)) : Prop :=
  ∀ kv, kv ∈ wanted → find_parameter d kv.1 kv.2 ≠ [].

End Store.

(** ** Bulk creation of task instances
       ([astra/database/utils.py], lines 307-570) *)

Module Bulk.
Import Db.

(** What a creator returns: the list of primary keys, or the path of the
    file they were written to. *)
Inductive created : Type :=
  | Pks (pks : list Z)
  | Path (path : string).

(** A dict of identifying keywords. *)
Definition kwds : Type := list (string * pyval).

Section bulk.
Variable json_dumps : pyval → option string.
Variable json_loads : string → option pyval.
Variable mktemp : list (string * string) → Pks.filesystem → string.

(** The loop of a creator: one call of [get_or_create_task_instance] per
    dict of keywords, with [{**kwds, **parameters}]; the store is
    returned as the loop leaves it, also when a call raises. *)
Fixpoint create_each (d : db) (dag_id task_id : string)
    (run_id : option string) (all_kwds : list kwds) (parameters : kwds)
    (pks : list Z) : db * result (list Z) :=
  match all_kwds with
  | [] => (d, Ok pks)
  | kwds :: rest =>
      match Registry.get_or_create_task_instance json_dumps d dag_id task_id
              run_id (Some (dict_update kwds parameters)) with
      | (d1, Ok instance) =>
          create_each d1 dag_id task_id run_id rest parameters
                      (pks ++ [ti_pk instance])
      | (d1, Raise e) => (d1, Raise e)
      end
  end.

(** [if not pks or return_list: return pks], else the path of the file
    the keys are dumped to. *)
Definition return_pks (fs : Pks.filesystem) (pks : list Z)
    (return_list : bool) (kwargs : list (string * string))
    : result (created * Pks.filesystem) :=
  if bool_decide (pks = []) || return_list then Ok (Pks pks, fs)
  else
    '(path, fs') ← Pks.serialize_pks_to_path json_dumps mktemp fs
                     (PList (map PInt pks)) kwargs;
    mret (Path path, fs').

(** The body the three creators share; they differ in the query that
    gives [all_kwds]. *)
Definition create_task_instances_for (all_kwds : result (list kwds))
    (d : db) (fs : Pks.filesystem) (dag_id task_id : string)
    (run_id : option string) (parameters : option kwds)
    (return_list : bool) (kwargs : list (string * string))
    : db * result (created * Pks.filesystem) :=
  let parameters := default [] parameters in
  match all_kwds with
  | Raise e => (d, Raise e)
  | Ok all_kwds =>
      match create_each d dag_id task_id run_id all_kwds parameters [] with
      | (d1, Raise e) => (d1, Raise e)
      | (d1, Ok pks) => (d1, return_pks fs pks return_list kwargs)
      end
  end.

(** The queries on the tables of the data reduction pipelines, which
    are not part of the sources: the dicts of keywords they give. *)
Variable get_sdss5_apvisit_kwds : pyval → pyval → result (list kwds).
Variable get_sdss5_boss_kwds : pyval → pyval → result (list kwds).
Variable get_sdss5_apstar_kwds : pyval → option Z → result (list kwds).

Definition create_task_instances_for_sdss5_apvisits (d : db)
    (fs : Pks.filesystem) (dag_id task_id : string) (run_id : option string)
    (mjd_start mjd_end : pyval) (parameters : option kwds)
    (return_list : bool) (kwargs : list (string * string))
    : db * result (created * Pks.filesystem) :=
  create_task_instances_for (get_sdss5_apvisit_kwds mjd_start mjd_end)
    d fs dag_id task_id run_id parameters return_list kwargs.

Definition create_task_instances_for_sdss5_boss (d : db)
    (fs : Pks.filesystem) (dag_id task_id : string) (run_id : option string)
    (mjd_start mjd_end : pyval) (parameters : option kwds)
    (return_list : bool) (kwargs : list (string * string))
    : db * result (created * Pks.filesystem) :=
  create_task_instances_for (get_sdss5_boss_kwds mjd_start mjd_end)
    d fs dag_id task_id run_id parameters return_list kwargs.

Definition create_task_instances_for_sdss5_apstars (d : db)
    (fs : Pks.filesystem) (dag_id task_id : string) (run_id : option string)
    (mjd : pyval) (parameters : option kwds) (limit : option Z)
    (return_list : bool) (kwargs : list (string * string))
    : db * result (created * Pks.filesystem) :=
  create_task_instances_for (get_sdss5_apstar_kwds mjd limit)
    d fs dag_id task_id run_id parameters return_list kwargs.

(** *** [create_task_instances_for_sdss5_apstars_from_apvisits] *)

(** What the store answers when the key of the query is not an integer,
    and the query on [apogee_drp.Star] for the healpix of a star, by
    [apred], [telescope] and [obj]. *)
Variable task_instance_with_other_pk :
  db → pyval → result (option TaskInstance).
Variable star_healpix : string → string → string → result (option pyval).

Definition keys : list string := ["telescope"; "obj"; "apred"].

(** [session.query(TaskInstance).filter(TaskInstance.pk == pk).one_or_none()] *)
Definition task_instance_with_pk (d : db) (pk : pyval)
    : result (option TaskInstance) :=
  match pk with
  | PInt z => one_or_none (filter (fun t => ti_pk t = z) (task_instance d))
  | _ => task_instance_with_other_pk d pk
  end.

(** [[instance.parameters[k] for k in keys]] *)
Fixpoint parameters_of (m : gmap string string) (ks : list string)
    : result (list string) :=
  match ks with
  | [] => Ok []
  | k :: ks' =>
      match m !! k with
      | None => Raise (OtherError "KeyError")
      | Some v => vs ← parameters_of m ks'; mret (v :: vs)
      end
  end.

(** The first loop: the keywords of the stars of the visits, with the
    keys for which a warning was logged. *)
Fixpoint star_keywords_of (d : db) (apvisit_pks : list pyval)
    : list pyval * result (list (list string)) :=
  match apvisit_pks with
  | [] => ([], Ok [])
  | pk :: rest =>
      match task_instance_with_pk d pk with
      | Raise e => ([], Raise e)
      | Ok None =>
          let '(warned, r) := star_keywords_of d rest in (pk :: warned, r)
      | Ok (Some instance) =>
          match parameters_of (parameters d (ti_pk instance)) keys with
          | Raise e => ([], Raise e)
          | Ok values =>
              let '(warned, r) := star_keywords_of d rest in
              (warned, r' ← r; mret (values :: r'))
          end
      end
  end.

(** [set(star_keywords)]: the items are lists, which cannot be hashed. *)
Definition set_of_lists {A} (items : list (list A)) : result (list (list A)) :=
  match items with
  | [] => Ok []
  | _ :: _ => Raise (TypeError "unhashable type: 'list'")
  end.

(** The second loop.  The arguments of the call of
    [get_or_create_task_instance] are evaluated before the call; the
    name [run_id] is bound nowhere in the function nor in the module. *)
Fixpoint create_stars (d : db) (dag_id task_id : string)
    (star_keywords : list (list string)) (parameters : kwds) (pks : list Z)
    : db * result (list Z) :=
  match star_keywords with
  | [] => (d, Ok pks)
  | [telescope; obj; apred] :: rest =>
      match star_healpix apred telescope obj with
      | Raise e => (d, Raise e)
      | Ok None => create_stars d dag_id task_id rest parameters pks
      | Ok (Some healpix) =>
          let kwds := [("apstar", PStr "stars"); ("release", PStr "sdss5");
                       ("filetype", PStr "apStar"); ("healpix", healpix);
                       ("apred", PStr apred); ("telescope", PStr telescope);
                       ("obj", PStr obj)] in
          match (Raise (NameError "run_id") : result (option string)) with
          | Raise e => (d, Raise e)
          | Ok run_id =>
              match Registry.get_or_create_task_instance json_dumps d dag_id
                      task_id run_id (Some (dict_update kwds parameters)) with
              | (d1, Ok instance) =>
                  create_stars d1 dag_id task_id rest parameters
                               (pks ++ [ti_pk instance])
              | (d1, Raise e) => (d1, Raise e)
              end
          end
      end
  | item :: _ =>
      (d, Raise (ValueError (if decide (length item < 3)%nat
                             then "not enough values to unpack"
                             else "too many values to unpack")))
  end.

(** The log holds the warnings of [deserialize_pks] and the keys that
    matched no task instance. *)
Definition create_task_instances_for_sdss5_apstars_from_apvisits
    (fuel : nat) (d : db) (fs : Pks.filesystem) (dag_id task_id : string)
    (apvisit_pks : pyval) (parameters : option kwds) (return_list : bool)
    (kwargs : list (string * string))
    : (list Pks.log_record * list pyval) * db
      * result (created * Pks.filesystem) :=
  let parameters := default [] parameters in
  match Pks.deserialize_pks json_loads fuel fs apvisit_pks true with
  | (lg, Raise e) => ((lg, []), d, Raise e)
  | (lg, Ok apvisit_pks) =>
      match Pks.iterate apvisit_pks with
      | Raise e => ((lg, []), d, Raise e)
      | Ok items =>
          match star_keywords_of d items with
          | (warned, Raise e) => ((lg, warned), d, Raise e)
          | (warned, Ok star_keywords) =>
              match set_of_lists star_keywords with
              | Raise e => ((lg, warned), d, Raise e)
              | Ok star_keywords =>
                  match create_stars d dag_id task_id star_keywords
                                     parameters [] with
                  | (d1, Raise e) => ((lg, warned), d1, Raise e)
                  | (d1, Ok pks) =>
                      ((lg, warned), d1, return_pks fs pks return_list kwargs)
                  end
              end
          end
      end
  end.

End bulk.

(** The keys [n], [n + 1], ..., one per item. *)
Fixpoint keys_from {A} (n : Z) (items : list A) : list Z :=
  match items with
  | [] => []
  | _ :: rest => n :: keys_from (n + 1) rest
  end.

(** The rows of [task_instance] the creators add. *)
Definition rows_from {A} (n : Z) (dag task : string) (run : option string)
    (items : list A) : list TaskInstance :=
  map (fun pk => {| ti_pk := pk; dag_id := dag; task_id := task;
                    run_id := run; output_pk := None |})
      (keys_from n items).

End Bulk.

(** ** Sample inputs of the bulk creators *)

Module Samples.

(** The keywords of two stars. *)
Definition two_stars : list Bulk.kwds :=
  [ [("obj", PStr "2M1"); ("release", PStr "sdss5")];
    [("obj", PStr "2M2"); ("release", PStr "sdss5")] ].

(** A store with one visit that has the three keywords of its star. *)
Definition one_visit : Db.db :=
  MiniJson.with_task_instance "ingest" "visit" "r1"
    [("telescope", PStr "apo25m"); ("obj", PStr "2M0"); ("apred", PStr "1.0")]
    Db.empty_db.

End Samples.

(** * Properties *)

(** ** The task runner *)

Module RunnerFacts.
Import Runner.

Section facts.
Context {R : Type}.
Variable ensure_table : nat -> list R -> option exn.
Variable db_write : nat -> list R -> nat -> write_outcome.
Variable check_point : nat -> nat -> bool.

Abbreviation loop := (task_loop ensure_table db_write check_point).
Abbreviation task := (Runner.task ensure_table db_write check_point).

Abbreviation writes_complete := (writes_complete ensure_table db_write).

Lemma bulk_insert_complete re_raise i b n :
  writes_complete re_raise →
  _bulk_insert ensure_table db_write i b n re_raise = Ok tt.
Proof.
  intros [Htable [-> | Hsaved]]; unfold _bulk_insert;
    destruct b as [|r b]; trivial; rewrite Htable.
  - destruct (db_write _ _); reflexivity.
  - rewrite Hsaved. reflexivity.
Qed.

(** The pulls of a body that only yields, and of one that raises. *)
Lemma pulls_of_yields (rs : list R) :
  pulls_of (map Yielded rs) = map Yielded rs.
Proof. induction rs as [|r rs IH]; simpl; [|rewrite IH]; reflexivity. Qed.

Lemma pulls_of_raise (rs : list R) (e : exn) (post : list (pull R)) :
  pulls_of (map Yielded rs ++ Raised e :: post) = map Yielded rs ++ [Raised e].
Proof. induction rs as [|r rs IH]; simpl; [|rewrite IH]; reflexivity. Qed.

Lemma emitted_app (t1 t2 : list (event R)) :
  emitted (t1 ++ t2) = emitted t1 ++ emitted t2.
Proof. apply omap_app. Qed.

Lemma batches_app (t1 t2 : list (event R)) :
  batches (t1 ++ t2) = batches t1 ++ batches t2.
Proof. apply omap_app. Qed.

Lemma logged_app (t1 t2 : list (event R)) :
  logged (t1 ++ t2) = logged t1 ++ logged t2.
Proof. apply omap_app. Qed.

Lemma emitted_emits (b : list R) : emitted (map Emit b) = b.
Proof. induction b as [|r b IH]; simpl; [|rewrite IH]; reflexivity. Qed.

Lemma batches_emits (b : list R) : batches (map Emit b) = [].
Proof. induction b as [|r b IH]; simpl; trivial. Qed.

Lemma logged_emits (b : list R) : logged (map Emit b) = [].
Proof. induction b as [|r b IH]; simpl; trivial. Qed.

Lemma emitted_flush (b : list R) : emitted (flush_block b) = b.
Proof. apply emitted_emits. Qed.

Lemma batches_flush (b : list R) : batches (flush_block b) = [b].
Proof. unfold flush_block; simpl. rewrite batches_emits. reflexivity. Qed.

Lemma logged_flush (b : list R) : logged (flush_block b) = [].
Proof. apply logged_emits. Qed.

(** A run over a computation that only yields, seen from the middle of
    the loop. *)
Lemma loop_yields freq bsize re_raise rs :
  writes_complete re_raise →
  ∀ i pending,
    ∃ bl, loop freq bsize re_raise (map Yielded rs) i pending
            = (flat_map flush_block bl, Ok tt)
          ∧ concat bl = pending ++ rs.
Proof.
  intros Hw. induction rs as [|r rs IH]; intros i pending; simpl.
  - rewrite bulk_insert_complete by assumption.
    exists [pending]. simpl. rewrite !app_nil_r. auto.
  - destruct (check_point freq i).
    + rewrite bulk_insert_complete by assumption.
      destruct (IH (S i) []) as (bl & -> & Hbl).
      exists ((pending ++ [r]) :: bl). split; [reflexivity|].
      simpl. rewrite Hbl. simpl. rewrite <- app_assoc. reflexivity.
    + destruct (IH (S i) (pending ++ [r])) as (bl & -> & Hbl).
      exists bl. split; [reflexivity|].
      rewrite Hbl, <- app_assoc. reflexivity.
Qed.

Lemma emitted_blocks (bl : list (list R)) :
  emitted (flat_map flush_block bl) = concat bl.
Proof.
  induction bl as [|b bl IH]; [reflexivity|].
  cbn [flat_map concat]. rewrite emitted_app, emitted_flush, IH. reflexivity.
Qed.

Lemma batches_blocks (bl : list (list R)) :
  batches (flat_map flush_block bl) = bl.
Proof.
  induction bl as [|b bl IH]; [reflexivity|].
  cbn [flat_map]. rewrite batches_app, batches_flush, IH. reflexivity.
Qed.

(** With no checkpoint ahead, everything pending goes out in the final
    flush. *)
Lemma loop_no_checkpoint freq bsize re_raise rs :
  writes_complete re_raise →
  ∀ i pending,
    (∀ j, i ≤ j < i + length rs → check_point freq j = false)%nat →
    loop freq bsize re_raise (map Yielded rs) i pending
      = (flush_block (pending ++ rs), Ok tt).
Proof.
  intros Hw. induction rs as [|r rs IH]; intros i pending Hcp; simpl.
  - rewrite bulk_insert_complete by assumption. rewrite app_nil_r. reflexivity.
  - rewrite Hcp by (simpl; lia).
    rewrite IH.
    + rewrite <- app_assoc. reflexivity.
    + intros j Hj. apply Hcp. simpl. lia.
Qed.

(** The trace up to a checkpoint is a prefix of the whole trace, and
    the run restarts there with an empty batch. *)
Lemma loop_split freq bsize re_raise rs1 rs2 :
  writes_complete re_raise →
  ∀ i pending,
    (rs1 = [] ∧ pending = [] ∨
     rs1 ≠ [] ∧ check_point freq (i + length rs1 - 1) = true)%nat →
    ∃ tr1,
      loop freq bsize re_raise (map Yielded (rs1 ++ rs2)) i pending
      = (tr1 ++ (loop freq bsize re_raise (map Yielded rs2)
                      (i + length rs1) []).1, Ok tt).
Proof.
  intros Hw. induction rs1 as [|r rs1 IH]; intros i pending Hcp.
  - destruct Hcp as [[_ ->] | [Hne _]]; [|done].
    exists []. simpl. rewrite Nat.add_0_r.
    destruct (loop_yields freq bsize re_raise rs2 Hw i []) as (bl & -> & _).
    reflexivity.
  - destruct Hcp as [[Hnil _] | [_ Hcp]]; [done|].
    simpl in Hcp. cbn [app map task_loop].
    destruct rs1 as [|r' rs1].
    + simpl in *. replace (i + 1 - 1)%nat with i in Hcp by lia. rewrite Hcp.
      rewrite bulk_insert_complete by assumption.
      replace (i + 1)%nat with (S i) by lia.
      destruct (loop_yields freq bsize re_raise rs2 Hw (S i) []) as (bl & -> & _).
      eexists (BulkInsert (pending ++ [r]) :: map Emit (pending ++ [r])).
      simpl. reflexivity.
    + assert (Hcp' : check_point freq (S i + length (r' :: rs1) - 1)%nat = true).
      { rewrite <- Hcp. f_equal. simpl. lia. }
      assert (Hne : r' :: rs1 ≠ []) by done.
      replace (i + length (r :: r' :: rs1))%nat
        with (S i + length (r' :: rs1))%nat by (simpl; lia).
      destruct (check_point freq i).
      * rewrite bulk_insert_complete by assumption.
        destruct (IH (S i) [] (or_intror (conj Hne Hcp'))) as (tr1 & ->).
        eexists (BulkInsert (pending ++ [r]) :: map Emit (pending ++ [r]) ++ tr1).
        simpl. rewrite <- app_assoc. reflexivity.
      * destruct (IH (S i) (pending ++ [r]) (or_intror (conj Hne Hcp')))
          as (tr1 & ->).
        exists tr1. reflexivity.
Qed.

(** What a run that swallows errors does with any sequence of pulls. *)
Lemma loop_swallow freq bsize pulls :
  (∀ i b, ensure_table i b = None) →
  ∀ i pending,
    ∃ tr, loop freq bsize false pulls i pending = (tr, Ok tt)
          ∧ emitted tr = pending ++ yields pulls
          ∧ concat (batches tr) = pending ++ yields pulls
          ∧ logged tr = raised pulls.
Proof.
  intros Htable.
  assert (bulk_insert_swallow :
            ∀ i b n, _bulk_insert ensure_table db_write i b n false = Ok tt).
  { intros i b n. apply bulk_insert_complete. split; auto. }
  induction pulls as [|[r|e] pulls IH]; intros i pending; cbn [task_loop].
  - rewrite bulk_insert_swallow. eexists; split; [reflexivity|].
    change (BulkInsert pending :: map Emit pending) with (flush_block pending).
    rewrite emitted_flush, batches_flush, logged_flush. simpl.
    rewrite !app_nil_r. auto.
  - destruct (check_point freq i).
    + rewrite bulk_insert_swallow.
      destruct (IH (S i) []) as (tr & -> & He & Hb & Hl).
      eexists; split; [reflexivity|].
      change (BulkInsert ?b :: map Emit ?b ++ tr) with (flush_block b ++ tr).
      rewrite emitted_app, batches_app, logged_app, emitted_flush, batches_flush.
      rewrite logged_flush, Hl. cbn [app concat]. rewrite He, Hb.
      simpl. rewrite <- !app_assoc. auto.
    + destruct (IH (S i) (pending ++ [r])) as (tr & -> & He & Hb & Hl).
      eexists; split; [reflexivity|].
      rewrite He, Hb, Hl, <- !app_assoc. auto.
  - destruct (IH (S i) pending) as (tr & -> & He & Hb & Hl).
    eexists; split; [reflexivity|]. simpl.
    change (omap _ tr) with (logged tr). rewrite Hl. auto.
Qed.


(** In a trace made of flush blocks every emitted record comes after
    the write of a batch that holds it. *)
Lemma blocks_emit_after_write (bl : list (list R)) tr1 r tr2 :
  flat_map flush_block bl = tr1 ++ Emit r :: tr2 →
  ∃ b, BulkInsert b ∈ tr1 ∧ r ∈ b.
Proof.
  revert tr1. induction bl as [|b bl IH]; intros tr1 Heq.
  - destruct tr1; discriminate.
  - cbn [flat_map] in Heq.
    destruct (decide (length tr1 < length (flush_block b))%nat) as [Hlt|Hge].
    + (* the emission lies in the first block *)
      assert (Hr : (flush_block b ++ flat_map flush_block bl) !! length tr1
                   = Some (Emit r)).
      { rewrite Heq. rewrite lookup_app_r by lia.
        rewrite Nat.sub_diag. reflexivity. }
      rewrite lookup_app_l in Hr by lia.
      destruct tr1 as [|ev tr1]; [discriminate|].
      injection Heq as <- _. exists b. split; [apply list_elem_of_here|].
      simpl in Hr. apply list_elem_of_lookup_2 in Hr.
      apply list_elem_of_fmap in Hr as (r' & [= ->] & Hr'). exact Hr'.
    + (* the first block is over: look in the rest *)
      assert (Htake : take (length (flush_block b)) tr1 = flush_block b).
      { apply (f_equal (take (length (flush_block b)))) in Heq.
        rewrite take_app_length in Heq.
        rewrite take_app_le in Heq by lia. symmetry. exact Heq. }
      assert (Hpre : tr1 = flush_block b ++ drop (length (flush_block b)) tr1).
      { rewrite <- Htake at 1. symmetry. apply take_drop. }
      rewrite Hpre, <- app_assoc in Heq. apply app_inv_head in Heq.
      destruct (IH _ Heq) as (b' & Hb' & Hr').
      exists b'. split; [|exact Hr']. rewrite Hpre.
      apply elem_of_app. right. exact Hb'.
Qed.

(** C2.  A computation that yields the records [rs] and then stops,
    run with any clock and any keywords under which no write error
    reaches the runner: the run completes; its trace is a sequence of
    flushes, each one the batch handed to the writer followed by the
    emission of exactly the records of that batch, so the caller
    receives [rs], record for record and in order ([length rs] of
    them), every record only after the write of a batch that holds it;
    the batches handed to the writer add up to [rs]; and what is
    pending when the computation is exhausted (the records after the
    last checkpoint) leaves in a last flush. *)
Theorem task_checkpoint_boundary (kwargs : task_kwargs) (rs : list R) :
  writes_complete (default true (re_raise_exceptions kwargs)) →
  ∃ tr,
    task (GeneratorFunction (map Yielded rs)) kwargs
      = (tr, Ok tt)
    ∧ emitted tr = rs
    ∧ length (emitted tr) = length rs
    ∧ tr = flat_map flush_block (batches tr)
    ∧ (∀ tr1 r tr2, tr = tr1 ++ Emit r :: tr2 →
         ∃ b, BulkInsert b ∈ tr1 ∧ r ∈ b)
    ∧ concat (batches tr) = rs
    ∧ sum_list (map length (batches tr)) = length rs
    ∧ (∀ k, (k ≤ length rs)%nat →
         (k = 0 ∨ check_point (default 300 (frequency kwargs)) (k - 1)
                  = true)%nat →
         (∀ j, k ≤ j < length rs →
               check_point (default 300 (frequency kwargs)) j = false)%nat →
         ∃ tr', tr = tr' ++ flush_block (drop k rs)).
Proof.
  intros Hw. unfold Runner.task. rewrite pulls_of_yields.
  set (freq := default 300%nat (frequency kwargs)).
  set (bsize := default 999%nat (batch_size kwargs)).
  set (rr := default true (re_raise_exceptions kwargs)) in *.
  destruct (loop_yields freq bsize rr rs Hw 0 []) as (bl & Hrun & Hbl).
  simpl in Hbl. exists (flat_map flush_block bl).
  split; [exact Hrun|].
  rewrite emitted_blocks, batches_blocks, Hbl.
  split_and!; try reflexivity.
  - apply blocks_emit_after_write.
  - rewrite <- Hbl. clear. induction bl as [|b bl IH]; [reflexivity|].
    simpl. rewrite length_app, IH. reflexivity.
  - intros k Hk Hcp Hno.
    assert (Hcp' : (take k rs = [] ∧ @nil R = []
                    ∨ take k rs ≠ []
                      ∧ check_point freq (0 + length (take k rs) - 1) = true)%nat).
    { rewrite length_take_le by lia. destruct Hcp as [-> | Hcp].
      - left. rewrite take_0. done.
      - destruct k as [|k]; [left; rewrite take_0; done|].
        right. split; [|exact Hcp].
        destruct rs; simpl in *; [lia | done]. }
    destruct (loop_split freq bsize rr (take k rs) (drop k rs) Hw 0 [] Hcp')
      as (tr1 & Hsplit).
    rewrite take_drop, Hrun in Hsplit.
    rewrite length_take_le in Hsplit by lia.
    rewrite loop_no_checkpoint in Hsplit; trivial.
    + injection Hsplit as ->. exists tr1. reflexivity.
    + intros j Hj. apply Hno. rewrite length_drop in Hj. lia.
Qed.



End facts.

(** The run of C2 on three records with a checkpoint after the first
    pull only. *)
Lemma task_checkpoint_boundary_witness :
  ∃ tr,
    task (λ _ _, None) (λ _ _ _, Saved) (λ _ i, bool_decide (i = 0%nat))
         (GeneratorFunction (map Yielded [10; 20; 30])) no_kwargs
      = (tr, Ok tt)
    ∧ emitted tr = [10; 20; 30]
    ∧ length (emitted tr) = 3%nat
    ∧ tr = flat_map flush_block (batches tr)
    ∧ (∀ tr1 r tr2, tr = tr1 ++ Emit r :: tr2 →
         ∃ b, BulkInsert b ∈ tr1 ∧ r ∈ b)
    ∧ concat (batches tr) = [10; 20; 30]
    ∧ sum_list (map length (batches tr)) = 3%nat
    ∧ (∀ k, (k ≤ 3)%nat →
         (k = 0 ∨ bool_decide (k - 1 = 0) = true)%nat →
         (∀ j, k ≤ j < 3 → bool_decide (j = 0) = false)%nat →
         ∃ tr', tr = tr' ++ flush_block (drop k [10; 20; 30])).
Proof.
  apply (task_checkpoint_boundary (λ _ _, None) (λ _ _ _, Saved)
           (λ _ i, bool_decide (i = 0%nat)) no_kwargs [10; 20; 30]).
  split; [reflexivity | right; reflexivity].
Defined.



Example task_swallows_at_checkpoint :
  task (λ _ _, None) (λ _ _ _, Saved) (λ _ _, true)
       (GeneratorFunction [Yielded 10; Yielded 20;
                           Raised (OtherError "boom"); Yielded 30])
       {| frequency := None; batch_size := None;
          re_raise_exceptions := Some false |}
  = ([BulkInsert [10]; Emit 10; BulkInsert [20]; Emit 20;
      LogException (OtherError "boom"); BulkInsert []], Ok tt).
Proof. reflexivity. Qed.

Example task_reraises :
  task (λ _ _, None) (λ _ _ _, Saved) (λ _ _, false)
       (GeneratorFunction [Yielded 10; Raised (OtherError "boom"); Yielded 20])
       no_kwargs
  = ([LogException (OtherError "boom")], Raise (OtherError "boom")).
Proof. reflexivity. Qed.

(** Fail-fast and tolerant handling of a write fault. *)
Example task_write_fault_propagates :
  task (λ _ _, None) (λ _ _ _, IntegrityFault) (λ _ _, false)
       (GeneratorFunction [Yielded 10]) no_kwargs
  = ([BulkInsert [10]], Raise IntegrityError).
Proof. reflexivity. Qed.

Example task_write_fault_swallowed :
  task (λ _ _, None) (λ _ _ _, IntegrityFault) (λ _ _, false)
       (GeneratorFunction [Yielded 10])
       {| frequency := None; batch_size := None;
          re_raise_exceptions := Some false |}
  = ([BulkInsert [10]; Emit 10], Ok tt).
Proof. reflexivity. Qed.

Example task_needs_generator :
  is_ok (task (λ _ _, None) (λ _ _ _, Saved) (λ _ _, false)
              (@PlainFunction nat) no_kwargs).2
  = false.
Proof. reflexivity. Qed.

End RunnerFacts.

(** ** Serialised primary keys *)

Module PksFacts.
Import Pks.

Lemma depth_elem (x : nest) (l : list nest) :
  x ∈ l → (depth x ≤ foldr Nat.max 0 (map depth l))%nat.
Proof.
  induction 1 as [x l | x y l _ IH]; simpl; lia.
Qed.

(** Structural facts are proved by induction on a bound of the depth. *)
Lemma flatten_to_py_bounded (k : nat) :
  ∀ n, (depth n ≤ k)%nat → _flatten (to_py n) = map PInt (leaves n).
Proof.
  induction k as [|k IH]; intros [z | l] Hd; simpl in *; try reflexivity; try lia.
  assert (Hl : ∀ x, x ∈ l → (depth x ≤ k)%nat).
  { intros x Hx. pose proof (depth_elem x l Hx). lia. }
  clear Hd. induction l as [|x l IHl]; [reflexivity|].
  simpl. rewrite map_app. f_equal.
  - apply IH, Hl, list_elem_of_here.
  - apply IHl. intros y Hy. apply Hl. right. exact Hy.
Qed.

Lemma flatten_to_py (n : nest) : _flatten (to_py n) = map PInt (leaves n).
Proof. apply (flatten_to_py_bounded (depth n)). lia. Qed.

Lemma map_logged_id {A L} (f : A → list L * result A) (xs : list A) :
  (∀ x, x ∈ xs → f x = ([], Ok x)) →
  map_logged f xs = ([], Ok xs).
Proof.
  induction xs as [|x xs IH]; intros Hf; [reflexivity|].
  simpl. rewrite Hf by apply list_elem_of_here.
  rewrite IH; [reflexivity|].
  intros y Hy. apply Hf. right. exact Hy.
Qed.




Section facts.
Variable json_loads : string → option pyval.
Variable json_dumps : pyval → option string.
Variable mktemp : list (string * string) → filesystem → string.

Abbreviation deserialize := (deserialize_pks json_loads).

(** Nested integers are returned as they are, silently, once the
    recursion limit exceeds their depth. *)
Lemma deserialize_nest (fs : filesystem) (fuel : nat) :
  ∀ n, (depth n < fuel)%nat →
       deserialize fuel fs (to_py n) false = ([], Ok (to_py n)).
Proof.
  induction fuel as [|fuel IH]; intros n Hd; [lia|].
  destruct n as [z | l]; [reflexivity|].
  cbn [to_py deserialize_pks].
  rewrite map_logged_id; [reflexivity|].
  intros x Hx. apply list_elem_of_fmap in Hx as (y & -> & Hy).
  apply IH. pose proof (depth_elem y l Hy). simpl in Hd. lia.
Qed.

(** [flatten=True] flattens what [flatten=False] returns. *)
Lemma deserialize_flatten (fs : filesystem) (fuel : nat) (pk : pyval) :
  deserialize fuel fs pk true
  = ((deserialize fuel fs pk false).1,
     v ← (deserialize fuel fs pk false).2;
     mret (PList (_flatten (PList [v])))).
Proof.
  destruct fuel as [|fuel]; [reflexivity|].
  cbn [deserialize_pks].
  destruct (match pk with PNone => _ | _ => _ end) as [lg [v|e]]; reflexivity.
Qed.


(** A string whose contents are a nested list of integers. *)
Lemma deserialize_contents (fs : filesystem) (fuel : nat) (s : string)
    (l : list nest) (flatten : bool) :
  contents_of json_loads fs s = Ok (to_py (Nest l)) →
  (depth (Nest l) < fuel)%nat →
  deserialize fuel fs (PStr s) flatten
  = ([], Ok (if flatten then PList (map PInt (leaves (Nest l)))
             else to_py (Nest l))).
Proof.
  intros Hc Hd. destruct fuel as [|fuel]; [lia|].
  cbn [deserialize_pks]. rewrite Hc. cbn [to_py iterate].
  rewrite map_logged_id.
  - simpl. destruct flatten; [|reflexivity].
    rewrite app_nil_r. f_equal. f_equal. f_equal.
    change (flat_map _flatten (map to_py l)) with (_flatten (to_py (Nest l))).
    apply flatten_to_py.
  - intros x Hx. apply list_elem_of_fmap in Hx as (y & -> & Hy).
    apply deserialize_nest. pose proof (depth_elem y l Hy). simpl in Hd. lia.
Qed.


(** C10.  A string whose JSON contents are one bare integer, be it the
    text of the file the string names or the string itself: the call
    raises [TypeError] (the integer is handed to [map], which cannot
    iterate over it); it neither returns the integer nor raises the
    [ValueError] of [deserialize_pks]. *)
Theorem deserialize_pks_bare_integer (fs : filesystem) (fuel : nat)
    (s : string) (z : Z) (flatten : bool) :
  (∃ text, fs !! s = Some (File text) ∧ json_loads text = Some (PInt z))
  ∨ (fs !! s = None
     ∧ json_loads (replace_char single_quote double_quote s) = Some (PInt z)) →
  deserialize (S fuel) fs (PStr s) flatten
    = ([], Raise (TypeError "object is not iterable"))
  ∧ (deserialize (S fuel) fs (PStr s) flatten).2 ≠ Ok (PInt z)
  ∧ (deserialize (S fuel) fs (PStr s) flatten).2 ≠ Ok (PList [PInt z])
  ∧ (deserialize (S fuel) fs (PStr s) flatten).2 ≠ Raise cannot_deserialize.
Proof.
  intros Hc.
  assert (Hcontents : contents_of json_loads fs s = Ok (PInt z)).
  { unfold contents_of.
    destruct Hc as [(text & -> & ->) | [-> ->]]; reflexivity. }
  assert (Hrun : deserialize (S fuel) fs (PStr s) flatten
                 = ([], Raise (TypeError "object is not iterable"))).
  { cbn [deserialize_pks]. rewrite Hcontents. reflexivity. }
  rewrite Hrun. split_and!; [reflexivity | discriminate..].
Qed.

End facts.



(** The string "5", with no file of that name. *)
Lemma deserialize_pks_bare_integer_witness :
  deserialize_pks MiniJson.loads 1 ∅ (PStr "5") true
  = ([], Raise (TypeError "object is not iterable")).
Proof.
  apply (deserialize_pks_bare_integer MiniJson.loads ∅ 0 "5" 5 true).
  right. split; [apply lookup_empty | vm_compute; reflexivity].
Defined.

Example deserialize_file_with_bare_integer :
  deserialize_pks MiniJson.loads 1000 (<["/tmp/pks" := File "5"]> ∅)
                  (PStr "/tmp/pks") false
  = ([], Raise (TypeError "object is not iterable")).
Proof. vm_compute. reflexivity. Qed.

Example deserialize_single_quotes_absent :
  deserialize_pks MiniJson.loads 1000 ∅ (PStr "[1, [2, 3]]") true
  = ([], Ok (PList [PInt 1; PInt 2; PInt 3])).
Proof. vm_compute. reflexivity. Qed.

Example deserialize_float :
  deserialize_pks MiniJson.loads 1000 ∅ (PFloat (Finite (-7 # 2))) true
  = ([ForcingInteger (Finite (-7 # 2))], Ok (PList [PInt (-3)])).
Proof. vm_compute. reflexivity. Qed.

(** The single quotes of the input are what is normalised. *)
Example deserialize_single_quotes :
  deserialize_pks MiniJson.loads 1000 ∅ (PStr "['[1, 2]', 3]") true
  = ([], Ok (PList [PInt 1; PInt 2; PInt 3]))
  ∧ MiniJson.loads "['[1, 2]', 3]" = None.
Proof. split; vm_compute; reflexivity. Qed.

Example replace_char_quotes :
  replace_char single_quote double_quote "['a', 1]"
  = String "[" (String double_quote (String "a" (String double_quote ", 1]"))).
Proof. reflexivity. Qed.

Example deserialize_directory :
  deserialize_pks MiniJson.loads 1000
    (<["." := Unreadable (OtherError "IsADirectoryError")]> ∅) (PStr ".") false
  = ([], Raise (OtherError "IsADirectoryError")).
Proof. vm_compute. reflexivity. Qed.

End PksFacts.

(** ** The output linker and the parameters of a task instance *)

Module LinkerFacts.
Import Db Registry.

Lemma one_or_none_nil {A} (rows : list A) :
  rows = [] → one_or_none rows = Ok None.
Proof. intros ->. reflexivity. Qed.

Lemma filter_nil_iff {A} (P : A → Prop) `{∀ x, Decision (P x)} (l : list A) :
  filter P l = [] ↔ ∀ x, x ∈ l → ¬ P x.
Proof.
  split.
  - intros Hnil x Hx HP.
    assert (Hin : x ∈ filter P l) by (apply list_elem_of_filter; auto).
    rewrite Hnil in Hin. inversion Hin.
  - intros Hall. induction l as [|x l IH]; [reflexivity|].
    rewrite filter_cons. destruct (decide (P x)) as [HP|_].
    + exfalso. apply (Hall x); [apply list_elem_of_here | exact HP].
    + apply IH. intros y Hy. apply Hall. right. exact Hy.
Qed.

(** C8.  [create_task_output] called with a primary key that no stored
    task instance has: the call raises and leaves the store as it was, so
    no row of [output_interface] or of the result table is written; but
    the exception is [NameError: name 'task_instance_pk' is not defined],
    raised while the message of the intended [ValueError] is built, and
    not an error that reports the primary key. *)
Theorem create_task_output_unresolved (d : db) (pk : Z) (model : string)
    (kwargs : list (string * pyval)) :
  (∀ t, t ∈ task_instance d → ti_pk t ≠ pk) →
  ∃ d',
    create_task_output d (inr pk) model kwargs
    = (d', Raise (NameError "task_instance_pk"))
    ∧ d' = d
    ∧ output_interface d' = output_interface d
    ∧ output_record d' = output_record d
    ∧ ∀ msg, (create_task_output d (inr pk) model kwargs).2
             ≠ Raise (ValueError msg).
Proof.
  intros Hno. unfold create_task_output.
  rewrite (proj2 (filter_nil_iff (λ t, ti_pk t = pk) (task_instance d))).
  - exists d. split_and!; try reflexivity. intros msg. discriminate.
  - intros t Ht. apply Hno, Ht.
Qed.

(** The store holds the task instances 1 and 2; the call names 7. *)
Lemma create_task_output_unresolved_witness :
  let d := (insert_task_instance
              (insert_task_instance empty_db "ingest" "classify" (Some "r1")).2
              "ingest" "classify" (Some "r2")).2 in
  create_task_output d (inr 7) "Ferre" [("teff", PInt 5000)]
  = (d, Raise (NameError "task_instance_pk")).
Proof.
  cbv zeta.
  match goal with
  | |- create_task_output ?d _ _ _ = _ =>
      destruct (create_task_output_unresolved d 7 "Ferre" [("teff", PInt 5000)])
        as (d' & Hrun & -> & _)
  end.
  - intros t Ht. cbn in Ht.
    apply elem_of_cons in Ht as [-> | Ht]; [discriminate|].
    apply list_elem_of_singleton in Ht as ->. discriminate.
  - exact Hrun.
Defined.

Lemma filter_map_update {A} (P : A → Prop) `{∀ x, Decision (P x)}
    (f : A → A) (l : list A) :
  (∀ x, P (f x) ↔ P x) →
  filter P (map f l) = map f (filter P l).
Proof.
  intros Hf. induction l as [|x l IH]; [reflexivity|].
  simpl. rewrite !filter_cons.
  destruct (decide (P (f x))) as [Hy|Hn], (decide (P x)) as [Hy'|Hn'];
    simpl; rewrite IH; try reflexivity.
  - exfalso. apply Hn', Hf, Hy.
  - exfalso. apply Hn, Hf, Hy'.
Qed.

(** One call for an instance whose row is in the store. *)
Lemma create_task_output_once (d : db) (t : TaskInstance)
    (ref : TaskInstance + Z) (model : string) (kwargs : list (string * pyval)) :
  filter (λ t', ti_pk t' = ti_pk t) (task_instance d) = [t] →
  refers_to ref t →
  let oi := {| oi_pk := output_interface_seq d |} in
  let row := dict_update [("ti_pk", PInt (ti_pk t)); ("output_pk", PInt (oi_pk oi))]
                         kwargs in
  ∃ d',
    create_task_output d ref model kwargs = (d', Ok row)
    ∧ output_interface d' = output_interface d ++ [oi]
    ∧ output_interface_seq d' = output_interface_seq d + 1
    ∧ output_record d' = output_record d ++ [(model, row)]
    ∧ filter (λ t', ti_pk t' = ti_pk t) (task_instance d')
      = [set_output_pk (oi_pk oi) t]
    ∧ journal d'
      = journal d ++ [InsertOutputInterface oi; InsertOutputRecord model row;
                      UpdateTaskInstanceOutput (ti_pk t) (oi_pk oi)].
Proof.
  intros Hrow Href oi row. unfold create_task_output.
  assert (Hres : ∃ t', ti_pk t' = ti_pk t ∧
                 match ref with
                 | inl task_instance => Ok task_instance
                 | inr pk =>
                     match one_or_none
                             (filter (λ t0, ti_pk t0 = pk) (task_instance d)) with
                     | Ok (Some task_instance) => Ok task_instance
                     | Ok None => Raise (NameError "task_instance_pk")
                     | Raise e => Raise e
                     end
                 end = Ok t').
  { destruct ref as [t'|pk]; simpl in Href.
    - exists t'. split; [exact Href | reflexivity].
    - subst pk. exists t. rewrite Hrow. split; reflexivity. }
  destruct Hres as (t' & Hpk & ->). cbn [insert_output_interface].
  rewrite Hpk. eexists. split; [reflexivity|]. cbn.
  split_and!; try reflexivity; try (rewrite <- !app_assoc; reflexivity).
  erewrite (filter_map_update (λ t', ti_pk t' = ti_pk t)).
  - rewrite Hrow. simpl. rewrite decide_True by reflexivity. reflexivity.
  - intros x. destruct (decide (ti_pk x = ti_pk t)); reflexivity.
Qed.

(** C6.  Two calls of [create_task_output] for a task instance whose row
    is in the store, each by the instance or by its primary key, with any
    model and keywords: both succeed; the result table has gained the
    two rows, the first one still there and before the second; the row of
    the task instance holds the primary key of the output interface made
    by the second call, which is new; and the journal shows, for each
    call, the interface row, then the output record, then the update of
    [output_pk]. *)
Theorem create_task_output_twice (d : db) (t : TaskInstance)
    (ref1 ref2 : TaskInstance + Z) (model : string)
    (kwargs1 kwargs2 : list (string * pyval)) :
  filter (λ t', ti_pk t' = ti_pk t) (task_instance d) = [t] →
  refers_to ref1 t →
  refers_to ref2 t →
  let oi1 := {| oi_pk := output_interface_seq d |} in
  let oi2 := {| oi_pk := output_interface_seq d + 1 |} in
  let row1 := dict_update [("ti_pk", PInt (ti_pk t)); ("output_pk", PInt (oi_pk oi1))]
                          kwargs1 in
  let row2 := dict_update [("ti_pk", PInt (ti_pk t)); ("output_pk", PInt (oi_pk oi2))]
                          kwargs2 in
  ∃ d1 d2,
    create_task_output d ref1 model kwargs1 = (d1, Ok row1)
    ∧ create_task_output d1 ref2 model kwargs2 = (d2, Ok row2)
    ∧ output_record d2 = output_record d ++ [(model, row1); (model, row2)]
    ∧ output_interface d2 = output_interface d ++ [oi1; oi2]
    ∧ oi_pk oi2 ≠ oi_pk oi1
    ∧ filter (λ t', ti_pk t' = ti_pk t) (task_instance d2)
      = [set_output_pk (oi_pk oi2) t]
    ∧ (∀ t', t' ∈ task_instance d2 → ti_pk t' = ti_pk t →
             output_pk t' = Some (oi_pk oi2))
    ∧ journal d2
      = journal d ++
        [InsertOutputInterface oi1; InsertOutputRecord model row1;
         UpdateTaskInstanceOutput (ti_pk t) (oi_pk oi1);
         InsertOutputInterface oi2; InsertOutputRecord model row2;
         UpdateTaskInstanceOutput (ti_pk t) (oi_pk oi2)].
Proof.
  intros Hrow Href1 Href2 oi1 oi2 row1 row2.
  destruct (create_task_output_once d t ref1 model kwargs1 Hrow Href1)
    as (d1 & Hrun1 & Hoi1 & Hseq1 & Hrec1 & Hrow1 & Hj1).
  set (t1 := set_output_pk (output_interface_seq d) t) in *.
  destruct (create_task_output_once d1 t1 ref2 model kwargs2 Hrow1)
    as (d2 & Hrun2 & Hoi2 & _ & Hrec2 & Hrow2 & Hj2).
  { destruct ref2; exact Href2. }
  rewrite Hseq1 in Hrun2, Hoi2, Hrec2, Hrow2, Hj2.
  exists d1, d2. split_and!.
  - exact Hrun1.
  - exact Hrun2.
  - rewrite Hrec2, Hrec1, <- app_assoc. reflexivity.
  - rewrite Hoi2, Hoi1, <- app_assoc. reflexivity.
  - simpl. lia.
  - exact Hrow2.
  - intros t' Hin Hpk.
    assert (Ht' : t' ∈ filter (λ t0, ti_pk t0 = ti_pk t1) (task_instance d2)).
    { apply list_elem_of_filter. split; assumption. }
    rewrite Hrow2 in Ht'. apply list_elem_of_singleton in Ht'. subst t'.
    reflexivity.
  - rewrite Hj2, Hj1, <- app_assoc. reflexivity.
Qed.

(** Two outputs for the first of two stored task instances, the first
    call by the instance and the second by its primary key. *)
Lemma create_task_output_twice_witness :
  let '(t, d0) := insert_task_instance empty_db "ingest" "classify" (Some "r1") in
  let d := (insert_task_instance d0 "ingest" "classify" (Some "r2")).2 in
  ∃ d1 d2,
    create_task_output d (inl t) "Ferre" [("teff", PInt 5000)]
    = (d1, Ok [("ti_pk", PInt 1); ("output_pk", PInt 1); ("teff", PInt 5000)])
    ∧ create_task_output d1 (inr 1) "Ferre" [("teff", PInt 5100)]
      = (d2, Ok [("ti_pk", PInt 1); ("output_pk", PInt 2); ("teff", PInt 5100)])
    ∧ output_record d2
      = [("Ferre", [("ti_pk", PInt 1); ("output_pk", PInt 1); ("teff", PInt 5000)]);
         ("Ferre", [("ti_pk", PInt 1); ("output_pk", PInt 2); ("teff", PInt 5100)])]
    ∧ map output_pk (task_instance d2) = [Some 2; None].
Proof.
  cbv zeta. cbn [insert_task_instance].
  match goal with
  | |- context [create_task_output ?d (inl ?t)] =>
      destruct (create_task_output_twice d t (inl t) (inr 1) "Ferre"
                  [("teff", PInt 5000)] [("teff", PInt 5100)])
        as (d1 & d2 & H1 & H2 & Hrec & _ & _ & _ & _ & _);
        [reflexivity | reflexivity | reflexivity |]
  end.
  exists d1, d2. split_and!; [exact H1 | exact H2 | exact Hrec |].
  cbv in H1. injection H1 as <-. cbv in H2. injection H2 as <-. reflexivity.
Defined.

End LinkerFacts.

(** ** The parameter store under concurrent callers *)

Module StoreFacts.
Import Db Registry.

Lemma filter_key_le_1 {A B} `{EqDecision B} (f : A → B) (y : B) (l : list A) :
  NoDup (map f l) → (length (filter (λ x, f x = y) l) ≤ 1)%nat.
Proof.
  induction l as [|x l IH]; intros Hnd; [simpl; lia|].
  simpl in Hnd. apply NoDup_cons in Hnd as [Hx Hnd].
  rewrite filter_cons. destruct (decide (f x = y)) as [Hy|_]; [|auto].
  assert (Hnil : filter (λ x, f x = y) l = []).
  { apply LinkerFacts.filter_nil_iff. intros z Hz Hfz. apply Hx.
    rewrite Hy, <- Hfz. apply list_elem_of_fmap. eauto. }
  rewrite Hnil. simpl. lia.
Qed.

Lemma find_parameter_pair (d : db) (name value : string) :
  find_parameter d name value
  = filter (λ p, pair_of p = (name, value)) (parameter d).
Proof.
  unfold find_parameter. apply list_filter_iff. intros p. unfold pair_of.
  split; [intros [-> ->]; reflexivity | intros [= -> ->]; auto].
Qed.

(** Under the uniqueness invariant a query by pair finds at most one
    row, so [one_or_none] does not raise. *)
Lemma find_parameter_le_1 (d : db) (name value : string) :
  unique_pairs d → (length (find_parameter d name value) ≤ 1)%nat.
Proof.
  intros Hu. rewrite find_parameter_pair. apply filter_key_le_1, Hu.
Qed.

Lemma find_parameter_cases (d : db) (name value : string) :
  unique_pairs d →
  find_parameter d name value = []
  ∨ ∃ row, find_parameter d name value = [row].
Proof.
  intros Hu. pose proof (find_parameter_le_1 d name value Hu) as Hle.
  destruct (find_parameter d name value) as [|row [|row' rows]]; eauto.
  simpl in Hle. lia.
Qed.

(** An insert that goes through keeps the pairs unique and makes its row
    the one row of the pair. *)
Lemma insert_parameter_ok (d d' : db) (name value : string) (row : ParameterRow) :
  unique_pairs d →
  insert_parameter d name value = Ok (row, d') →
  find_parameter d name value = []
  ∧ unique_pairs d'
  ∧ find_parameter d' name value = [row]
  ∧ p_pk row = parameter_seq d.
Proof.
  intros Hu. unfold insert_parameter.
  destruct (find_parameter d name value) as [|r0 rows] eqn:Hfind; [|discriminate].
  intros [= <- <-]. split; [reflexivity|]. split_and!.
  - unfold unique_pairs. cbn [parameter]. rewrite map_app. simpl.
    apply NoDup_app. split_and!; [exact Hu | | apply NoDup_singleton].
    intros pr Hin Hin'. apply list_elem_of_singleton in Hin'. subst pr.
    apply list_elem_of_fmap in Hin as (p & Hp & Hin).
    rewrite find_parameter_pair in Hfind.
    apply (proj1 (LinkerFacts.filter_nil_iff _ _) Hfind p Hin). symmetry. exact Hp.
  - unfold find_parameter in *. cbn [parameter]. rewrite filter_app, Hfind.
    rewrite filter_cons. simpl. rewrite decide_True by auto. reflexivity.
  - reflexivity.
Qed.

(** One statement of one caller keeps the invariant, for the caller and
    for the other one. *)
Lemma call_step_inv (here there : bool) (name value : string)
    (st other : call_state) (d : db) :
  unique_pairs d →
  caller_ok here name value d st →
  caller_ok there name value d other →
  unique_pairs (call_step here name value st d).2
  ∧ caller_ok here name value (call_step here name value st d).2
              (call_step here name value st d).1
  ∧ caller_ok there name value (call_step here name value st d).2 other.
Proof.
  intros Hu Hst Hother.
  destruct st as [| | |pk c|e]; cbn [call_step].
  - destruct (find_parameter_cases d name value Hu) as [Hnil|[row Hrow]].
    + rewrite Hnil. simpl. auto.
    + rewrite Hrow. simpl. split_and!; eauto.
  - destruct (insert_parameter d name value) as [[row d']|e] eqn:Hins.
    + destruct (insert_parameter_ok d d' name value row Hu Hins)
        as (Hnil & Hu' & Hrow & Hpk).
      simpl. split_and!; [exact Hu' | eauto |].
      destruct other as [| | |pk' c'|e']; simpl in *; trivial.
      * contradiction.
      * destruct Hother as (row' & Hrow' & _). congruence.
      * destruct Hother as (_ & _ & Hne). contradiction.
    + simpl. split_and!; [exact Hu | | exact Hother].
      unfold insert_parameter in Hins.
      destruct (find_parameter d name value); [discriminate | discriminate].
  - simpl in Hst. destruct here.
    + simpl. split_and!; auto.
    + destruct (find_parameter_cases d name value Hu) as [Hnil|[row Hrow]];
        [contradiction|].
      rewrite Hrow. simpl. split_and!; eauto.
  - simpl. auto.
  - simpl. auto.
Qed.

Lemma race_step_inv (in1 in2 : bool) (name value : string) (who : bool)
    (r : race) :
  unique_pairs (store r) →
  caller_ok in1 name value (store r) (caller1 r) →
  caller_ok in2 name value (store r) (caller2 r) →
  let r' := race_step in1 in2 name value who r in
  unique_pairs (store r')
  ∧ caller_ok in1 name value (store r') (caller1 r')
  ∧ caller_ok in2 name value (store r') (caller2 r').
Proof.
  intros Hu H1 H2. unfold race_step. destruct who.
  - pose proof (call_step_inv in2 in1 name value (caller2 r) (caller1 r)
                  (store r) Hu H2 H1) as (Hu' & Hc & Ho).
    destruct (call_step in2 name value (caller2 r) (store r)) as [st d].
    simpl in *. auto.
  - pose proof (call_step_inv in1 in2 name value (caller1 r) (caller2 r)
                  (store r) Hu H1 H2) as (Hu' & Hc & Ho).
    destruct (call_step in1 name value (caller1 r) (store r)) as [st d].
    simpl in *. auto.
Qed.

Lemma race_inv (in1 in2 : bool) (name value : string) (schedule : list bool) :
  ∀ r,
    unique_pairs (store r) →
    caller_ok in1 name value (store r) (caller1 r) →
    caller_ok in2 name value (store r) (caller2 r) →
    let r' := foldl (λ r who, race_step in1 in2 name value who r) r schedule in
    unique_pairs (store r')
    ∧ caller_ok in1 name value (store r') (caller1 r')
    ∧ caller_ok in2 name value (store r') (caller2 r').
Proof.
  induction schedule as [|who schedule IH]; intros r Hu H1 H2; simpl; [auto|].
  destruct (race_step_inv in1 in2 name value who r Hu H1 H2) as (Hu' & H1' & H2').
  apply IH; assumption.
Qed.

(** Every statement of a caller that has not finished brings it closer
    to the end; the statements of the other caller do not set it back. *)
Lemma call_step_progress (here : bool) (name value : string)
    (st : call_state) (d : db) :
  (statements_left (call_step here name value st d).1
   ≤ statements_left st - 1)%nat.
Proof.
  destruct st; cbn [call_step].
  - destruct (one_or_none _) as [[row|]|e]; simpl; lia.
  - destruct (insert_parameter d name value) as [[row d']|e]; simpl; lia.
  - destruct here; [simpl; lia|].
    destruct (one_or_none _) as [[row|]|e]; simpl; lia.
  - simpl; lia.
  - simpl; lia.
Qed.

Lemma race_step_progress (in1 in2 : bool) (name value : string)
    (who b : bool) (r : race) :
  (statements_left (caller who (race_step in1 in2 name value b r))
   ≤ statements_left (caller who r) - (if decide (b = who) then 1 else 0))%nat.
Proof.
  unfold race_step.
  pose proof (call_step_progress in1 name value (caller1 r) (store r)) as P1.
  pose proof (call_step_progress in2 name value (caller2 r) (store r)) as P2.
  destruct (call_step in1 name value (caller1 r) (store r)) as [s1 d1],
           (call_step in2 name value (caller2 r) (store r)) as [s2 d2].
  destruct b, who; simpl in *; lia.
Qed.

Lemma race_progress (in1 in2 : bool) (name value : string) (who : bool)
    (schedule : list bool) :
  ∀ r,
    (statements_left
       (caller who (foldl (λ r b, race_step in1 in2 name value b r) r schedule))
     ≤ statements_left (caller who r) - turns who schedule)%nat.
Proof.
  induction schedule as [|b schedule IH]; intros r; simpl; [unfold turns; simpl; lia|].
  specialize (IH (race_step in1 in2 name value b r)).
  pose proof (race_step_progress in1 in2 name value who b r) as Hstep.
  unfold turns in *. rewrite filter_cons.
  destruct (decide (b = who)); simpl; lia.
Qed.

(** The schedule on which a call loses the race: both callers look
    first, the second one inserts, the first one runs into the
    uniqueness violation and goes to its [except] branch. *)
Lemma race_lost (in1 in2 : bool) (name value : string) (d : db) :
  find_parameter d name value = [] →
  let row := {| p_pk := parameter_seq d; parameter_name := name;
                parameter_value := value |} in
  ∃ d',
    run_race in1 in2 name value [false; true; true; false] d
    = {| store := d'; caller1 := Conflict;
         caller2 := Returned (parameter_seq d) true |}
    ∧ find_parameter d' name value = [row]
    ∧ run_race in1 in2 name value [false; true; true; false; false] d
      = {| store := d';
           caller1 := if in1 then Failed InvalidRequestError
                      else Returned (parameter_seq d) true;
           caller2 := Returned (parameter_seq d) true |}.
Proof.
  intros Hnil row.
  assert (Hins : ∃ d', insert_parameter d name value = Ok (row, d')
                       ∧ find_parameter d' name value = [row]).
  { unfold insert_parameter. rewrite Hnil. eexists. split; [reflexivity|].
    unfold find_parameter in *. cbn [parameter].
    rewrite filter_app, Hnil, filter_cons. simpl.
    rewrite decide_True by auto. reflexivity. }
  destruct Hins as (d' & Hins & Hrow). exists d'.
  assert (Hfull : insert_parameter d' name value = Raise IntegrityError
                  ∨ ∃ e, insert_parameter d' name value = Raise e).
  { right. unfold insert_parameter. rewrite Hrow. eauto. }
  destruct Hfull as [Hfull|[e Hfull]];
    unfold run_race; cbn [foldl race_step store caller1 caller2 call_step];
    rewrite Hnil; cbn [one_or_none store caller1 caller2 call_step];
    rewrite Hnil; cbn [one_or_none store caller1 caller2 call_step];
    rewrite Hins; cbn [store caller1 caller2 call_step p_pk];
    rewrite Hfull; cbn [store caller1 caller2 call_step];
    (split; [reflexivity|]); (split; [exact Hrow|]);
    (destruct in1; [reflexivity|]); rewrite Hrow; reflexivity.
Qed.

(** C4.  Two sessions call [get_or_create_parameter_pk] for the same
    (name, serialised value) pair, their statements interleaved in any
    order, on a store that holds at most one row for every pair; each
    of them calls inside a transaction of its session (as
    [create_task_instance] does) or outside of one.  At every moment
    the store still holds at most one row for every pair, and callers
    that have returned hold the same primary key, the one of the stored
    row.  A caller outside a transaction never fails: when its insert
    has raised the uniqueness violation it finds, at its next
    statement, the row the other session has stored and returns its
    primary key, and after three turns it has returned.  A caller inside
    a transaction whose insert has raised the uniqueness violation
    fails at its next statement with [InvalidRequestError], although
    the row it was after is stored; it does so on the schedule in which
    the other session inserts between its query and its insert (last
    part). *)
Theorem get_or_create_parameter_pk_race (in1 in2 : bool) (name value : string)
    (schedule : list bool) (d : db) :
  unique_pairs d →
  let r := run_race in1 in2 name value schedule d in
  unique_pairs (store r)
  ∧ (length (find_parameter (store r) name value) ≤ 1)%nat
  ∧ (∀ who e, caller who r = Failed e →
       inside in1 in2 who = true ∧ e = InvalidRequestError
       ∧ ∃ row, find_parameter (store r) name value = [row])
  ∧ (∀ who, caller who r = Conflict →
       ∃ row, find_parameter (store r) name value = [row]
              ∧ call_step (inside in1 in2 who) name value Conflict (store r)
                = (if inside in1 in2 who then Failed InvalidRequestError
                   else Returned (p_pk row) true, store r))
  ∧ (∀ who pk create, caller who r = Returned pk create →
       ∃ row, find_parameter (store r) name value = [row] ∧ p_pk row = pk)
  ∧ (∀ pk1 create1 pk2 create2,
       caller1 r = Returned pk1 create1 →
       caller2 r = Returned pk2 create2 →
       pk1 = pk2)
  ∧ (∀ who, (3 ≤ turns who schedule)%nat →
       (∃ pk create, caller who r = Returned pk create)
       ∨ (inside in1 in2 who = true
          ∧ caller who r = Failed InvalidRequestError))
  ∧ (find_parameter d name value = [] →
     let lost := run_race true in2 name value
                   [false; true; true; false; false] d in
     caller1 lost = Failed InvalidRequestError
     ∧ caller2 lost = Returned (parameter_seq d) true
     ∧ ∃ row, find_parameter (store lost) name value = [row]
              ∧ p_pk row = parameter_seq d).
Proof.
  intros Hu r.
  destruct (race_inv in1 in2 name value schedule
              {| store := d; caller1 := Start; caller2 := Start |} Hu I I)
    as (Hu' & H1 & H2).
  fold (run_race in1 in2 name value schedule d) in Hu', H1, H2.
  fold r in Hu', H1, H2.
  assert (Hok : ∀ who, caller_ok (inside in1 in2 who) name value (store r)
                         (caller who r)).
  { intros [|]; assumption. }
  assert (Hone : find_parameter (store r) name value ≠ [] →
                 ∃ row, find_parameter (store r) name value = [row]).
  { intros Hne.
    destruct (find_parameter_cases (store r) name value Hu') as [Hnil|Hrow];
      [contradiction | exact Hrow]. }
  split_and!.
  - exact Hu'.
  - apply find_parameter_le_1, Hu'.
  - intros who e He. specialize (Hok who). rewrite He in Hok.
    destruct Hok as (Hin & -> & Hne). auto.
  - intros who Hc. specialize (Hok who). rewrite Hc in Hok. simpl in Hok.
    destruct (Hone Hok) as [row Hrow].
    exists row. split; [exact Hrow|]. cbn [call_step].
    destruct (inside in1 in2 who); [reflexivity|].
    rewrite Hrow. reflexivity.
  - intros who pk create Hret. specialize (Hok who). rewrite Hret in Hok.
    exact Hok.
  - intros pk1 c1 pk2 c2 Hr1 Hr2. rewrite Hr1 in H1. rewrite Hr2 in H2.
    destruct H1 as (row1 & Hrow1 & <-), H2 as (row2 & Hrow2 & <-). congruence.
  - intros who Hturns.
    pose proof (race_progress in1 in2 name value who schedule
                  {| store := d; caller1 := Start; caller2 := Start |}) as Hp.
    fold (run_race in1 in2 name value schedule d) in Hp. fold r in Hp.
    assert (Hstart : statements_left
              (caller who {| store := d; caller1 := Start; caller2 := Start |})
              = 3%nat) by (destruct who; reflexivity).
    rewrite Hstart in Hp. specialize (Hok who).
    destruct (caller who r) as [| | |pk c|e]; simpl in Hp; try lia.
    + left. eauto.
    + right. destruct Hok as (Hin & -> & _). auto.
  - intros Hnil lost.
    destruct (race_lost true in2 name value d Hnil) as (d' & _ & Hrow & Hlost).
    subst lost. rewrite Hlost. cbn [caller1 caller2 store].
    split_and!; try reflexivity. eexists. split; [exact Hrow | reflexivity].
Qed.

(** The race lost by the call that [create_task_instance] makes, and won
    by a call on its own. *)
Lemma get_or_create_parameter_pk_race_witness :
  caller1 (run_race true false "release" "sdss5"
             [false; true; true; false; false] empty_db)
  = Failed InvalidRequestError
  ∧ caller2 (run_race true false "release" "sdss5"
               [false; true; true; false; false] empty_db)
    = Returned 1 true
  ∧ (∃ row, find_parameter
              (store (run_race true false "release" "sdss5"
                        [false; true; true; false; false] empty_db))
              "release" "sdss5" = [row]
            ∧ p_pk row = 1)
  ∧ caller1 (run_race false false "release" "sdss5"
               [false; true; true; false; false] empty_db)
    = Returned 1 true
  ∧ unique_pairs (store (run_race false false "release" "sdss5"
                           [false; true; true; false; false] empty_db)).
Proof.
  pose proof (get_or_create_parameter_pk_race true false "release" "sdss5"
                [] empty_db (NoDup_nil_2 : unique_pairs empty_db))
    as (_ & _ & _ & _ & _ & _ & _ & Hlost).
  destruct (Hlost eq_refl) as (H1 & H2 & H3).
  pose proof (get_or_create_parameter_pk_race false false "release" "sdss5"
                [false; true; true; false; false] empty_db
                (NoDup_nil_2 : unique_pairs empty_db)) as (Hu & _).
  split_and!; [exact H1 | exact H2 | exact H3 | reflexivity | exact Hu].
Defined.

End StoreFacts.

(** ** The task-instance registry *)

Module RegistryFacts.
Import Db Registry.

Section facts.
Variable json_dumps : pyval → option string.

(** C9.  [del_task_instance_parameter] for a key that is not in the
    parameters of the task instance returns [True] without raising and
    leaves the store as it was: the links of the instance, the
    parameter table, the row of the instance and everything else. *)
Theorem del_task_instance_parameter_absent (d : db) (task_instance : Z)
    (key : string) :
  parameters d task_instance !! key = None →
  del_task_instance_parameter json_dumps d task_instance key = (d, Ok true).
Proof.
  intros Habsent. unfold del_task_instance_parameter.
  rewrite Habsent. reflexivity.
Qed.

(** The three statements put together read as the source does: query;
    when nothing is found, insert; when the insert is refused, query
    again. *)
Lemma get_or_create_parameter_pk_unfold (d : db) (name : string)
    (value : pyval) :
  get_or_create_parameter_pk json_dumps d name value
  = (v ← serialize json_dumps value;
     match one_or_none (find_parameter d name v) with
     | Raise e => Raise e
     | Ok (Some instance) => Ok (p_pk instance, false, d)
     | Ok None =>
         match insert_parameter d name v with
         | Ok (instance, d') => Ok (p_pk instance, true, d')
         | Raise _ =>
             match one_or_none (find_parameter d name v) with
             | Raise e => Raise e
             | Ok (Some instance) => Ok (p_pk instance, true, d)
             | Ok None => Raise IntegrityError
             end
         end
     end).
Proof.
  unfold get_or_create_parameter_pk.
  destruct (serialize json_dumps value) as [v|e]; [|reflexivity].
  cbn [mbind result_bind rbind call_step].
  destruct (one_or_none (find_parameter d name v)) as [[row|]|e] eqn:Hq;
    cbn [call_step]; try reflexivity.
  destruct (insert_parameter d name v) as [[row d']|e]; cbn [call_step].
  - reflexivity.
  - rewrite Hq. reflexivity.
Qed.

(** The statements of a call leave the task instances alone. *)
Lemma call_step_frame (here : bool) (name value : string)
    (st : call_state) (d : db) :
  task_instance (call_step here name value st d).2 = task_instance d
  ∧ task_instance_seq (call_step here name value st d).2 = task_instance_seq d
  ∧ task_instance_parameter (call_step here name value st d).2
    = task_instance_parameter d.
Proof.
  destruct st; simpl; auto.
  - destruct (one_or_none _) as [[row|]|e]; auto.
  - unfold insert_parameter. destruct (find_parameter d name value); auto.
  - destruct here; [auto|].
    destruct (one_or_none _) as [[row|]|e]; auto.
Qed.

(** A call on its own never gets to its [except] branch, so it does not
    matter whether it is made inside a transaction. *)
Lemma call_alone_any_context (here : bool) (name value : string) (d : db) :
  (let '(st1, d1) := call_step here name value Start d in
   let '(st2, d2) := call_step here name value st1 d1 in
   call_step here name value st2 d2)
  = (let '(st1, d1) := call_step false name value Start d in
     let '(st2, d2) := call_step false name value st1 d1 in
     call_step false name value st2 d2).
Proof.
  cbn [call_step].
  destruct (find_parameter d name value) as [|row [|row' rows]] eqn:Hfind;
    cbn [one_or_none call_step]; try reflexivity.
  unfold insert_parameter. rewrite Hfind. reflexivity.
Qed.

(** A call on its own, on a store with at most one row per pair and
    with a value that serialises, returns. *)
Lemma get_or_create_parameter_pk_total (d : db) (name : string)
    (value : pyval) (v : string) :
  unique_pairs d →
  serialize json_dumps value = Ok v →
  ∃ pk create d',
    get_or_create_parameter_pk json_dumps d name value = Ok (pk, create, d')
    ∧ unique_pairs d'
    ∧ (∃ row, find_parameter d' name v = [row] ∧ p_pk row = pk)
    ∧ task_instance d' = task_instance d
    ∧ task_instance_seq d' = task_instance_seq d
    ∧ task_instance_parameter d' = task_instance_parameter d.
Proof.
  intros Hu Hs. unfold get_or_create_parameter_pk. rewrite Hs.
  cbn [mbind result_bind rbind].
  pose proof (StoreFacts.call_step_inv false false name v Start Start d Hu I I) as (Hu1 & Hc1 & _).
  pose proof (StoreFacts.call_step_progress false name v Start d) as Hp1.
  pose proof (call_step_frame false name v Start d) as (Hf1 & Hg1 & Hh1).
  destruct (call_step false name v Start d) as [st1 d1]. simpl in Hu1, Hc1, Hp1, Hf1, Hg1, Hh1.
  pose proof (StoreFacts.call_step_inv false false name v st1 Start d1 Hu1 Hc1 I) as (Hu2 & Hc2 & _).
  pose proof (StoreFacts.call_step_progress false name v st1 d1) as Hp2.
  pose proof (call_step_frame false name v st1 d1) as (Hf2 & Hg2 & Hh2).
  destruct (call_step false name v st1 d1) as [st2 d2]. simpl in Hu2, Hc2, Hp2, Hf2, Hg2, Hh2.
  pose proof (StoreFacts.call_step_inv false false name v st2 Start d2 Hu2 Hc2 I) as (Hu3 & Hc3 & _).
  pose proof (StoreFacts.call_step_progress false name v st2 d2) as Hp3.
  pose proof (call_step_frame false name v st2 d2) as (Hf3 & Hg3 & Hh3).
  destruct (call_step false name v st2 d2) as [st3 d3]. simpl in Hu3, Hc3, Hp3, Hf3, Hg3, Hh3.
  destruct st3 as [| | |pk create|e]; simpl in Hp3, Hc3;
    try (exfalso; lia).
  exists pk, create, d3. split_and!; trivial; congruence.
Qed.

(** Linking goes through when every value serialises, and says so when
    it went through. *)
Lemma link_parameters_total (ti : Z) (parameters : list (string * pyval)) :
  ∀ d,
    unique_pairs d →
    (∀ kv, kv ∈ parameters → is_ok (serialize json_dumps kv.2) = true) →
    ∃ d', link_parameters json_dumps d ti parameters = Ok d'
          ∧ unique_pairs d'
          ∧ task_instance d' = task_instance d
          ∧ task_instance_seq d' = task_instance_seq d.
Proof.
  induction parameters as [|[k v] rest IH]; intros d Hu Hser; simpl.
  - exists d. auto.
  - assert (Hv : is_ok (serialize json_dumps v) = true).
    { apply (Hser (k, v)), list_elem_of_here. }
    destruct (serialize json_dumps v) as [s|e] eqn:Hs; [|discriminate].
    destruct (get_or_create_parameter_pk_total d k v s Hu Hs)
      as (pk & create & d1 & -> & Hu1 & _ & Hti & Hseq & _).
    cbn [mbind result_bind rbind].
    destruct (IH (insert_task_instance_parameter d1 ti pk)) as (d' & -> & Hu' & Hti' & Hseq').
    + exact Hu1.
    + intros kv Hkv. apply Hser. right. exact Hkv.
    + exists d'. split_and!; trivial; simpl in *; congruence.
Qed.

Lemma link_parameters_serialized (ti : Z) (parameters : list (string * pyval)) :
  ∀ d d',
    link_parameters json_dumps d ti parameters = Ok d' →
    ∀ kv, kv ∈ parameters → is_ok (serialize json_dumps kv.2) = true.
Proof.
  induction parameters as [|[k v] rest IH]; intros d d' Hl kv Hkv.
  - inversion Hkv.
  - simpl in Hl.
    destruct (get_or_create_parameter_pk json_dumps d k v)
      as [[[pk create] d1]|e] eqn:Hg; [|discriminate].
    cbn [mbind result_bind rbind] in Hl.
    apply elem_of_cons in Hkv as [-> | Hkv]; [|eapply IH; eauto].
    simpl. unfold get_or_create_parameter_pk in Hg.
    destruct (serialize json_dumps v); [reflexivity | discriminate].
Qed.

(** A successful [create_task_instance] returns the row it stored, made
    of the arguments and the next value of the sequence. *)
Lemma create_task_instance_ok (d d' : db) dag task run parameters
    (t : TaskInstance) :
  create_task_instance json_dumps d dag task run parameters = (d', Ok t) →
  t = (insert_task_instance d dag task run).1
  ∧ link_parameters json_dumps (insert_task_instance d dag task run).2
      (task_instance_seq d) (default [] parameters) = Ok d'.
Proof.
  unfold create_task_instance. cbn [insert_task_instance ti_pk fst snd].
  destruct (link_parameters _ _ _ _) as [d2|e]; intros H; inversion H; auto.
Qed.

Lemma create_task_instance_total (d : db) dag task run parameters :
  unique_pairs d →
  (∀ kv, kv ∈ default [] parameters →
         is_ok (serialize json_dumps kv.2) = true) →
  ∃ d',
    create_task_instance json_dumps d dag task run parameters
    = (d', Ok (insert_task_instance d dag task run).1)
    ∧ unique_pairs d'
    ∧ task_instance d' = task_instance d ++ [(insert_task_instance d dag task run).1]
    ∧ task_instance_seq d' = task_instance_seq d + 1.
Proof.
  intros Hu Hser. unfold create_task_instance.
  cbn [insert_task_instance ti_pk fst snd].
  match goal with
  | |- context [link_parameters _ ?d0 ?ti ?ps] =>
      destruct (link_parameters_total ti ps d0 Hu Hser)
        as (d' & -> & Hu' & Hti & Hseq)
  end.
  exists d'. split_and!; auto.
Qed.

(** C1.  On a store with at most one row per pair, after a call of
    [get_or_create_task_instance] that returned the task instance [t1],
    a second call with the same identifiers and the same parameters, in
    any key order, does not return [t1]: it succeeds, stores a new row,
    and returns that row, whose primary key is the next one.  The store
    then holds both instances. *)
Theorem get_or_create_task_instance_always_creates (d d1 : db)
    (dag task : string) (run : option string)
    (parameters parameters' : option (list (string * pyval)))
    (t1 : TaskInstance) :
  unique_pairs d →
  default [] parameters' ≡ₚ default [] parameters →
  get_or_create_task_instance json_dumps d dag task run parameters
    = (d1, Ok t1) →
  ∃ d2 t2,
    get_or_create_task_instance json_dumps d1 dag task run parameters'
      = (d2, Ok t2)
    ∧ ti_pk t2 = ti_pk t1 + 1
    ∧ t2 ≠ t1
    ∧ task_instance d2 = task_instance d ++ [t1; t2]
    ∧ (dag_id t2, task_id t2, run_id t2) = (dag_id t1, task_id t1, run_id t1).
Proof.
  intros Hu Hperm. unfold get_or_create_task_instance. intros Hrun1.
  apply create_task_instance_ok in Hrun1 as [-> Hlink].
  change (default [] (Some (default [] parameters)))
    with (default [] parameters) in Hlink.
  pose proof (λ kv, link_parameters_serialized _ _ _ _ Hlink kv) as Hser.
  destruct (link_parameters_total (task_instance_seq d) (default [] parameters)
              (insert_task_instance d dag task run).2 Hu Hser)
    as (d1' & Hlink' & Hu1 & Hti1 & Hseq1).
  rewrite Hlink in Hlink'. injection Hlink' as <-.
  cbn [insert_task_instance snd task_instance task_instance_seq] in Hti1, Hseq1.
  destruct (create_task_instance_total d1 dag task run
              (Some (default [] parameters')) Hu1)
    as (d2 & Hrun2 & Hu2 & Hti2 & Hseq2).
  { intros kv Hkv. apply Hser. rewrite <- Hperm. exact Hkv. }
  rewrite Hrun2. eexists _, _. split; [reflexivity|].
  cbn [insert_task_instance fst ti_pk dag_id task_id run_id].
  split_and!.
  - rewrite Hseq1. reflexivity.
  - intros Heq. apply (f_equal ti_pk) in Heq. simpl in Heq. lia.
  - rewrite Hti2, Hti1, <- app_assoc. reflexivity.
  - reflexivity.
Qed.

End facts.

(** The task instance 1 with the parameter release=sdss5. *)
Lemma del_task_instance_parameter_absent_witness :
  let d := (create_task_instance MiniJson.dumps empty_db "ingest" "classify"
              (Some "r1") (Some [("release", PStr "sdss5")])).1 in
  del_task_instance_parameter MiniJson.dumps d 1 "mjd" = (d, Ok true).
Proof.
  cbv zeta. apply del_task_instance_parameter_absent. vm_compute. reflexivity.
Defined.

Example del_task_instance_parameter_present :
  let d := (create_task_instance MiniJson.dumps empty_db "ingest" "classify"
              (Some "r1") (Some [("release", PStr "sdss5")])).1 in
  let '(d', r) := del_task_instance_parameter MiniJson.dumps d 1 "release" in
  r = Ok true ∧ task_instance_parameter d' = [] ∧ parameter d' = parameter d.
Proof. vm_compute. auto. Qed.

(** The scenario of the specification: dag "ingest", task "classify", run
    "r1", parameters release=sdss5 and mjd=59000 on an empty store, then
    the same request with the keys in the other order. *)
Lemma get_or_create_task_instance_always_creates_witness :
  let '(d1, r1) :=
    get_or_create_task_instance MiniJson.dumps empty_db "ingest" "classify"
      (Some "r1") (Some [("release", PStr "sdss5"); ("mjd", PInt 59000)]) in
  ti_pk <$> r1 = Ok 1
  ∧ ∃ d2 t2,
      get_or_create_task_instance MiniJson.dumps d1 "ingest" "classify"
        (Some "r1") (Some [("mjd", PInt 59000); ("release", PStr "sdss5")])
      = (d2, Ok t2)
      ∧ ti_pk t2 = 2
      ∧ map ti_pk (task_instance d2) = [1; 2].
Proof.
  destruct (get_or_create_task_instance MiniJson.dumps empty_db "ingest"
              "classify" (Some "r1")
              (Some [("release", PStr "sdss5"); ("mjd", PInt 59000)]))
    as [d1 r1] eqn:Hrun.
  assert (Hr1 : r1 = Ok {| ti_pk := 1; dag_id := "ingest"; task_id := "classify";
                           run_id := Some "r1"; output_pk := None |}).
  { vm_compute in Hrun. injection Hrun as _ <-. reflexivity. }
  subst r1. split; [reflexivity|].
  destruct (get_or_create_task_instance_always_creates MiniJson.dumps
              empty_db d1 "ingest" "classify" (Some "r1")
              (Some [("release", PStr "sdss5"); ("mjd", PInt 59000)])
              (Some [("mjd", PInt 59000); ("release", PStr "sdss5")]) _
              (NoDup_nil_2 : unique_pairs empty_db) (Permutation_swap _ _ _) Hrun)
    as (d2 & t2 & Hrun2 & Hpk & _ & Hrows & _).
  exists d2, t2. split_and!; [exact Hrun2 | exact Hpk |].
  rewrite Hrows. simpl. rewrite Hpk. reflexivity.
Defined.

Example get_or_create_task_instance_duplicates :
  let '(d1, r1) :=
    get_or_create_task_instance MiniJson.dumps empty_db "ingest" "classify"
      (Some "r1") (Some [("release", PStr "sdss5"); ("mjd", PInt 59000)]) in
  let '(d2, r2) :=
    get_or_create_task_instance MiniJson.dumps d1 "ingest" "classify"
      (Some "r1") (Some [("mjd", PInt 59000); ("release", PStr "sdss5")]) in
  ti_pk <$> r1 = Ok 1
  ∧ ti_pk <$> r2 = Ok 2
  ∧ map ti_pk (task_instance d2) = [1; 2]
  ∧ linked_pks d2 1 = [1; 2]
  ∧ linked_pks d2 2 = [2; 1].
Proof. vm_compute. auto. Qed.

End RegistryFacts.

(** ** The identity lookup *)

Module LookupFacts.
Import Db Registry.

Lemma one_or_none_two {A} (rows : list A) (x y : A) :
  x ∈ rows → y ∈ rows → x ≠ y → one_or_none rows = Raise MultipleResultsFound.
Proof.
  intros Hx Hy Hne. destruct rows as [|a [|b rows]]; [inversion Hx| |reflexivity].
  apply list_elem_of_singleton in Hx, Hy. congruence.
Qed.

Lemma one_or_none_some {A} (rows : list A) (x : A) :
  one_or_none rows = Ok (Some x) → rows = [x].
Proof. destruct rows as [|a [|b rows]]; simpl; congruence. Qed.

(** Counting: a duplicate-free list inside another is shorter, strictly
    so when it misses an element. *)
Lemma NoDup_incl_length {A} (l k : list A) :
  NoDup l → (∀ x, x ∈ l → x ∈ k) → (length l ≤ length k)%nat.
Proof. intros Hl Hin. apply submseteq_length, NoDup_submseteq; assumption. Qed.

Lemma NoDup_incl_length_lt {A} (l k : list A) (y : A) :
  NoDup l → (∀ x, x ∈ l → x ∈ k) → y ∈ k → y ∉ l → (length l < length k)%nat.
Proof.
  intros Hl Hin Hy Hny.
  pose proof (NoDup_submseteq l k Hl Hin) as Hsub.
  destruct (decide (length k ≤ length l)%nat) as [Hle|]; [|lia].
  exfalso. apply Hny.
  rewrite (submseteq_length_Permutation l k Hsub Hle). exact Hy.
Qed.

Lemma NoDup_incl_all {A} (l k : list A) :
  NoDup l → (∀ x, x ∈ l → x ∈ k) → (length k ≤ length l)%nat →
  ∀ x, x ∈ k → x ∈ l.
Proof.
  intros Hl Hin Hle x Hx.
  rewrite (submseteq_length_Permutation l k (NoDup_submseteq l k Hl Hin) Hle).
  exact Hx.
Qed.

Lemma NoDup_incl_NoDup {A} (l k : list A) :
  NoDup l → (∀ x, x ∈ l → x ∈ k) → (length k ≤ length l)%nat → NoDup k.
Proof.
  intros Hl Hin Hle.
  rewrite <- (submseteq_length_Permutation l k (NoDup_submseteq l k Hl Hin) Hle).
  exact Hl.
Qed.

(** The rows of [q_p] for a request that names at least one pair. *)
Lemma elem_of_q_p (d : db) (wanted : list (string * string)) (p : ParameterRow) :
  wanted ≠ [] →
  p ∈ q_p d wanted ↔ p ∈ parameter d ∧ pair_of p ∈ wanted.
Proof.
  intros Hne. unfold q_p. destruct wanted as [|kv wanted]; [done|].
  rewrite list_elem_of_filter. unfold pair_of. tauto.
Qed.

Lemma q_p_pairs_NoDup (d : db) (wanted : list (string * string)) :
  unique_pairs d → NoDup (map pair_of (q_p d wanted)).
Proof.
  intros Hu. unfold q_p. destruct wanted as [|kv wanted]; [exact Hu|].
  eapply sublist_NoDup; [exact Hu|]. apply fmap_sublist, sublist_filter.
Qed.

Lemma q_p_pks_NoDup (d : db) (wanted : list (string * string)) :
  unique_parameter_pks d → NoDup (map p_pk (q_p d wanted)).
Proof.
  intros Hu. unfold q_p. destruct wanted as [|kv wanted]; [exact Hu|].
  eapply sublist_NoDup; [exact Hu|]. apply fmap_sublist, sublist_filter.
Qed.

Lemma find_parameter_nil (d : db) (kv : string * string) :
  find_parameter d kv.1 kv.2 = [] ↔ kv ∉ map pair_of (parameter d).
Proof.
  rewrite StoreFacts.find_parameter_pair, LinkerFacts.filter_nil_iff.
  destruct kv as [k v]. simpl. split.
  - intros Hno Hin. apply list_elem_of_fmap in Hin as (p & Hp & Hin).
    apply (Hno p Hin). symmetry. exact Hp.
  - intros Hno p Hin Hp. apply Hno. rewrite <- Hp.
    apply list_elem_of_fmap. eauto.
Qed.

(** A requested pair without a row leaves fewer rows than pairs. *)
Lemma q_p_short (d : db) (wanted : list (string * string)) (kv : string * string) :
  unique_pairs d → kv ∈ wanted → find_parameter d kv.1 kv.2 = [] →
  (length (q_p d wanted) < length wanted)%nat.
Proof.
  intros Hu Hkv Hnil.
  assert (Hne : wanted ≠ []) by (intros ->; inversion Hkv).
  rewrite <- (length_map pair_of).
  apply (NoDup_incl_length_lt _ _ kv); [apply q_p_pairs_NoDup, Hu | | exact Hkv |].
  - intros pr Hin. apply list_elem_of_fmap in Hin as (p & -> & Hp).
    apply elem_of_q_p in Hp; tauto.
  - intros Hin. apply list_elem_of_fmap in Hin as (p & Hp & Hq).
    apply elem_of_q_p in Hq as [Hq _]; [|exact Hne].
    apply find_parameter_nil in Hnil. apply Hnil. rewrite Hp.
    apply list_elem_of_fmap. eauto.
Qed.

(** When every requested pair has its row there are as many rows as
    pairs. *)
Lemma q_p_full (d : db) (wanted : list (string * string)) :
  unique_pairs d → NoDup wanted → wanted ≠ [] →
  (∀ kv, kv ∈ wanted → find_parameter d kv.1 kv.2 ≠ []) →
  length (q_p d wanted) = length wanted.
Proof.
  intros Hu Hnd Hne Hall. rewrite <- (length_map pair_of).
  apply Nat.le_antisymm.
  - apply NoDup_incl_length; [apply q_p_pairs_NoDup, Hu|].
    intros pr Hin. apply list_elem_of_fmap in Hin as (p & -> & Hp).
    apply elem_of_q_p in Hp; tauto.
  - apply NoDup_incl_length; [exact Hnd|].
    intros kv Hkv. specialize (Hall kv Hkv).
    destruct (decide (kv ∈ map pair_of (parameter d))) as [Hin|Hout].
    + apply list_elem_of_fmap in Hin as (p & -> & Hp).
      apply list_elem_of_fmap. exists p. split; [reflexivity|].
      apply elem_of_q_p; auto.
    + apply find_parameter_nil in Hout. contradiction.
Qed.

(** The links counted by the two subqueries. *)
Lemma count_distinct_pk_all (d : db) (ti : Z) :
  count_distinct_pk ti (task_instance_parameter d)
  = length (remove_dups (linked_pks d ti)).
Proof. reflexivity. Qed.

Lemma elem_of_hits (d : db) (P : list Z) (ti pk : Z) :
  pk ∈ map tip_parameter_pk
         (filter (λ r, tip_ti_pk r = ti)
                 (filter (λ r, tip_parameter_pk r ∈ P) (task_instance_parameter d)))
  ↔ pk ∈ linked_pks d ti ∧ pk ∈ P.
Proof.
  unfold linked_pks. rewrite !list_elem_of_fmap. split.
  - intros (r & -> & Hr). apply list_elem_of_filter in Hr as [Hti Hr].
    apply list_elem_of_filter in Hr as [HP Hr]. split; [|exact HP].
    exists r. split; [reflexivity|]. apply list_elem_of_filter. auto.
  - intros [(r & -> & Hr) HP]. apply list_elem_of_filter in Hr as [Hti Hr].
    exists r. split; [reflexivity|].
    apply list_elem_of_filter. split; [exact Hti|].
    apply list_elem_of_filter. auto.
Qed.

(** What the two subqueries let through is an instance whose links are
    exactly the given keys. *)
Lemma sq_sound (d : db) (P : list Z) (n : nat) (ti : Z) :
  ti ∈ sq_exact d (sq_all d P (length P)) n → (n ≤ length P)%nat →
  (∀ pk, pk ∈ linked_pks d ti ↔ pk ∈ P)
  ∧ length (remove_dups (linked_pks d ti)) = n
  ∧ n = length P ∧ P ≠ [].
Proof.
  intros Hin Hn. unfold sq_exact, sq_all in Hin.
  apply list_elem_of_filter in Hin as [Hexact Hin].
  apply list_elem_of_filter in Hin as [Hall Hgroup].
  rewrite count_distinct_pk_all in Hexact. unfold count_distinct_pk in Hall.
  set (L := linked_pks d ti) in *.
  set (B := remove_dups _) in Hall.
  assert (HB : ∀ x, x ∈ B ↔ x ∈ L ∧ x ∈ P).
  { intros x. unfold B. rewrite elem_of_remove_dups. apply elem_of_hits. }
  assert (HBnd : NoDup B) by apply NoDup_remove_dups.
  assert (HBA : ∀ x, x ∈ B → x ∈ remove_dups L).
  { intros x Hx. apply elem_of_remove_dups, HB, Hx. }
  assert (HBP : ∀ x, x ∈ B → x ∈ P) by (intros x Hx; apply HB, Hx).
  pose proof (NoDup_incl_length B (remove_dups L) HBnd HBA) as Hle.
  assert (HLB : ∀ x, x ∈ L → x ∈ B).
  { intros x Hx. apply (NoDup_incl_all B (remove_dups L) HBnd HBA); [lia|].
    apply elem_of_remove_dups, Hx. }
  assert (HPB : ∀ x, x ∈ P → x ∈ B).
  { apply (NoDup_incl_all B P HBnd HBP). lia. }
  split_and!.
  - intros pk. split; [intros Hpk; apply HBP, HLB, Hpk|].
    intros Hpk. apply HB, HPB, Hpk.
  - exact Hexact.
  - lia.
  - intros ->. apply elem_of_remove_dups, list_elem_of_fmap in Hgroup
      as (r & _ & Hr).
    apply list_elem_of_filter in Hr as [Hr _]. inversion Hr.
Qed.

(** And an instance whose links are exactly the given keys gets through. *)
Lemma sq_complete (d : db) (P : list Z) (ti : Z) :
  NoDup P → P ≠ [] →
  (∀ pk, pk ∈ linked_pks d ti ↔ pk ∈ P) →
  ti ∈ sq_exact d (sq_all d P (length P)) (length P).
Proof.
  intros Hnd Hne Hiff. unfold sq_exact, sq_all.
  apply list_elem_of_filter. split.
  - rewrite count_distinct_pk_all. apply Permutation_length.
    apply NoDup_Permutation; [apply NoDup_remove_dups | exact Hnd |].
    intros x. rewrite elem_of_remove_dups. apply Hiff.
  - apply list_elem_of_filter. split.
    + unfold count_distinct_pk. apply Permutation_length.
      apply NoDup_Permutation; [apply NoDup_remove_dups | exact Hnd |].
      intros x. rewrite elem_of_remove_dups, elem_of_hits.
      specialize (Hiff x). tauto.
    + destruct P as [|pk P]; [done|].
      assert (Hpk : pk ∈ linked_pks d ti) by (apply Hiff, list_elem_of_here).
      unfold linked_pks in Hpk. apply list_elem_of_fmap in Hpk as (r & -> & Hr).
      apply list_elem_of_filter in Hr as [Hti Hr].
      apply elem_of_remove_dups, list_elem_of_fmap. exists r.
      split; [symmetry; exact Hti|].
      apply list_elem_of_filter. split; [apply list_elem_of_here | exact Hr].
Qed.

Section facts.
Variable json_dumps : pyval → option string.

Lemma map_result_length {A B} (f : A → result B) (xs : list A) (ys : list B) :
  map_result f xs = Ok ys → length ys = length xs.
Proof.
  revert ys. induction xs as [|x xs IH]; intros ys; simpl.
  - intros [= <-]. reflexivity.
  - destruct (f x); [|discriminate].
    destruct (map_result f xs); [|discriminate].
    intros [= <-]. simpl. f_equal. apply IH. reflexivity.
Qed.

Lemma wanted_pairs_length parameters wanted :
  wanted_pairs json_dumps parameters = Ok wanted →
  length wanted = length parameters.
Proof. apply map_result_length. Qed.

Lemma wanted_pairs_keys parameters wanted :
  wanted_pairs json_dumps parameters = Ok wanted →
  map fst wanted = map fst parameters.
Proof.
  unfold wanted_pairs. revert wanted.
  induction parameters as [|[k v] ps IH]; intros wanted; simpl.
  - intros [= <-]. reflexivity.
  - destruct (serialize json_dumps v) as [s|e]; [|discriminate]. simpl.
    destruct (map_result _ ps) as [w|e]; [|discriminate].
    intros [= <-]. simpl. f_equal. apply IH. reflexivity.
Qed.

(** The lookup once the pairs are serialised. *)
Lemma get_task_instance_unfold d dag task run parameters wanted :
  wanted_pairs json_dumps parameters = Ok wanted →
  get_task_instance json_dumps d dag task run parameters
  = if decide (length (q_p d wanted) < length wanted)%nat then Ok None
    else one_or_none
           (filter (λ t, ti_pk t ∈ sq_exact d
                                     (sq_all d (map p_pk (q_p d wanted))
                                             (length (q_p d wanted)))
                                     (length wanted)
                         ∧ dag_id t = dag ∧ task_id t = task
                         ∧ matches_run run t)
                   (task_instance d)).
Proof.
  intros Hw. unfold get_task_instance. rewrite Hw.
  cbn [mbind result_bind rbind].
  rewrite (wanted_pairs_length _ _ Hw). reflexivity.
Qed.

(** C3.  For a request whose pairs serialise to [wanted]:
    - a task instance the lookup returns is a stored instance with the
      requested identifiers whose linked parameter keys are exactly
      the keys of the rows of the requested pairs (each key of the one
      set is in the other), as many of them as pairs were requested;
    - when some requested pair has no row in [parameter] (a table with
      at most one row per pair) the lookup returns "not found";
    - when two different stored instances both match exactly, the
      lookup raises [MultipleResultsFound]. *)
Theorem get_task_instance_exact (d : db) (dag task : string)
    (run : option string) (parameters : list (string * pyval))
    (wanted : list (string * string)) :
  wanted_pairs json_dumps parameters = Ok wanted →
  (∀ t, get_task_instance json_dumps d dag task run parameters = Ok (Some t) →
        exact_match d dag task run wanted t
        ∧ length (remove_dups (linked_pks d (ti_pk t))) = length parameters
        ∧ parameters ≠ [])
  ∧ (unique_pairs d →
     (∃ kv, kv ∈ wanted ∧ find_parameter d kv.1 kv.2 = []) →
     get_task_instance json_dumps d dag task run parameters = Ok None)
  ∧ (unique_pairs d → unique_parameter_pks d →
     NoDup (map fst parameters) → parameters ≠ [] →
     (∀ kv, kv ∈ wanted → find_parameter d kv.1 kv.2 ≠ []) →
     ∀ t1 t2, t1 ≠ t2 →
       exact_match d dag task run wanted t1 →
       exact_match d dag task run wanted t2 →
       get_task_instance json_dumps d dag task run parameters
       = Raise MultipleResultsFound).
Proof.
  intros Hw. pose proof (wanted_pairs_length _ _ Hw) as Hlen.
  rewrite (get_task_instance_unfold d dag task run parameters wanted Hw).
  split_and!.
  - intros t. destruct (decide _) as [|Hge]; [discriminate|].
    intros Hone. apply one_or_none_some in Hone.
    assert (Ht : t ∈ [t]) by apply list_elem_of_here.
    rewrite <- Hone in Ht.
    apply list_elem_of_filter in Ht as [(Hsq & Hdag & Htask & Hrun) Ht].
    rewrite <- (length_map p_pk (q_p d wanted)) in Hsq.
    apply sq_sound in Hsq as (Hiff & Hcount & Hn & Hne);
      [|rewrite length_map; lia].
    split_and!.
    + unfold exact_match. auto.
    + rewrite Hcount. exact Hlen.
    + intros ->. simpl in Hlen. rewrite Hlen in Hn.
      destruct (q_p d wanted); [apply Hne; reflexivity | discriminate].
  - intros Hu (kv & Hkv & Hnil).
    rewrite decide_True; [reflexivity|].
    apply (q_p_short d wanted kv); assumption.
  - intros Hu Hpk Hkeys Hne Hall t1 t2 Hneq Hm1 Hm2.
    assert (Hwne : wanted ≠ []).
    { intros ->. destruct parameters; [done | discriminate]. }
    assert (Hwnd : NoDup wanted).
    { apply (NoDup_fmap_1 fst). change (NoDup (map fst wanted)).
      rewrite (wanted_pairs_keys _ _ Hw). exact Hkeys. }
    pose proof (q_p_full d wanted Hu Hwnd Hwne Hall) as Hfull.
    rewrite decide_False by lia.
    assert (Hin : ∀ t, exact_match d dag task run wanted t →
              t ∈ filter (λ t, ti_pk t ∈ sq_exact d
                                 (sq_all d (map p_pk (q_p d wanted))
                                         (length (q_p d wanted)))
                                 (length wanted)
                               ∧ dag_id t = dag ∧ task_id t = task
                               ∧ matches_run run t)
                         (task_instance d)).
    { intros t (Ht & Hdag & Htask & Hrun & Hiff).
      apply list_elem_of_filter. split; [|exact Ht]. split_and!; trivial.
      rewrite <- Hfull. rewrite <- (length_map p_pk (q_p d wanted)).
      apply sq_complete; [apply q_p_pks_NoDup, Hpk | | exact Hiff].
      intros Hnil. apply (f_equal length) in Hnil.
      rewrite length_map, Hfull in Hnil. destruct wanted; [done | discriminate]. }
    apply (one_or_none_two _ t1 t2); auto.
Qed.

End facts.

Ltac by_computation :=
  unfold unique_pairs, unique_parameter_pks;
  match goal with
  | |- ?P => apply (@bool_decide_unpack P _); vm_compute; exact I
  end.

Lemma exact_match_by_lists (d : db) dag task run wanted (t : TaskInstance) :
  t ∈ task_instance d → dag_id t = dag → task_id t = task →
  matches_run run t →
  Forall (λ pk, pk ∈ map p_pk (q_p d wanted)) (linked_pks d (ti_pk t)) →
  Forall (λ pk, pk ∈ linked_pks d (ti_pk t)) (map p_pk (q_p d wanted)) →
  exact_match d dag task run wanted t.
Proof.
  intros Ht Hdag Htask Hrun HL HP. unfold exact_match. split_and!; trivial.
  rewrite Forall_forall in HL, HP. intros pk. split; auto.
Qed.

(** On the store in which one request was registered twice the lookup
    raises; on the store of three instances a request for a release
    that has no row is not found, and the request for release and mjd
    finds the first instance, not the one with fewer parameters nor the
    one with more. *)
Lemma get_task_instance_exact_witness :
  get_task_instance MiniJson.dumps MiniJson.twice_registered
    "ingest" "classify" (Some "r1")
    [("mjd", PInt 59000); ("release", PStr "sdss5")]
  = Raise MultipleResultsFound
  ∧ get_task_instance MiniJson.dumps MiniJson.three_instances
      "ingest" "classify" None [("release", PStr "dr17")]
    = Ok None
  ∧ (∀ t, get_task_instance MiniJson.dumps MiniJson.three_instances
            "ingest" "classify" (Some "r1")
            [("mjd", PInt 59000); ("release", PStr "sdss5")] = Ok (Some t) →
          length (remove_dups (linked_pks MiniJson.three_instances (ti_pk t)))
          = 2%nat).
Proof.
  split_and!.
  - destruct (get_task_instance_exact MiniJson.dumps MiniJson.twice_registered
                "ingest" "classify" (Some "r1")
                [("mjd", PInt 59000); ("release", PStr "sdss5")]
                [("mjd", "59000"); ("release", "sdss5")] eq_refl)
      as (_ & _ & Hmany).
    apply Hmany
      with (t1 := {| ti_pk := 1; dag_id := "ingest"; task_id := "classify";
                     run_id := Some "r1"; output_pk := None |})
           (t2 := {| ti_pk := 2; dag_id := "ingest"; task_id := "classify";
                     run_id := Some "r1"; output_pk := None |}).
    + by_computation.
    + by_computation.
    + by_computation.
    + discriminate.
    + intros kv Hkv. apply elem_of_cons in Hkv as [-> | Hkv];
        [vm_compute; discriminate|].
      apply list_elem_of_singleton in Hkv as ->. vm_compute; discriminate.
    + discriminate.
    + apply exact_match_by_lists; try reflexivity; by_computation.
    + apply exact_match_by_lists; try reflexivity; by_computation.
  - destruct (get_task_instance_exact MiniJson.dumps MiniJson.three_instances
                "ingest" "classify" None [("release", PStr "dr17")]
                [("release", "dr17")] eq_refl) as (_ & Hshort & _).
    apply Hshort; [by_computation|].
    exists ("release", "dr17"). split; [apply list_elem_of_here | reflexivity].
  - intros t Hfound.
    destruct (get_task_instance_exact MiniJson.dumps MiniJson.three_instances
                "ingest" "classify" (Some "r1")
                [("mjd", PInt 59000); ("release", PStr "sdss5")]
                [("mjd", "59000"); ("release", "sdss5")] eq_refl)
      as (Hsound & _ & _).
    apply Hsound in Hfound as (_ & Hcount & _). exact Hcount.
Defined.

Example lookup_finds_exact_match :
  get_task_instance MiniJson.dumps MiniJson.three_instances
    "ingest" "classify" (Some "r1")
    [("mjd", PInt 59000); ("release", PStr "sdss5")]
  = Ok (Some {| ti_pk := 1; dag_id := "ingest"; task_id := "classify";
                run_id := Some "r1"; output_pk := None |}).
Proof. vm_compute. reflexivity. Qed.

Example lookup_subset_request :
  get_task_instance MiniJson.dumps MiniJson.three_instances
    "ingest" "classify" (Some "r1") [("release", PStr "sdss5")]
  = Ok (Some {| ti_pk := 2; dag_id := "ingest"; task_id := "classify";
                run_id := Some "r1"; output_pk := None |}).
Proof. vm_compute. reflexivity. Qed.

Example lookup_no_parameters :
  get_task_instance MiniJson.dumps MiniJson.three_instances
    "ingest" "classify" None []
  = Ok None.
Proof. vm_compute. reflexivity. Qed.

End LookupFacts.

(** ** More on the task runner *)

Module RunnerMore.
Import Runner Shapes.

Section facts.
Context {R : Type}.
Variable ensure_table : nat -> list R -> option exn.
Variable db_write : nat -> list R -> nat -> write_outcome.
Variable check_point : nat -> nat -> bool.

Abbreviation loop := (task_loop ensure_table db_write check_point).
Abbreviation task := (Runner.task ensure_table db_write check_point).



(** A run up to a checkpoint, with anything after it. *)
Lemma loop_until_checkpoint freq bsize re_raise rs rest :
  writes_complete ensure_table db_write re_raise →
  ∀ i pending,
    rs ≠ [] →
    check_point freq (i + length rs - 1) = true →
    ∃ tr1,
      loop freq bsize re_raise (map Yielded rs ++ rest) i pending
      = (tr1 ++ (loop freq bsize re_raise rest (i + length rs) []).1,
         (loop freq bsize re_raise rest (i + length rs) []).2)
      ∧ emitted tr1 = pending ++ rs
      ∧ concat (batches tr1) = pending ++ rs
      ∧ logged tr1 = [].
Proof.
  intros Hw. induction rs as [|r rs IH]; intros i pending Hne Hcp; [done|].
  cbn [map app task_loop].
  destruct rs as [|r' rs].
  - simpl in Hcp. replace (i + 1 - 1)%nat with i in Hcp by lia. rewrite Hcp.
    rewrite RunnerFacts.bulk_insert_complete by assumption.
    simpl. replace (i + 1)%nat with (S i) by lia.
    destruct (loop freq bsize re_raise rest (S i) []) as [tr res].
    exists (flush_block (pending ++ [r])). split_and!.
    + reflexivity.
    + apply RunnerFacts.emitted_flush.
    + rewrite RunnerFacts.batches_flush. simpl. apply app_nil_r.
    + apply RunnerFacts.logged_flush.
  - assert (Hcp' : check_point freq (S i + length (r' :: rs) - 1)%nat = true).
    { rewrite <- Hcp. f_equal. simpl. lia. }
    assert (Hne' : r' :: rs ≠ []) by done.
    replace (i + length (r :: r' :: rs))%nat
      with (S i + length (r' :: rs))%nat by (simpl; lia).
    destruct (check_point freq i).
    + rewrite RunnerFacts.bulk_insert_complete by assumption.
      destruct (IH (S i) [] Hne' Hcp') as (tr1 & -> & He & Hb & Hl).
      destruct (loop freq bsize re_raise rest _ []) as [tr res].
      exists (flush_block (pending ++ [r]) ++ tr1). split_and!.
      * cbn [fst snd flush_block]. simpl. rewrite <- app_assoc. reflexivity.
      * rewrite RunnerFacts.emitted_app, RunnerFacts.emitted_flush, He.
        rewrite <- app_assoc. reflexivity.
      * rewrite RunnerFacts.batches_app, RunnerFacts.batches_flush.
        simpl. simpl in Hb. rewrite Hb, <- app_assoc. reflexivity.
      * rewrite RunnerFacts.logged_app, RunnerFacts.logged_flush, Hl.
        reflexivity.
    + destruct (IH (S i) (pending ++ [r]) Hne' Hcp') as (tr1 & -> & He & Hb & Hl).
      exists tr1. rewrite He, Hb, <- !app_assoc. auto.
Qed.

(** With the flag on and no checkpoint before the computation raises,
    the pending batch is dropped. *)
Lemma loop_drops_pending freq bsize rs e post :
  ∀ i pending,
    (∀ j, i ≤ j < i + length rs → check_point freq j = false)%nat →
    loop freq bsize true (map Yielded rs ++ Raised e :: post) i pending
    = ([LogException e], Raise e).
Proof.
  induction rs as [|r rs IH]; intros i pending Hcp; cbn [map app task_loop].
  - reflexivity.
  - rewrite Hcp by (simpl; lia). apply IH.
    intros j Hj. apply Hcp. simpl. lia.
Qed.

(** X2.  Fail-fast loses the pending batch.  The computation yields the
    records [rs] and then raises [e]; the keywords leave
    [re_raise_exceptions] on; the writes return.  Let [k] be the place
    of the last checkpoint among the pulls of [rs].  Then the run fails
    with [e], and what was written and emitted is exactly the first [k]
    records: the records yielded after the last checkpoint are neither
    handed to [_bulk_insert] nor emitted. *)
Theorem task_fail_fast_drops_pending (kwargs : task_kwargs) (rs : list R)
    (e : exn) (post : list (pull R)) (k : nat) :
  default true (re_raise_exceptions kwargs) = true →
  writes_complete ensure_table db_write true →
  (k ≤ length rs)%nat →
  (k = 0 ∨ check_point (default 300 (frequency kwargs)) (k - 1) = true)%nat →
  (∀ j, k ≤ j < length rs →
        check_point (default 300 (frequency kwargs)) j = false)%nat →
  ∃ tr,
    task (GeneratorFunction (map Yielded rs ++ Raised e :: post)) kwargs
    = (tr, Raise e)
    ∧ emitted tr = take k rs
    ∧ concat (batches tr) = take k rs
    ∧ logged tr = [e].
Proof.
  intros Hflag Hw Hk Hcp Hno. unfold Runner.task.
  rewrite RunnerFacts.pulls_of_raise, Hflag.
  set (freq := default 300%nat (frequency kwargs)) in *.
  set (bsize := default 999%nat (batch_size kwargs)).
  replace (map Yielded rs)
    with (map Yielded (take k rs) ++ map (@Yielded R) (drop k rs))
    by (rewrite <- map_app, take_drop; reflexivity).
  rewrite <- app_assoc.
  assert (Hlost : ∀ pending,
            loop freq bsize true (map Yielded (drop k rs) ++ [Raised e])
                 k pending = ([LogException e], Raise e)).
  { intros pending. apply loop_drops_pending.
    intros j Hj. apply Hno. rewrite length_drop in Hj. lia. }
  destruct (decide (k = 0%nat)) as [->|Hk0].
  - rewrite take_0. cbn [map app]. rewrite Hlost.
    eexists. split_and!; reflexivity.
  - destruct Hcp as [->|Hcp]; [done|].
    destruct (loop_until_checkpoint freq bsize true (take k rs)
                (map Yielded (drop k rs) ++ [Raised e]) Hw 0 [])
      as (tr1 & Hrun & He & Hb & Hl).
    + intros Hnil. apply (f_equal length) in Hnil.
      rewrite length_take_le in Hnil by lia. simpl in Hnil. lia.
    + rewrite length_take_le by lia. exact Hcp.
    + rewrite length_take_le in Hrun by lia. simpl in Hrun.
      rewrite Hlost in Hrun. rewrite Hrun. cbn [fst snd].
      eexists. split; [reflexivity|].
      rewrite RunnerFacts.emitted_app, RunnerFacts.batches_app,
        RunnerFacts.logged_app, concat_app, He, Hb, Hl. simpl.
      rewrite !app_nil_r. split_and!; reflexivity.
Qed.

(** With the flag off, [_bulk_insert] does not look at what the write
    did. *)
Lemma bulk_insert_blind (db_write' : nat → list R → nat → write_outcome)
    i b n :
  _bulk_insert ensure_table db_write i b n false
  = _bulk_insert ensure_table db_write' i b n false.
Proof.
  unfold _bulk_insert. destruct b as [|r b]; [reflexivity|].
  destruct (ensure_table i (r :: b)); [reflexivity|].
  destruct (db_write i (r :: b) n), (db_write' i (r :: b) n); reflexivity.
Qed.

(** X3.  With [re_raise_exceptions=False] the run does not depend on
    what the writes did: over two backends that agree on the table check
    the same records are handed over and emitted and the outcome is the
    same, be the batches saved or not. *)
Theorem task_tolerant_blind_to_writes
    (db_write' : nat → list R → nat → write_outcome)
    (function : callable R) (frequency batch_size : option nat) :
  task function {| frequency := frequency; batch_size := batch_size;
                   re_raise_exceptions := Some false |}
  = Runner.task ensure_table db_write' check_point function
      {| frequency := frequency; batch_size := batch_size;
         re_raise_exceptions := Some false |}.
Proof.
  destruct function as [pulls|]; [|reflexivity]. unfold Runner.task.
  cbn [Runner.frequency Runner.batch_size Runner.re_raise_exceptions default].
  change (id false) with false.
  generalize (default 300%nat frequency) as freq.
  generalize (default 999%nat batch_size) as bsize. intros bsize freq.
  generalize 0%nat as i. generalize (@nil R) as pending.
  generalize (pulls_of pulls) as tail. clear pulls. intros pulls.
  induction pulls as [|[r|e] pulls IH]; intros pending i; cbn [task_loop].
  - rewrite (bulk_insert_blind db_write'). reflexivity.
  - rewrite (bulk_insert_blind db_write'), !IH. reflexivity.
  - rewrite IH. reflexivity.
Qed.

(** When the table check raises, the first batch that is not empty ends
    the run, flag or no flag. *)
Lemma loop_table_check_escapes freq bsize re_raise e rs :
  (∀ i b, ensure_table i b = Some e) →
  ∀ i pending,
    pending ++ rs ≠ [] →
    ∃ b, loop freq bsize re_raise (map Yielded rs) i pending
         = ([BulkInsert b], Raise e)
         ∧ b ≠ [] ∧ b `prefix_of` pending ++ rs.
Proof.
  intros Htable.
  assert (Hraise : ∀ i b n, b ≠ [] →
            _bulk_insert ensure_table db_write i b n re_raise = Raise e).
  { intros i b n Hb. unfold _bulk_insert. destruct b; [done|].
    rewrite Htable. reflexivity. }
  induction rs as [|r rs IH]; intros i pending Hne; cbn [map task_loop].
  - rewrite app_nil_r in Hne. rewrite Hraise by exact Hne.
    exists pending. rewrite app_nil_r. auto.
  - destruct (check_point freq i).
    + assert (Hb : pending ++ [r] ≠ []) by (destruct pending; done).
      rewrite Hraise by exact Hb. exists (pending ++ [r]).
      split_and!; [reflexivity | exact Hb |].
      exists rs. rewrite <- app_assoc. reflexivity.
    + destruct (IH (S i) (pending ++ [r])) as (b & -> & Hb & Hpre).
      * destruct pending; done.
      * exists b. rewrite <- app_assoc in Hpre. auto.
Qed.

(** X4.  The table check is outside the [try] of [_bulk_insert]: when
    [table_exists()] (or [create_table()]) raises [e], a computation
    that yields at least one record makes the run fail with [e] at its
    first flush, with nothing emitted, also under
    [re_raise_exceptions=False]. *)
Theorem task_table_check_escapes (kwargs : task_kwargs) (rs : list R)
    (e : exn) :
  (∀ i b, ensure_table i b = Some e) →
  rs ≠ [] →
  ∃ b,
    task (GeneratorFunction (map Yielded rs)) kwargs
    = ([BulkInsert b], Raise e)
    ∧ b ≠ [] ∧ b `prefix_of` rs
    ∧ emitted [BulkInsert b] = [].
Proof.
  intros Htable Hne. unfold Runner.task. rewrite RunnerFacts.pulls_of_yields.
  destruct (loop_table_check_escapes (default 300%nat (frequency kwargs))
              (default 999%nat (batch_size kwargs))
              (default true (re_raise_exceptions kwargs)) e rs Htable 0 [])
    as (b & Hrun & Hb & Hpre); [exact Hne|].
  exists b. auto.
Qed.

(** The calls of [_bulk_insert] of a completing run: one per checkpoint
    hit, and the final one. *)
Lemma loop_flush_count freq bsize re_raise rs :
  writes_complete ensure_table db_write re_raise →
  ∀ i pending,
    length (batches (loop freq bsize re_raise (map Yielded rs) i pending).1)
    = S (checkpoints check_point freq i (length rs)).
Proof.
  intros Hw. unfold checkpoints.
  induction rs as [|r rs IH]; intros i pending; cbn [map task_loop length seq].
  - rewrite RunnerFacts.bulk_insert_complete by assumption.
    change (BulkInsert pending :: map Emit pending) with (flush_block pending).
    cbn [fst]. rewrite RunnerFacts.batches_flush. reflexivity.
  - rewrite filter_cons. destruct (check_point freq i) eqn:Hcp.
    + rewrite decide_True by reflexivity.
      rewrite RunnerFacts.bulk_insert_complete by assumption.
      specialize (IH (S i) []).
      destruct (loop freq bsize re_raise (map Yielded rs) (S i) []) as [tr res].
      cbn [fst] in *.
      change (BulkInsert ?b :: map Emit ?b ++ tr) with (flush_block b ++ tr).
      rewrite RunnerFacts.batches_app, RunnerFacts.batches_flush.
      simpl. rewrite IH. reflexivity.
    + rewrite decide_False by discriminate. apply IH.
Qed.

(** X5.  How often the database is asked: over a computation that
    yields [rs] and stops, with writes that return, [_bulk_insert] is
    called once for every pull that ends on a checkpoint and once more
    at the end. *)
Theorem task_flush_count (kwargs : task_kwargs) (rs : list R) :
  writes_complete ensure_table db_write
    (default true (re_raise_exceptions kwargs)) →
  length (batches (task (GeneratorFunction (map Yielded rs)) kwargs).1)
  = S (checkpoints check_point (default 300%nat (frequency kwargs)) 0
                   (length rs)).
Proof.
  intros Hw. unfold Runner.task. rewrite RunnerFacts.pulls_of_yields.
  apply loop_flush_count. exact Hw.
Qed.

End facts.

(** A computation that yields twice and raises, with a checkpoint after
    the first pull only: the first record is written and emitted, the
    second is lost. *)
Lemma task_fail_fast_drops_pending_witness :
  ∃ tr,
    task (λ _ _, None) (λ _ _ _, Saved) (λ _ i, bool_decide (i = 0%nat))
         (GeneratorFunction (map Yielded [10; 20] ++ Raised (OtherError "boom")
                             :: [Yielded 30]))
         no_kwargs
    = (tr, Raise (OtherError "boom"))
    ∧ emitted tr = [10]
    ∧ concat (batches tr) = [10]
    ∧ logged tr = [OtherError "boom"].
Proof.
  apply (task_fail_fast_drops_pending (λ _ _, None) (λ _ _ _, Saved)
           (λ _ i, bool_decide (i = 0%nat)) no_kwargs [10; 20]
           (OtherError "boom") [Yielded 30] 1).
  - reflexivity.
  - split; [reflexivity | right; reflexivity].
  - simpl; lia.
  - right. reflexivity.
  - intros j Hj. simpl in Hj. apply bool_decide_eq_false. lia.
Defined.


(** A database that is down, and the flag off. *)
Lemma task_table_check_escapes_witness :
  ∃ b,
    task (λ _ _, Some (OtherError "OperationalError")) (λ _ _ _, Saved)
         (λ _ _, false) (GeneratorFunction (map Yielded [10; 20]))
         {| frequency := None; batch_size := None;
            re_raise_exceptions := Some false |}
    = ([BulkInsert b], Raise (OtherError "OperationalError"))
    ∧ b ≠ [] ∧ b `prefix_of` [10; 20]
    ∧ emitted [BulkInsert b] = [].
Proof.
  apply (task_table_check_escapes (λ _ _, Some (OtherError "OperationalError"))
           (λ _ _ _, Saved) (λ _ _, false)).
  - reflexivity.
  - discriminate.
Defined.

(** Five records with a checkpoint after every second pull: two
    checkpoint flushes and the final one. *)
Lemma task_flush_count_witness :
  length (batches (task (λ _ _, None) (λ _ _ _, Saved)
                        (λ _ i, Nat.odd i)
                        (GeneratorFunction (map Yielded [1; 2; 3; 4; 5]))
                        no_kwargs).1)
  = 3%nat.
Proof.
  apply (task_flush_count (λ _ _, None) (λ _ _ _, Saved) (λ _ i, Nat.odd i)
           no_kwargs [1; 2; 3; 4; 5]).
  split; [reflexivity | right; reflexivity].
Defined.

End RunnerMore.

(** ** More on serialised primary keys *)

Module PksMore.
Import Pks Shapes.

Lemma map_logged_ok {A B L} (f : A → list L * result B) (xs : list A)
    (lg : list L) (ys : list B) :
  map_logged f xs = (lg, Ok ys) →
  Forall2 (λ x y, ∃ lg', f x = (lg', Ok y)) xs ys.
Proof.
  revert lg ys. induction xs as [|x xs IH]; intros lg ys; simpl.
  - intros [= <- <-]. constructor.
  - destruct (f x) as [lg1 [y|e]] eqn:Hx; [|discriminate].
    destruct (map_logged f xs) as [lg2 [ys'|e]] eqn:Hxs; [|discriminate].
    intros [= <- <-]. constructor; [eauto | eapply IH; reflexivity].
Qed.

Lemma flatten_keys (l : list pyval) :
  Forall (λ v, is_key v = true) l → flat_map _flatten l = l.
Proof.
  induction 1 as [|v l Hv _ IH]; [reflexivity|].
  simpl. rewrite IH. destruct v; try discriminate; reflexivity.
Qed.

(** The leaves of a tree of keys are keys. *)
Lemma flatten_key_tree :
  ∀ v, key_tree v = true → Forall (λ x, is_key x = true) (_flatten v).
Proof.
  fix IH 1. intros [| b | z | f | s | l | l | items]; simpl; try discriminate.
  - intros _. repeat constructor.
  - intros _. repeat constructor.
  - induction l as [|x l IHl]; simpl; [constructor|].
    intros Hl. apply andb_prop in Hl as [Hx Hl].
    apply Forall_app. split; [apply IH, Hx | apply IHl, Hl].
Qed.

Section facts.
Variable json_loads : string → option pyval.

Abbreviation deserialize := (deserialize_pks json_loads).

(** Without [flatten] a call that returns gives back a tree of keys, and
    deserialising that tree again changes nothing. *)
Lemma deserialize_tree (fs : filesystem) (fuel : nat) :
  ∀ pk lg v,
    deserialize fuel fs pk false = (lg, Ok v) →
    key_tree v = true ∧ deserialize fuel fs v false = ([], Ok v).
Proof.
  induction fuel as [|fuel IH]; intros pk lg v; [discriminate|].
  assert (Hlist : ∀ items lg' l',
            map_logged (λ x, deserialize fuel fs x false) items = (lg', Ok l') →
            key_tree (PList l') = true
            ∧ deserialize (S fuel) fs (PList l') false = ([], Ok (PList l'))).
  { intros items lg' l' Hmap. apply map_logged_ok in Hmap.
    assert (Hall : Forall (λ y, key_tree y = true
                                ∧ deserialize fuel fs y false = ([], Ok y)) l').
    { induction Hmap as [|x y xs ys (lg1 & Hx) _ IHm]; constructor; [|exact IHm].
      eapply IH, Hx. }
    split.
    - simpl. apply forallb_forall. intros y Hy.
      rewrite Forall_forall in Hall. apply Hall, list_elem_of_In, Hy.
    - cbn [deserialize_pks]. rewrite PksFacts.map_logged_id; [reflexivity|].
      intros y Hy. rewrite Forall_forall in Hall. apply Hall, Hy. }
  cbn [deserialize_pks].
  destruct pk as [| b | z | f | s | l | l | items].
  - discriminate.
  - intros [= <- <-]. split; reflexivity.
  - intros [= <- <-]. split; reflexivity.
  - destruct f as [q|neg|]; simpl; [|discriminate..].
    intros [= <- <-]. split; reflexivity.
  - destruct (contents_of json_loads fs s) as [contents|e]; [|discriminate].
    destruct (iterate contents) as [its|e]; [|discriminate].
    destruct (map_logged _ its) as [lg' [l'|e]] eqn:Hmap; [|discriminate].
    intros [= <- <-]. eapply Hlist, Hmap.
  - destruct (map_logged _ l) as [lg' [l'|e]] eqn:Hmap; [|discriminate].
    intros [= <- <-]. eapply Hlist, Hmap.
  - destruct (map_logged _ l) as [lg' [l'|e]] eqn:Hmap; [|discriminate].
    intros [= <- <-]. eapply Hlist, Hmap.
  - discriminate.
Qed.

(** X6.  Whatever the input (an integer, a float, a nested list or
    tuple, a string holding JSON or naming a file), when
    [deserialize_pks] with [flatten=True] returns, it returns one flat
    list whose items are all integers (or bools): no nested list, no
    string and no float is ever handed to the caller. *)
Theorem deserialize_pks_flat (fs : filesystem) (fuel : nat) (pk : pyval)
    (lg : list log_record) (v : pyval) :
  deserialize fuel fs pk true = (lg, Ok v) →
  ∃ keys, v = PList keys ∧ Forall (λ x, is_key x = true) keys.
Proof.
  rewrite PksFacts.deserialize_flatten.
  destruct (deserialize fuel fs pk false) as [lg' [v'|e]] eqn:Hrun;
    [|discriminate].
  intros [= <- <-]. apply deserialize_tree in Hrun as [Htree _].
  eexists. split; [reflexivity|]. simpl. rewrite app_nil_r.
  apply flatten_key_tree, Htree.
Qed.

(** X7.  What [deserialize_pks] returns can be handed to it again: the
    second call returns the same value and logs nothing (with
    [flatten=True] the recursion limit has to allow one more level). *)
Theorem deserialize_pks_idempotent (fs : filesystem) (fuel : nat)
    (pk : pyval) (lg : list log_record) (v : pyval) :
  (deserialize fuel fs pk false = (lg, Ok v) →
   deserialize fuel fs v false = ([], Ok v))
  ∧ (deserialize fuel fs pk true = (lg, Ok v) →
     deserialize (S fuel) fs v true = ([], Ok v)).
Proof.
  split.
  - intros Hrun. eapply deserialize_tree, Hrun.
  - intros Hrun.
    assert (Hflat : ∃ keys, v = PList keys ∧ Forall (λ x, is_key x = true) keys).
    { rewrite PksFacts.deserialize_flatten in Hrun.
      destruct (deserialize fuel fs pk false) as [lg' [v'|e]] eqn:Hrun';
        [|discriminate].
      injection Hrun as _ <-. apply deserialize_tree in Hrun' as [Htree _].
      eexists. split; [reflexivity|]. simpl. rewrite app_nil_r.
      apply flatten_key_tree, Htree. }
    destruct Hflat as (keys & -> & Hkeys).
    destruct fuel as [|fuel]; [discriminate|].
    rewrite PksFacts.deserialize_flatten. cbn [deserialize_pks].
    rewrite PksFacts.map_logged_id.
    + simpl. rewrite app_nil_r, flatten_keys by exact Hkeys. reflexivity.
    + intros x Hx. rewrite Forall_forall in Hkeys. specialize (Hkeys x Hx).
      destruct x; try discriminate; reflexivity.
Qed.

End facts.

(** A tuple holding a float, a string of JSON and an integer. *)
Lemma deserialize_pks_flat_witness :
  ∃ keys,
    PList [PInt 3; PInt 1; PInt 2; PInt 7] = PList keys
    ∧ Forall (λ x, is_key x = true) keys.
Proof.
  apply (deserialize_pks_flat MiniJson.loads ∅ 5
           (PTuple [PFloat (Finite (7 # 2)); PStr "[1, [2]]"; PInt 7])
           [ForcingInteger (Finite (7 # 2))]).
  vm_compute. reflexivity.
Defined.

Lemma deserialize_pks_idempotent_witness :
  deserialize_pks MiniJson.loads 5 ∅
    (PList [PInt 3; PList [PInt 1; PList [PInt 2]]; PInt 7]) false
  = ([], Ok (PList [PInt 3; PList [PInt 1; PList [PInt 2]]; PInt 7]))
  ∧ deserialize_pks MiniJson.loads 6 ∅
      (PList [PInt 3; PInt 1; PInt 2; PInt 7]) true
    = ([], Ok (PList [PInt 3; PInt 1; PInt 2; PInt 7])).
Proof.
  split.
  - apply (proj1 (deserialize_pks_idempotent MiniJson.loads ∅ 5
                    (PTuple [PFloat (Finite (7 # 2)); PStr "[1, [2]]"; PInt 7])
                    [ForcingInteger (Finite (7 # 2))] _)).
    vm_compute. reflexivity.
  - apply (proj2 (deserialize_pks_idempotent MiniJson.loads ∅ 5
                    (PTuple [PFloat (Finite (7 # 2)); PStr "[1, [2]]"; PInt 7])
                    [ForcingInteger (Finite (7 # 2))] _)).
    vm_compute. reflexivity.
Defined.

End PksMore.

(** ** The store stays well formed *)

Module StoreMore.
Import Db Registry Store.

Lemma empty_db_well_formed : well_formed empty_db.
Proof.
  split; cbn;
    first [ apply NoDup_nil_2
          | intros; exfalso; eapply not_elem_of_nil; eassumption ].
Qed.

Lemma NoDup_snoc_fresh (l : list Z) (x : Z) :
  NoDup l → (∀ y, y ∈ l → y < x) → NoDup (l ++ [x]).
Proof.
  intros Hnd Hlt. apply NoDup_app. split_and!; [exact Hnd | | apply NoDup_singleton].
  intros y Hy Hx. apply list_elem_of_singleton in Hx. subst y.
  specialize (Hlt x Hy). lia.
Qed.

(** An insert into [parameter] that goes through. *)
Lemma insert_parameter_well_formed (d d' : db) (name value : string)
    (row : ParameterRow) :
  well_formed d →
  insert_parameter d name value = Ok (row, d') →
  well_formed d' ∧ row ∈ parameter d'.
Proof.
  intros Hwf Hins.
  destruct (StoreFacts.insert_parameter_ok d d' name value row (wf_pairs d Hwf) Hins)
    as (_ & Hu' & _ & _).
  unfold insert_parameter in Hins.
  destruct (find_parameter d name value); [|discriminate].
  injection Hins as <- <-. destruct Hwf. split; [split|]; cbn.
  - exact Hu'.
  - unfold unique_parameter_pks. cbn. rewrite map_app. apply NoDup_snoc_fresh.
    + assumption.
    + intros y Hy. apply list_elem_of_fmap in Hy as (p & -> & Hp). auto.
  - intros p Hp. apply elem_of_app in Hp as [Hp|Hp].
    + specialize (wf_parameter_seq0 p Hp). lia.
    + apply list_elem_of_singleton in Hp. subst p. simpl. lia.
  - assumption.
  - assumption.
  - intros r Hr. destruct (wf_links0 r Hr) as [Hti Hpk]. split; [exact Hti|].
    rewrite map_app. apply elem_of_app. left. exact Hpk.
  - assumption.
  - assumption.
  - apply elem_of_app. right. apply list_elem_of_here.
Qed.

Lemma call_step_well_formed (here : bool) (name value : string)
    (st : call_state) (d : db) :
  well_formed d → well_formed (call_step here name value st d).2.
Proof.
  intros Hwf. destruct st; cbn [call_step]; try exact Hwf.
  - destruct (one_or_none _) as [[row|]|e]; exact Hwf.
  - destruct (insert_parameter d name value) as [[row d']|e] eqn:Hins;
      [|exact Hwf].
    apply (insert_parameter_well_formed d d' name value row Hwf Hins).
  - destruct here; [exact Hwf|].
    destruct (one_or_none _) as [[row|]|e]; exact Hwf.
Qed.

Section facts.
Variable json_dumps : pyval → option string.

(** A call that returns leaves the store well formed and returns the key
    of a stored row with the pair asked for. *)
Lemma get_or_create_parameter_pk_well_formed (d d' : db) (name : string)
    (value : pyval) (pk : Z) (create : bool) :
  well_formed d →
  get_or_create_parameter_pk json_dumps d name value = Ok (pk, create, d') →
  well_formed d'
  ∧ ∃ v row, serialize json_dumps value = Ok v
             ∧ find_parameter d' name v = [row] ∧ p_pk row = pk.
Proof.
  intros Hwf Hrun.
  destruct (serialize json_dumps value) as [v|e] eqn:Hs.
  2:{ unfold get_or_create_parameter_pk in Hrun. rewrite Hs in Hrun. discriminate. }
  destruct (RegistryFacts.get_or_create_parameter_pk_total json_dumps d name
              value v (wf_pairs d Hwf) Hs)
    as (pk' & create' & d'' & Hrun' & _ & Hrow & _).
  rewrite Hrun in Hrun'. injection Hrun' as <- <- <-.
  split; [|destruct Hrow as (row & Hfind & Hpk); exists v, row; auto].
  unfold get_or_create_parameter_pk in Hrun. rewrite Hs in Hrun.
  cbn [mbind result_bind rbind] in Hrun.
  pose proof (call_step_well_formed false name v Start d Hwf) as H1.
  destruct (call_step false name v Start d) as [st1 d1].
  pose proof (call_step_well_formed false name v st1 d1 H1) as H2.
  destruct (call_step false name v st1 d1) as [st2 d2].
  pose proof (call_step_well_formed false name v st2 d2 H2) as H3.
  destruct (call_step false name v st2 d2) as [st3 d3].
  destruct st3; inversion Hrun; subst; exact H3.
Qed.

Lemma insert_task_instance_well_formed (d : db) dag task run :
  well_formed d →
  well_formed (insert_task_instance d dag task run).2.
Proof.
  intros []. split; cbn; try assumption.
  - rewrite map_app. apply NoDup_snoc_fresh; [assumption|].
    intros y Hy. apply list_elem_of_fmap in Hy as (t & -> & Ht). auto.
  - intros t Ht. apply elem_of_app in Ht as [Ht|Ht].
    + specialize (wf_task_instance_seq0 t Ht). lia.
    + apply list_elem_of_singleton in Ht. subst t. simpl. lia.
  - intros r Hr. destruct (wf_links0 r Hr) as [Hti Hpk]. split; [|exact Hpk].
    rewrite map_app. apply elem_of_app. left. exact Hti.
  - intros t o Ht Ho. apply elem_of_app in Ht as [Ht|Ht]; [eauto|].
    apply list_elem_of_singleton in Ht. subst t. discriminate.
Qed.

Lemma insert_task_instance_parameter_well_formed (d : db) (ti pk : Z) :
  well_formed d →
  ti ∈ map ti_pk (task_instance d) →
  pk ∈ map p_pk (parameter d) →
  well_formed (insert_task_instance_parameter d ti pk).
Proof.
  intros [] Hti Hpk. split; cbn; try assumption.
  intros r Hr. apply elem_of_app in Hr as [Hr|Hr]; [auto|].
  apply list_elem_of_singleton in Hr. subst r. auto.
Qed.

Lemma link_parameters_well_formed (ti : Z) (parameters : list (string * pyval)) :
  ∀ d d',
    well_formed d →
    ti ∈ map ti_pk (task_instance d) →
    link_parameters json_dumps d ti parameters = Ok d' →
    well_formed d'.
Proof.
  induction parameters as [|[k v] rest IH]; intros d d' Hwf Hti; simpl.
  - intros [= <-]. exact Hwf.
  - destruct (get_or_create_parameter_pk json_dumps d k v)
      as [[[pk create] d1]|e] eqn:Hg; [|discriminate].
    cbn [mbind result_bind rbind].
    destruct (get_or_create_parameter_pk_well_formed _ _ _ _ _ _ Hwf Hg)
      as (Hwf1 & s & row & Hs & Hrow & Hpk).
    destruct (RegistryFacts.get_or_create_parameter_pk_total json_dumps d k v s
                (wf_pairs d Hwf) Hs)
      as (pk' & create' & d1' & Hg' & _ & _ & Hsame & _).
    rewrite Hg in Hg'. injection Hg' as <- <- <-.
    apply IH.
    + apply insert_task_instance_parameter_well_formed; [exact Hwf1 | |].
      * rewrite Hsame. exact Hti.
      * assert (Hin : row ∈ find_parameter d1 k s)
          by (rewrite Hrow; apply list_elem_of_here).
        apply list_elem_of_filter in Hin as [_ Hin].
        rewrite <- Hpk. apply list_elem_of_fmap. eauto.
    + simpl. rewrite Hsame. exact Hti.
Qed.

Lemma create_task_instance_well_formed (d d' : db) dag task run parameters
    (r : result TaskInstance) :
  well_formed d →
  create_task_instance json_dumps d dag task run parameters = (d', r) →
  well_formed d'.
Proof.
  intros Hwf. unfold create_task_instance.
  pose proof (insert_task_instance_well_formed d dag task run Hwf) as Hwf1.
  cbn [insert_task_instance snd] in *.
  destruct (link_parameters _ _ _ _) as [d2|e] eqn:Hl; intros [= <- _].
  - eapply link_parameters_well_formed; [exact Hwf1 | | exact Hl].
    cbn. rewrite map_app. apply elem_of_app. right. apply list_elem_of_here.
  - exact Hwf1.
Qed.

Lemma create_task_output_well_formed (d d' : db) ref model kwargs
    (r : result OutputRecord) :
  well_formed d →
  create_task_output d ref model kwargs = (d', r) →
  well_formed d'.
Proof.
  intros Hwf. unfold create_task_output.
  destruct (match ref with inl _ => _ | inr _ => _ end) as [t|e];
    [|intros [= <- _]; exact Hwf].
  cbn [insert_output_interface]. intros [= <- _]. destruct Hwf.
  split; cbn; try assumption.
  - rewrite map_map. erewrite map_ext; [eassumption|].
    intros t'. simpl. destruct (decide _); reflexivity.
  - intros t' Ht'. apply list_elem_of_fmap in Ht' as (t0 & -> & Ht0).
    specialize (wf_task_instance_seq0 t0 Ht0).
    destruct (decide _); simpl; lia.
  - intros r' Hr'. destruct (wf_links0 r' Hr') as [Hti Hpk]. split; [|exact Hpk].
    rewrite map_map. erewrite map_ext; [exact Hti|].
    intros t'. simpl. destruct (decide _); reflexivity.
  - intros o Ho. apply elem_of_app in Ho as [Ho|Ho].
    + specialize (wf_output_seq0 o Ho). lia.
    + apply list_elem_of_singleton in Ho. subst o. simpl. lia.
  - intros t' o Ht' Ho. apply list_elem_of_fmap in Ht' as (t0 & -> & Ht0).
    apply elem_of_app. destruct (decide (ti_pk t0 = ti_pk t)).
    + right. simpl in Ho. injection Ho as <-. apply list_elem_of_here.
    + left. eauto.
Qed.

(** X8.  The writers keep the store well formed: after
    [get_or_create_parameter_pk], [create_task_instance] (also when it
    raises and leaves the instance without links),
    [get_or_create_task_instance], [add_task_instance_parameter] for a
    stored instance and [create_task_output], the pairs and the primary
    keys are still unique, every link still names a stored instance and
    a stored parameter, and every [output_pk] still names a stored
    output interface. *)
Theorem writers_keep_well_formed (d : db) :
  well_formed d →
  (∀ name value pk create d',
     get_or_create_parameter_pk json_dumps d name value = Ok (pk, create, d') →
     well_formed d')
  ∧ (∀ dag task run parameters d' r,
       create_task_instance json_dumps d dag task run parameters = (d', r) →
       well_formed d')
  ∧ (∀ dag task run parameters d' r,
       get_or_create_task_instance json_dumps d dag task run parameters
       = (d', r) →
       well_formed d')
  ∧ (∀ ti key value pk d',
       ti ∈ map ti_pk (task_instance d) →
       add_task_instance_parameter json_dumps d ti key value = Ok (pk, d') →
       well_formed d')
  ∧ (∀ ref model kwargs d' r,
       create_task_output d ref model kwargs = (d', r) →
       well_formed d').
Proof.
  intros Hwf. split_and!.
  - intros name value pk create d' Hrun.
    eapply get_or_create_parameter_pk_well_formed; eauto.
  - intros dag task run parameters d' r Hrun.
    eapply create_task_instance_well_formed; eauto.
  - intros dag task run parameters d' r Hrun.
    unfold get_or_create_task_instance in Hrun.
    eapply create_task_instance_well_formed; eauto.
  - intros ti key value pk d' Hti Hrun.
    eapply (link_parameters_well_formed ti [(key, value)] d d' Hwf Hti).
    unfold add_task_instance_parameter in Hrun. simpl.
    destruct (get_or_create_parameter_pk json_dumps d key value)
      as [[[pk' create] d1]|e]; [|discriminate].
    cbn [mbind result_bind rbind mret result_ret] in *.
    injection Hrun as _ <-. reflexivity.
  - intros ref model kwargs d' r Hrun.
    eapply create_task_output_well_formed; eauto.
Qed.

End facts.

(** From the empty store: a task instance with two parameters, then an
    output for it. *)
Lemma writers_keep_well_formed_witness :
  well_formed
    (create_task_output
       (create_task_instance MiniJson.dumps empty_db "ingest" "classify"
          (Some "r1") (Some [("release", PStr "sdss5"); ("mjd", PInt 59000)])).1
       (inr 1) "Ferre" [("teff", PInt 5000)]).1.
Proof.
  destruct (create_task_instance MiniJson.dumps empty_db "ingest" "classify"
              (Some "r1") (Some [("release", PStr "sdss5"); ("mjd", PInt 59000)]))
    as [d1 r1] eqn:H1.
  cbn [fst].
  destruct (create_task_output d1 (inr 1) "Ferre" [("teff", PInt 5000)])
    as [d2 r2] eqn:H2.
  cbn [fst].
  assert (Hwf1 : well_formed d1).
  { destruct (writers_keep_well_formed MiniJson.dumps empty_db
                empty_db_well_formed) as (_ & Hcreate & _).
    eapply Hcreate. exact H1. }
  destruct (writers_keep_well_formed MiniJson.dumps d1 Hwf1)
    as (_ & _ & _ & _ & Houtput).
  eapply Houtput. exact H2.
Defined.

End StoreMore.

(** ** More on the parameter store and on task instances *)

Module ParameterMore.
Import Db Registry Store.

Section facts.
Variable json_dumps : pyval → option string.

(** X9.  Asking twice gives the same key: after a call for [(name,
    value)] that returned [pk], a call on the resulting store for the
    same name and any value with the same serialised text returns
    [(pk, False)] and leaves the store as it is.  In particular the JSON
    text of a value, given as a string, names the same parameter row as
    the value. *)
Theorem get_or_create_parameter_pk_again (d d' : db) (name : string)
    (value value' : pyval) (pk : Z) (create : bool) :
  unique_pairs d →
  get_or_create_parameter_pk json_dumps d name value = Ok (pk, create, d') →
  (serialize json_dumps value' = serialize json_dumps value →
   get_or_create_parameter_pk json_dumps d' name value' = Ok (pk, false, d'))
  ∧ (∀ s, serialize json_dumps value = Ok s →
          get_or_create_parameter_pk json_dumps d' name (PStr s)
          = Ok (pk, false, d')).
Proof.
  intros Hu Hrun.
  assert (Hagain : ∀ v', serialize json_dumps v' = serialize json_dumps value →
            get_or_create_parameter_pk json_dumps d' name v'
            = Ok (pk, false, d')).
  { intros v' Hsame.
    destruct (serialize json_dumps value) as [s|e] eqn:Hs.
    2:{ unfold get_or_create_parameter_pk in Hrun. rewrite Hs in Hrun.
        discriminate. }
    destruct (RegistryFacts.get_or_create_parameter_pk_total json_dumps d name
                value s Hu Hs)
      as (pk' & create' & d'' & Hrun' & _ & (row & Hrow & Hpk) & _).
    rewrite Hrun in Hrun'. injection Hrun' as <- <- <-.
    rewrite RegistryFacts.get_or_create_parameter_pk_unfold, Hsame.
    cbn [mbind result_bind rbind]. rewrite Hrow. simpl. rewrite Hpk.
    reflexivity. }
  split; [apply Hagain|].
  intros s Hs. apply Hagain. rewrite Hs. reflexivity.
Qed.

(** X10.  What one call does to the store.  A call that returns
    [create = False] has changed nothing and returns the key of a row
    that was stored.  A call that returns [create = True] found no row
    for the pair and has appended one, with the next key of the
    sequence.  Either way the rows that were stored are still there,
    unchanged and in place, and the other tables are as they were. *)
Theorem get_or_create_parameter_pk_effect (d d' : db) (name : string)
    (value : pyval) (s : string) (pk : Z) (create : bool) :
  unique_pairs d →
  serialize json_dumps value = Ok s →
  get_or_create_parameter_pk json_dumps d name value = Ok (pk, create, d') →
  (create = false →
   d' = d
   ∧ {| p_pk := pk; parameter_name := name; parameter_value := s |}
     ∈ parameter d)
  ∧ (create = true →
     find_parameter d name s = []
     ∧ pk = parameter_seq d
     ∧ parameter d'
       = parameter d
         ++ [{| p_pk := pk; parameter_name := name; parameter_value := s |}])
  ∧ parameter d `prefix_of` parameter d'
  ∧ task_instance d' = task_instance d
  ∧ task_instance_parameter d' = task_instance_parameter d
  ∧ output_interface d' = output_interface d
  ∧ output_record d' = output_record d.
Proof.
  intros Hu Hs. rewrite RegistryFacts.get_or_create_parameter_pk_unfold, Hs.
  cbn [mbind result_bind rbind].
  destruct (StoreFacts.find_parameter_cases d name s Hu) as [Hnil|[row Hrow]].
  - rewrite Hnil. cbn [one_or_none].
    unfold insert_parameter. rewrite Hnil.
    intros [= <- <- <-]. cbn. split_and!; try reflexivity; try discriminate.
    + intros _. auto.
    + eexists. reflexivity.
  - rewrite Hrow. cbn [one_or_none]. intros [= <- <- <-].
    split_and!; try reflexivity; try discriminate.
    intros _. split; [reflexivity|].
    assert (Hin : row ∈ find_parameter d name s)
      by (rewrite Hrow; apply list_elem_of_here).
    apply list_elem_of_filter in Hin as [[Hn Hv] Hin].
    destruct row as [p n v]. simpl in *. subst. exact Hin.
Qed.

(** X11.  A parameter value that cannot be serialised: the call of
    [create_task_instance] raises, but the row of the task instance has
    been stored by then and stays, without any link; the parameter
    table and the links are as before the call. *)
Theorem create_task_instance_unserialisable (d : db) (dag task : string)
    (run : option string) (parameters : option (list (string * pyval))) :
  (∃ kv, kv ∈ default [] parameters
         ∧ is_ok (serialize json_dumps kv.2) = false) →
  ∃ d' e,
    create_task_instance json_dumps d dag task run parameters = (d', Raise e)
    ∧ task_instance d'
      = task_instance d
        ++ [{| ti_pk := task_instance_seq d; dag_id := dag; task_id := task;
               run_id := run; output_pk := None |}]
    ∧ parameter d' = parameter d
    ∧ task_instance_parameter d' = task_instance_parameter d
    ∧ linked_pks d' (task_instance_seq d) = linked_pks d (task_instance_seq d).
Proof.
  intros (kv & Hkv & Hbad). unfold create_task_instance.
  cbn [insert_task_instance].
  destruct (link_parameters _ _ _ _) as [d2|e] eqn:Hl.
  - pose proof (RegistryFacts.link_parameters_serialized json_dumps _ _ _ _ Hl
                  kv Hkv) as Hok.
    rewrite Hok in Hbad. discriminate.
  - eexists _, e. split; [reflexivity|]. cbn. auto.
Qed.

End facts.

(** The parameter mjd=59000 on the empty store, asked for again as the
    integer and as the string "59000". *)
Lemma get_or_create_parameter_pk_again_witness :
  ∃ d1,
    get_or_create_parameter_pk MiniJson.dumps empty_db "mjd" (PInt 59000)
    = Ok (1, true, d1)
    ∧ get_or_create_parameter_pk MiniJson.dumps d1 "mjd" (PInt 59000)
      = Ok (1, false, d1)
    ∧ get_or_create_parameter_pk MiniJson.dumps d1 "mjd" (PStr "59000")
      = Ok (1, false, d1).
Proof.
  assert (Hrun : ∃ d1, get_or_create_parameter_pk MiniJson.dumps empty_db
                         "mjd" (PInt 59000) = Ok (1, true, d1))
    by (eexists; vm_compute; reflexivity).
  destruct Hrun as [d1 Hrun]. exists d1.
  destruct (get_or_create_parameter_pk_again MiniJson.dumps empty_db d1 "mjd"
              (PInt 59000) (PInt 59000) 1 true (NoDup_nil_2 : unique_pairs empty_db)
              Hrun) as [Hsame Htext].
  split_and!; [exact Hrun | apply Hsame; reflexivity |].
  apply Htext. vm_compute. reflexivity.
Defined.

Lemma get_or_create_parameter_pk_effect_witness :
  ∃ d1,
    get_or_create_parameter_pk MiniJson.dumps empty_db "mjd" (PInt 59000)
    = Ok (1, true, d1)
    ∧ parameter d1
      = [{| p_pk := 1; parameter_name := "mjd"; parameter_value := "59000" |}]
    ∧ task_instance d1 = [].
Proof.
  assert (Hrun : ∃ d1, get_or_create_parameter_pk MiniJson.dumps empty_db
                         "mjd" (PInt 59000) = Ok (1, true, d1))
    by (eexists; vm_compute; reflexivity).
  destruct Hrun as [d1 Hrun]. exists d1.
  destruct (get_or_create_parameter_pk_effect MiniJson.dumps empty_db d1 "mjd"
              (PInt 59000) "59000" 1 true
              (NoDup_nil_2 : unique_pairs empty_db)
              ltac:(vm_compute; reflexivity) Hrun)
    as (_ & Hnew & _ & Hti & _).
  destruct (Hnew eq_refl) as (_ & _ & Hrows).
  split_and!; [exact Hrun | exact Hrows | exact Hti].
Defined.

(** A parameter whose value is [None], which this json does not encode. *)
Lemma create_task_instance_unserialisable_witness :
  ∃ d' e,
    create_task_instance MiniJson.dumps empty_db "ingest" "classify"
      (Some "r1") (Some [("release", PStr "sdss5"); ("bad", PNone)])
    = (d', Raise e)
    ∧ map ti_pk (task_instance d') = [1]
    ∧ parameter d' = []
    ∧ task_instance_parameter d' = [].
Proof.
  destruct (create_task_instance_unserialisable MiniJson.dumps empty_db
              "ingest" "classify" (Some "r1")
              (Some [("release", PStr "sdss5"); ("bad", PNone)]))
    as (d' & e & Hrun & Hti & Hp & Hl & _).
  - exists ("bad", PNone). split; [|reflexivity].
    right. apply list_elem_of_here.
  - exists d', e. rewrite Hti, Hp, Hl. auto.
Defined.

End ParameterMore.

(** ** More on the identity lookup *)

Module LookupMore.
Import Db Registry Store.

Lemma filter_unique {A} (P : A → Prop) `{∀ x, Decision (P x)} (l : list A)
    (x : A) :
  NoDup l → x ∈ l → P x → (∀ y, y ∈ l → P y → y = x) → filter P l = [x].
Proof.
  intros Hnd Hx HPx Hall.
  assert (Hfnd : NoDup (filter P l))
    by (eapply sublist_NoDup; [exact Hnd | apply sublist_filter]).
  assert (Hfx : x ∈ filter P l) by (apply list_elem_of_filter; auto).
  assert (Hfall : ∀ y, y ∈ filter P l → y = x).
  { intros y Hy. apply list_elem_of_filter in Hy as [HPy Hy]. auto. }
  destruct (filter P l) as [|a [|b rest]].
  - inversion Hfx.
  - f_equal. apply Hfall, list_elem_of_here.
  - exfalso. apply NoDup_cons in Hfnd as [Hab _]. apply Hab.
    rewrite (Hfall a), (Hfall b).
    + apply list_elem_of_here.
    + right. apply list_elem_of_here.
    + apply list_elem_of_here.
Qed.

(** A candidate of the last query is an exact match, when the lookup has
    not stopped short. *)
Lemma candidates_sound (d : db) dag task run wanted (t : TaskInstance) :
  (length wanted ≤ length (q_p d wanted))%nat →
  t ∈ candidates d dag task run wanted →
  exact_match d dag task run wanted t
  ∧ length (remove_dups (linked_pks d (ti_pk t))) = length wanted
  ∧ wanted ≠ [].
Proof.
  intros Hge Ht. unfold candidates in Ht.
  apply list_elem_of_filter in Ht as [(Hsq & Hdag & Htask & Hrun) Ht].
  rewrite <- (length_map p_pk (q_p d wanted)) in Hsq.
  apply LookupFacts.sq_sound in Hsq as (Hiff & Hcount & Hn & Hne);
    [|rewrite length_map; exact Hge].
  split_and!.
  - unfold exact_match. auto.
  - exact Hcount.
  - intros ->. apply Hne. cbn [length] in Hn.
    destruct (map p_pk (q_p d [])); [reflexivity | discriminate Hn].
Qed.

(** And the other way round, in a store with unique parameter keys in
    which the request finds as many rows as it has pairs. *)
Lemma candidates_complete (d : db) dag task run wanted (t : TaskInstance) :
  unique_parameter_pks d →
  wanted ≠ [] →
  length (q_p d wanted) = length wanted →
  exact_match d dag task run wanted t →
  t ∈ candidates d dag task run wanted.
Proof.
  intros Hpk Hne Hfull (Ht & Hdag & Htask & Hrun & Hiff).
  unfold candidates. apply list_elem_of_filter. split; [|exact Ht].
  split_and!; trivial.
  rewrite <- Hfull. rewrite <- (length_map p_pk (q_p d wanted)).
  apply LookupFacts.sq_complete; [apply LookupFacts.q_p_pks_NoDup, Hpk | | exact Hiff].
  intros Hnil. apply (f_equal length) in Hnil.
  rewrite length_map, Hfull in Hnil. destruct wanted; [done | discriminate].
Qed.

Section facts.
Variable json_dumps : pyval → option string.

Lemma get_task_instance_candidates d dag task run parameters wanted :
  wanted_pairs json_dumps parameters = Ok wanted →
  get_task_instance json_dumps d dag task run parameters
  = if decide (length (q_p d wanted) < length wanted)%nat then Ok None
    else one_or_none (candidates d dag task run wanted).
Proof. apply LookupFacts.get_task_instance_unfold. Qed.

(** One exact match, and it is the only candidate. *)
Lemma candidates_one (d : db) dag task run
    (wanted : list (string * string)) (t : TaskInstance) :
  unique_parameter_pks d →
  NoDup (map ti_pk (task_instance d)) →
  wanted ≠ [] →
  length (q_p d wanted) = length wanted →
  exact_match d dag task run wanted t →
  (∀ t', exact_match d dag task run wanted t' → t' = t) →
  candidates d dag task run wanted = [t].
Proof.
  intros Hpk Hti Hwne Hfull Ht Honly.
  unfold candidates. apply filter_unique.
  - eapply NoDup_fmap_1, Hti.
  - apply Ht.
  - pose proof (candidates_complete d dag task run wanted t Hpk Hwne Hfull Ht)
      as Hin.
    unfold candidates in Hin. apply list_elem_of_filter in Hin as [HP _].
    exact HP.
  - intros t' Ht' HP. apply Honly.
    eapply candidates_sound; [lia|].
    unfold candidates. apply list_elem_of_filter. auto.
Qed.

(** X12.  A request without parameters finds nothing: for the empty
    dict [get_task_instance] returns [None] on every store, also on one
    that holds a task instance of the same dag and task without any
    parameter. *)
Theorem get_task_instance_no_parameters (d : db) (dag task : string)
    (run : option string) :
  get_task_instance json_dumps d dag task run [] = Ok None.
Proof.
  rewrite (get_task_instance_candidates d dag task run [] [] eq_refl).
  rewrite decide_False by (simpl; lia).
  destruct (candidates d dag task run []) as [|t rest] eqn:Hc; [reflexivity|].
  exfalso.
  assert (Ht : t ∈ candidates d dag task run [])
    by (rewrite Hc; apply list_elem_of_here).
  apply candidates_sound in Ht as (_ & _ & Hne); [done | simpl; lia].
Qed.

(** X13.  When no stored task instance is an exact match of the request,
    the lookup returns [None]: it neither raises nor returns an instance
    with fewer, more or other parameters. *)
Theorem get_task_instance_not_found (d : db) (dag task : string)
    (run : option string) (parameters : list (string * pyval))
    (wanted : list (string * string)) :
  wanted_pairs json_dumps parameters = Ok wanted →
  (∀ t, ¬ exact_match d dag task run wanted t) →
  get_task_instance json_dumps d dag task run parameters = Ok None.
Proof.
  intros Hw Hnone.
  rewrite (get_task_instance_candidates d dag task run parameters wanted Hw).
  destruct (decide _) as [|Hge]; [reflexivity|].
  destruct (candidates d dag task run wanted) as [|t rest] eqn:Hc; [reflexivity|].
  exfalso. apply (Hnone t).
  eapply candidates_sound; [lia|]. rewrite Hc. apply list_elem_of_here.
Qed.

(** X14.  In a store with unique pairs and unique keys, for a request
    with at least one parameter whose pairs all have their rows: when
    exactly one stored task instance is an exact match, the lookup
    returns it. *)
Theorem get_task_instance_found (d : db) (dag task : string)
    (run : option string) (parameters : list (string * pyval))
    (wanted : list (string * string)) (t : TaskInstance) :
  wanted_pairs json_dumps parameters = Ok wanted →
  unique_pairs d → unique_parameter_pks d →
  NoDup (map ti_pk (task_instance d)) →
  NoDup (map fst parameters) → parameters ≠ [] →
  all_stored d wanted →
  exact_match d dag task run wanted t →
  (∀ t', exact_match d dag task run wanted t' → t' = t) →
  get_task_instance json_dumps d dag task run parameters = Ok (Some t).
Proof.
  intros Hw Hu Hpk Hti Hkeys Hne Hall Ht Honly.
  rewrite (get_task_instance_candidates d dag task run parameters wanted Hw).
  assert (Hwne : wanted ≠ []).
  { pose proof (LookupFacts.wanted_pairs_length _ _ _ Hw) as Hlen.
    intros ->. destruct parameters; [done | discriminate Hlen]. }
  assert (Hwnd : NoDup wanted).
  { apply (NoDup_fmap_1 fst). change (NoDup (map fst wanted)).
    rewrite (LookupFacts.wanted_pairs_keys _ _ _ Hw). exact Hkeys. }
  pose proof (LookupFacts.q_p_full d wanted Hu Hwnd Hwne Hall) as Hfull.
  rewrite decide_False by lia.
  rewrite (candidates_one d dag task run wanted t); trivial.
Qed.

End facts.

(** The task instances of the store of three, and how a stored instance
    is shown not to be an exact match: by a key on one side only. *)
Lemma three_instances_rows :
  task_instance MiniJson.three_instances
  = [ {| ti_pk := 1; dag_id := "ingest"; task_id := "classify";
         run_id := Some "r1"; output_pk := None |};
      {| ti_pk := 2; dag_id := "ingest"; task_id := "classify";
         run_id := Some "r1"; output_pk := None |};
      {| ti_pk := 3; dag_id := "ingest"; task_id := "classify";
         run_id := Some "r1"; output_pk := None |} ].
Proof. vm_compute. reflexivity. Qed.

Ltac only_linked Hiff pk :=
  let H := fresh in
  assert (H : pk ∈ map p_pk (q_p MiniJson.three_instances _))
    by (apply Hiff; LookupFacts.by_computation);
  apply (bool_decide_pack _) in H; vm_compute in H; destruct H.

Ltac only_asked Hiff pk :=
  let H := fresh in
  assert (H : pk ∈ linked_pks MiniJson.three_instances _)
    by (apply Hiff; LookupFacts.by_computation);
  apply (bool_decide_pack _) in H; vm_compute in H; destruct H.

(** On the store of three instances the request for release and healpix
    is not found: the first instance has mjd instead, the second lacks
    healpix, the third has mjd as well. *)
Lemma get_task_instance_not_found_witness :
  get_task_instance MiniJson.dumps MiniJson.three_instances
    "ingest" "classify" (Some "r1")
    [("release", PStr "sdss5"); ("healpix", PInt 7)]
  = Ok None.
Proof.
  apply (get_task_instance_not_found MiniJson.dumps MiniJson.three_instances
           "ingest" "classify" (Some "r1")
           [("release", PStr "sdss5"); ("healpix", PInt 7)]
           [("release", "sdss5"); ("healpix", "7")] eq_refl).
  intros t (Hin & _ & _ & _ & Hiff). rewrite three_instances_rows in Hin.
  repeat (apply elem_of_cons in Hin as [->|Hin]); [| | |inversion Hin].
  - only_linked Hiff 2.
  - only_asked Hiff 3.
  - only_linked Hiff 2.
Defined.

(** On the same store the request for release and mjd has one exact
    match, the first instance, and the lookup returns it. *)
Lemma get_task_instance_found_witness :
  get_task_instance MiniJson.dumps MiniJson.three_instances
    "ingest" "classify" (Some "r1")
    [("mjd", PInt 59000); ("release", PStr "sdss5")]
  = Ok (Some {| ti_pk := 1; dag_id := "ingest"; task_id := "classify";
                run_id := Some "r1"; output_pk := None |}).
Proof.
  apply (get_task_instance_found MiniJson.dumps MiniJson.three_instances
           "ingest" "classify" (Some "r1")
           [("mjd", PInt 59000); ("release", PStr "sdss5")]
           [("mjd", "59000"); ("release", "sdss5")] _ eq_refl).
  - LookupFacts.by_computation.
  - LookupFacts.by_computation.
  - LookupFacts.by_computation.
  - LookupFacts.by_computation.
  - discriminate.
  - intros kv Hkv. apply elem_of_cons in Hkv as [-> | Hkv];
      [vm_compute; discriminate|].
    apply list_elem_of_singleton in Hkv as ->. vm_compute; discriminate.
  - apply LookupFacts.exact_match_by_lists; try reflexivity;
      LookupFacts.by_computation.
  - intros t (Hin & _ & _ & _ & Hiff). rewrite three_instances_rows in Hin.
    repeat (apply elem_of_cons in Hin as [->|Hin]); [| | |inversion Hin].
    + reflexivity.
    + only_asked Hiff 2.
    + only_linked Hiff 3.
Defined.

End LookupMore.

(** ** Creating and looking up *)

Module CreateLookup.
Import Db Registry Store.

Lemma NoDup_fmap_elem_inj {A B} (f : A → B) (l : list A) (x y : A) :
  NoDup (map f l) → x ∈ l → y ∈ l → f x = f y → x = y.
Proof.
  induction l as [|a l IH]; intros Hnd Hx Hy Hf; [inversion Hx|].
  simpl in Hnd. apply NoDup_cons in Hnd as [Ha Hnd].
  apply elem_of_cons in Hx as [->|Hx], Hy as [->|Hy]; auto.
  - exfalso. apply Ha. rewrite Hf. apply list_elem_of_fmap. eauto.
  - exfalso. apply Ha. rewrite <- Hf. apply list_elem_of_fmap. eauto.
Qed.

Lemma unique_pairs_inj (d : db) (p q : ParameterRow) :
  unique_pairs d → p ∈ parameter d → q ∈ parameter d →
  pair_of p = pair_of q → p = q.
Proof. apply NoDup_fmap_elem_inj. Qed.

Lemma elem_of_find_parameter (d : db) (name value : string) (p : ParameterRow) :
  p ∈ find_parameter d name value ↔ p ∈ parameter d ∧ pair_of p = (name, value).
Proof.
  rewrite StoreFacts.find_parameter_pair, list_elem_of_filter. tauto.
Qed.

Lemma linked_pks_insert (d : db) (ti pk ti' : Z) :
  linked_pks (insert_task_instance_parameter d ti pk) ti'
  = linked_pks d ti' ++ (if decide (ti = ti') then [pk] else []).
Proof.
  unfold linked_pks. cbn. rewrite filter_app, map_app. f_equal.
  rewrite filter_cons. simpl. destruct (decide (ti = ti')); reflexivity.
Qed.

Section facts.
Variable json_dumps : pyval → option string.

(** The two ways a call on its own can go. *)
Lemma get_or_create_parameter_pk_cases (d : db) (name : string)
    (value : pyval) (s : string) :
  unique_pairs d →
  serialize json_dumps value = Ok s →
  (∃ row, find_parameter d name s = [row]
          ∧ get_or_create_parameter_pk json_dumps d name value
            = Ok (p_pk row, false, d))
  ∨ (find_parameter d name s = []
     ∧ ∃ row d', insert_parameter d name s = Ok (row, d')
                 ∧ get_or_create_parameter_pk json_dumps d name value
                   = Ok (p_pk row, true, d')).
Proof.
  intros Hu Hs. rewrite RegistryFacts.get_or_create_parameter_pk_unfold, Hs.
  cbn [mbind result_bind rbind].
  destruct (StoreFacts.find_parameter_cases d name s Hu) as [Hnil|[row Hrow]].
  - right. split; [exact Hnil|]. rewrite Hnil. cbn [one_or_none].
    unfold insert_parameter. rewrite Hnil. eexists _, _. split; reflexivity.
  - left. exists row. rewrite Hrow. auto.
Qed.

Lemma wanted_pairs_elem (parameters : list (string * pyval))
    (wanted : list (string * string)) :
  wanted_pairs json_dumps parameters = Ok wanted →
  ∀ k s, (k, s) ∈ wanted
         ↔ ∃ v, (k, v) ∈ parameters ∧ serialize json_dumps v = Ok s.
Proof.
  unfold wanted_pairs. revert wanted.
  induction parameters as [|[k0 v0] ps IH]; intros wanted; simpl.
  - intros [= <-] k s. split; [intros H; inversion H|].
    intros (v & H & _). inversion H.
  - destruct (serialize json_dumps v0) as [s0|e] eqn:Hs0; [|discriminate].
    simpl. destruct (map_result _ ps) as [w|e]; [|discriminate].
    intros [= <-] k s. specialize (IH w eq_refl k s).
    rewrite elem_of_cons, IH. split.
    + intros [[= -> ->]|(v & Hv & Hs)].
      * exists v0. split; [apply list_elem_of_here | exact Hs0].
      * exists v. split; [right; exact Hv | exact Hs].
    + intros (v & Hv & Hs). apply elem_of_cons in Hv as [[= -> ->]|Hv].
      * left. congruence.
      * right. eauto.
Qed.

Lemma wanted_pairs_total (parameters : list (string * pyval)) :
  (∀ kv, kv ∈ parameters → is_ok (serialize json_dumps kv.2) = true) →
  ∃ wanted, wanted_pairs json_dumps parameters = Ok wanted.
Proof.
  unfold wanted_pairs. induction parameters as [|[k v] ps IH]; intros Hser; simpl.
  - eauto.
  - assert (Hv : is_ok (serialize json_dumps v) = true)
      by (apply (Hser (k, v)), list_elem_of_here).
    destruct (serialize json_dumps v); [|discriminate]. simpl.
    destruct IH as [w ->]; [intros kv Hkv; apply Hser; right; exact Hkv|].
    eauto.
Qed.

Lemma wanted_pairs_serialized (parameters : list (string * pyval)) wanted :
  wanted_pairs json_dumps parameters = Ok wanted →
  ∀ kv, kv ∈ parameters → is_ok (serialize json_dumps kv.2) = true.
Proof.
  unfold wanted_pairs. revert wanted.
  induction parameters as [|[k v] ps IH]; intros wanted; simpl.
  - intros _ kv H. inversion H.
  - destruct (serialize json_dumps v) as [s|e] eqn:Hs; [|discriminate]. simpl.
    destruct (map_result _ ps) as [w|e] eqn:Hw; [|discriminate].
    intros _ kv Hkv. apply elem_of_cons in Hkv as [->|Hkv].
    + simpl. rewrite Hs. reflexivity.
    + eapply IH; eauto.
Qed.

(** What linking the parameters of a stored task instance does. *)
Lemma link_parameters_effect (ti : Z) (parameters : list (string * pyval)) :
  ∀ d d',
    well_formed d →
    ti ∈ map ti_pk (task_instance d) →
    link_parameters json_dumps d ti parameters = Ok d' →
    well_formed d'
    ∧ task_instance d' = task_instance d
    ∧ task_instance_seq d' = task_instance_seq d
    ∧ (parameter_seq d ≤ parameter_seq d')%Z
    ∧ parameter d `prefix_of` parameter d'
    ∧ (∀ p, p ∈ parameter d' →
            p ∈ parameter d
            ∨ ((parameter_seq d ≤ p_pk p)%Z
               ∧ ∃ v, (parameter_name p, v) ∈ parameters
                      ∧ serialize json_dumps v = Ok (parameter_value p)))
    ∧ (∀ k v, (k, v) ∈ parameters →
              ∃ s row, serialize json_dumps v = Ok s
                       ∧ row ∈ parameter d' ∧ pair_of row = (k, s))
    ∧ (∀ ti', ti' ≠ ti → linked_pks d' ti' = linked_pks d ti')
    ∧ (∀ pk, pk ∈ linked_pks d' ti
             ↔ pk ∈ linked_pks d ti
               ∨ ∃ k v s row, (k, v) ∈ parameters
                              ∧ serialize json_dumps v = Ok s
                              ∧ row ∈ parameter d'
                              ∧ pair_of row = (k, s) ∧ p_pk row = pk).
Proof.
  induction parameters as [|[k v] rest IH]; intros d d' Hwf Hti; simpl.
  - intros [= <-]. split_and!; auto; try reflexivity; try lia.
    + intros k v H. inversion H.
    + intros pk. split; [auto|]. intros [H|(k & v & s & row & H & _)]; [exact H|].
      inversion H.
  - destruct (get_or_create_parameter_pk json_dumps d k v)
      as [[[pk0 create] d1]|e] eqn:Hg; [|discriminate].
    cbn [mbind result_bind rbind]. intros Hl.
    destruct (StoreMore.get_or_create_parameter_pk_well_formed json_dumps
                _ _ _ _ _ _ Hwf Hg) as (Hwf1 & s0 & row0 & Hs0 & Hrow0 & Hpk0).
    assert (Hrow0in : row0 ∈ parameter d1 ∧ pair_of row0 = (k, s0)).
    { apply elem_of_find_parameter. rewrite Hrow0. apply list_elem_of_here. }
    destruct Hrow0in as [Hrow0in Hpair0].
    (* what the call did to the tables *)
    assert (Hstep : task_instance d1 = task_instance d
                    ∧ task_instance_seq d1 = task_instance_seq d
                    ∧ task_instance_parameter d1 = task_instance_parameter d
                    ∧ (parameter_seq d ≤ parameter_seq d1)%Z
                    ∧ parameter d `prefix_of` parameter d1
                    ∧ ∀ p, p ∈ parameter d1 →
                           p ∈ parameter d
                           ∨ ((parameter_seq d ≤ p_pk p)%Z ∧ pair_of p = (k, s0))).
    { destruct (get_or_create_parameter_pk_cases d k v s0 (wf_pairs d Hwf) Hs0)
        as [(row & Hrow & Hrun)|(Hnil & row & d1' & Hins & Hrun)];
        rewrite Hg in Hrun; injection Hrun as E1 E2 E3; subst pk0 create d1.
      - split_and!; auto; try reflexivity; lia.
      - unfold insert_parameter in Hins. rewrite Hnil in Hins.
        injection Hins as E4 E5. subst row d1'. cbn. split_and!; try reflexivity; try lia.
        + eexists. reflexivity.
        + intros p Hp. apply elem_of_app in Hp as [Hp|Hp]; [auto|].
          apply list_elem_of_singleton in Hp. subst p. right. cbn.
          split; [lia | reflexivity]. }
    destruct Hstep as (Hti1 & Hseq1 & Htips1 & Hpseq1 & Hpre1 & Hnew1).
    assert (Hpk0in : pk0 ∈ map p_pk (parameter d1)).
    { rewrite <- Hpk0. apply list_elem_of_fmap. eauto. }
    assert (Hti1in : ti ∈ map ti_pk (task_instance d1)) by (rewrite Hti1; exact Hti).
    pose proof (StoreMore.insert_task_instance_parameter_well_formed d1 ti pk0
                  Hwf1 Hti1in Hpk0in) as Hwf1'.
    destruct (IH (insert_task_instance_parameter d1 ti pk0) d' Hwf1' Hti1in Hl)
      as (Hwf' & Hti' & Hseq' & Hpseq' & Hpre' & Hnew' & Hreq' & Hother' & Hlinks').
    cbn [insert_task_instance_parameter parameter task_instance
         task_instance_seq parameter_seq] in Hti', Hseq', Hpseq', Hpre', Hnew'.
    assert (Hsub : ∀ p, p ∈ parameter d1 → p ∈ parameter d').
    { intros p Hp. destruct Hpre' as [kk ->]. apply elem_of_app. auto. }
    split_and!.
    + exact Hwf'.
    + congruence.
    + congruence.
    + lia.
    + etrans; eassumption.
    + intros p Hp. destruct (Hnew' p Hp) as [Hold|(Hge & v' & Hv' & Hsv')].
      * destruct (Hnew1 p Hold) as [?|[Hge Hpair]]; [auto|].
        right. split; [exact Hge|]. exists v.
        injection Hpair as -> ->. split; [apply list_elem_of_here | exact Hs0].
      * right. split; [lia|]. exists v'. split; [right; exact Hv' | exact Hsv'].
    + intros k' v' Hkv. apply elem_of_cons in Hkv as [[= -> ->]|Hkv].
      * exists s0, row0. auto.
      * apply Hreq', Hkv.
    + intros ti' Hne. rewrite (Hother' ti' Hne), linked_pks_insert.
      rewrite decide_False by congruence. rewrite app_nil_r.
      unfold linked_pks. rewrite Htips1. reflexivity.
    + intros pk. rewrite Hlinks', linked_pks_insert.
      rewrite decide_True by reflexivity. rewrite elem_of_app.
      assert (Hl1 : linked_pks d1 ti = linked_pks d ti)
        by (unfold linked_pks; rewrite Htips1; reflexivity).
      rewrite Hl1. split.
      * intros [[Hold|Hhere]|(k' & v' & s' & row' & Hkv & Hs' & Hr' & Hp' & Hk')].
        -- auto.
        -- apply list_elem_of_singleton in Hhere. subst pk. right.
           exists k, v, s0, row0. split_and!; auto. apply list_elem_of_here.
        -- right. exists k', v', s', row'. split_and!; auto. right. exact Hkv.
      * intros [Hold|(k' & v' & s' & row' & Hkv & Hs' & Hr' & Hp' & Hk')];
          [auto|].
        apply elem_of_cons in Hkv as [[= -> ->]|Hkv].
        -- left. right. apply list_elem_of_singleton.
           rewrite Hs0 in Hs'. injection Hs' as <-.
           assert (row' = row0).
           { apply (unique_pairs_inj d'); [apply Hwf' | exact Hr' | auto |].
             congruence. }
           subst row'. congruence.
        -- right. exists k', v', s', row'. auto.
Qed.

(** What [create_task_instance] leaves behind when it returns. *)
Lemma create_task_instance_effect (d d' : db) dag task run
    (parameters : list (string * pyval)) (t : TaskInstance) :
  well_formed d →
  create_task_instance json_dumps d dag task run (Some parameters) = (d', Ok t) →
  well_formed d'
  ∧ t = (insert_task_instance d dag task run).1
  ∧ task_instance d' = task_instance d ++ [t]
  ∧ (∀ p, p ∈ parameter d → p ∈ parameter d')
  ∧ (∀ p, p ∈ parameter d' →
          p ∈ parameter d
          ∨ ((parameter_seq d ≤ p_pk p)%Z
             ∧ ∃ v, (parameter_name p, v) ∈ parameters
                    ∧ serialize json_dumps v = Ok (parameter_value p)))
  ∧ (∀ k v, (k, v) ∈ parameters →
            ∃ s row, serialize json_dumps v = Ok s
                     ∧ row ∈ parameter d' ∧ pair_of row = (k, s))
  ∧ (∀ t0, t0 ∈ task_instance d →
           ti_pk t0 ≠ ti_pk t
           ∧ linked_pks d' (ti_pk t0) = linked_pks d (ti_pk t0))
  ∧ (∀ pk, pk ∈ linked_pks d' (ti_pk t)
           ↔ ∃ k v s row, (k, v) ∈ parameters
                          ∧ serialize json_dumps v = Ok s
                          ∧ row ∈ parameter d'
                          ∧ pair_of row = (k, s) ∧ p_pk row = pk)
  ∧ task_instance_seq d' = task_instance_seq d + 1.
Proof.
  intros Hwf Hrun.
  apply RegistryFacts.create_task_instance_ok in Hrun as [Ht Hl].
  cbn [default] in Hl.
  pose proof (StoreMore.insert_task_instance_well_formed d dag task run Hwf)
    as Hwf0.
  assert (Hin0 : task_instance_seq d
                 ∈ map ti_pk (task_instance (insert_task_instance d dag task run).2)).
  { cbn. rewrite map_app. apply elem_of_app. right. apply list_elem_of_here. }
  destruct (link_parameters_effect _ _ _ _ Hwf0 Hin0 Hl)
    as (Hwf' & Hti' & Hseq' & _ & Hpre & Hnew & Hreq & Hother & Hlinks).
  cbn [insert_task_instance snd parameter task_instance parameter_seq
       task_instance_seq] in Hti', Hseq', Hpre, Hnew.
  assert (Hpk : ti_pk t = task_instance_seq d) by (rewrite Ht; reflexivity).
  assert (Hfresh : linked_pks (insert_task_instance d dag task run).2
                     (task_instance_seq d) = []).
  { unfold linked_pks. cbn.
    destruct (filter _ (task_instance_parameter d)) as [|r rs] eqn:Hf;
      [reflexivity|].
    exfalso.
    assert (Hr : r ∈ filter (λ r, tip_ti_pk r = task_instance_seq d)
                   (task_instance_parameter d))
      by (rewrite Hf; apply list_elem_of_here).
    apply list_elem_of_filter in Hr as [Heq Hr].
    destruct (wf_links d Hwf r Hr) as [Hr1 _].
    apply list_elem_of_fmap in Hr1 as (t0 & Ht0 & Ht0in).
    pose proof (wf_task_instance_seq d Hwf t0 Ht0in). lia. }
  split_and!.
  - exact Hwf'.
  - exact Ht.
  - rewrite Hti', Ht. reflexivity.
  - intros p Hp. destruct Hpre as [kk ->]. apply elem_of_app. auto.
  - exact Hnew.
  - exact Hreq.
  - intros t0 Ht0. pose proof (wf_task_instance_seq d Hwf t0 Ht0) as Hlt.
    split; [lia|]. rewrite Hother by lia. reflexivity.
  - intros pk. rewrite Hpk, Hlinks, Hfresh. split.
    + intros [H|H]; [inversion H | exact H].
    + auto.
  - exact Hseq'.
Qed.

(** The instance just created is an exact match of what it was created
    with, in whatever order the dict was walked. *)
Lemma created_exact_match (d d' : db) dag task run
    (created parameters : list (string * pyval))
    (wanted : list (string * string)) (t : TaskInstance) :
  well_formed d →
  create_task_instance json_dumps d dag task run (Some created) = (d', Ok t) →
  (∀ kv, kv ∈ created ↔ kv ∈ parameters) →
  wanted_pairs json_dumps parameters = Ok wanted →
  wanted ≠ [] →
  exact_match d' dag task run wanted t ∧ all_stored d' wanted.
Proof.
  intros Hwf Hrun Hsame Hw Hne.
  destruct (create_task_instance_effect _ _ _ _ _ _ _ Hwf Hrun)
    as (Hwf' & Ht & Hti' & _ & _ & Hreq & _ & Hlinks & _).
  pose proof (wanted_pairs_elem _ _ Hw) as Hwe.
  split.
  - unfold exact_match. split_and!.
    + rewrite Hti'. apply elem_of_app. right. apply list_elem_of_here.
    + rewrite Ht. reflexivity.
    + rewrite Ht. reflexivity.
    + rewrite Ht. destruct run; reflexivity.
    + intros pk. rewrite Hlinks. split.
      * intros (k & v & s & row & Hkv & Hs & Hrow & Hpair & Hpk).
        apply list_elem_of_fmap. exists row. split; [auto|].
        apply LookupFacts.elem_of_q_p; [exact Hne|]. split; [exact Hrow|].
        rewrite Hpair. apply Hwe. exists v. split; [apply Hsame, Hkv | exact Hs].
      * intros Hpk. apply list_elem_of_fmap in Hpk as (row & -> & Hrow).
        apply LookupFacts.elem_of_q_p in Hrow as [Hrow Hpair]; [|exact Hne].
        destruct (pair_of row) as [k s] eqn:Hp.
        apply Hwe in Hpair as (v & Hkv & Hs).
        exists k, v, s, row. split_and!; auto. apply Hsame, Hkv.
  - intros [k s] Hks. cbn. apply Hwe in Hks as (v & Hkv & Hs).
    apply Hsame in Hkv.
    destruct (Hreq k v Hkv) as (s' & row & Hs' & Hrow & Hpair).
    rewrite Hs in Hs'. injection Hs' as <-.
    intros Hnil.
    assert (Hin : row ∈ find_parameter d' k s)
      by (apply elem_of_find_parameter; auto).
    rewrite Hnil in Hin. inversion Hin.
Qed.

(** Creating an instance whose pairs are all stored already changes
    nothing for the instances that were there. *)
Lemma old_match_kept (d d' : db) dag task run dag0 task0 run0
    (created : list (string * pyval))
    (wanted : list (string * string)) (t t0 : TaskInstance) :
  well_formed d →
  create_task_instance json_dumps d dag0 task0 run0 (Some created) = (d', Ok t) →
  wanted ≠ [] →
  all_stored d wanted →
  t0 ∈ task_instance d →
  exact_match d dag task run wanted t0 ↔ exact_match d' dag task run wanted t0.
Proof.
  intros Hwf Hrun Hne Hall Ht0.
  destruct (create_task_instance_effect _ _ _ _ _ _ _ Hwf Hrun)
    as (Hwf' & Ht & Hti' & Hsub & _ & _ & Hold & _).
  destruct (Hold t0 Ht0) as [_ Hl0].
  assert (Hq : ∀ pk, pk ∈ map p_pk (q_p d' wanted) ↔ pk ∈ map p_pk (q_p d wanted)).
  { intros pk. split; intros Hpk;
      apply list_elem_of_fmap in Hpk as (row & -> & Hrow);
      apply LookupFacts.elem_of_q_p in Hrow as [Hrow Hpair]; try exact Hne;
      apply list_elem_of_fmap; exists row; (split; [reflexivity|]);
      apply LookupFacts.elem_of_q_p; try exact Hne; (split; [|exact Hpair]).
    - destruct (find_parameter d (pair_of row).1 (pair_of row).2)
        as [|q qs] eqn:Hf; [exfalso; exact (Hall _ Hpair Hf)|].
      assert (Hqin : q ∈ find_parameter d (pair_of row).1 (pair_of row).2)
        by (rewrite Hf; apply list_elem_of_here).
      apply elem_of_find_parameter in Hqin as [Hqin Hqp].
      assert (row = q).
      { apply (unique_pairs_inj d'); [apply Hwf' | exact Hrow | auto |].
        rewrite Hqp. destruct (pair_of row); reflexivity. }
      subst q. exact Hqin.
    - auto. }
  unfold exact_match. rewrite Hl0, Hti'. setoid_rewrite Hq.
  rewrite elem_of_app. intuition.
Qed.

(** Creating an instance with a pair that had no row yet: no older
    instance can be an exact match afterwards. *)
Lemma new_row_excludes_old (d d' : db) dag task run
    (created parameters : list (string * pyval))
    (wanted : list (string * string)) (t t0 : TaskInstance) :
  well_formed d →
  create_task_instance json_dumps d dag task run (Some created) = (d', Ok t) →
  (∀ kv, kv ∈ created ↔ kv ∈ parameters) →
  wanted_pairs json_dumps parameters = Ok wanted →
  wanted ≠ [] →
  ¬ all_stored d wanted →
  t0 ∈ task_instance d →
  ¬ exact_match d' dag task run wanted t0.
Proof.
  intros Hwf Hrun Hsame Hw Hne Hnot Ht0 (_ & _ & _ & _ & Hiff).
  destruct (created_exact_match _ _ _ _ _ _ _ _ _ Hwf Hrun Hsame Hw Hne)
    as [_ Hall'].
  destruct (create_task_instance_effect _ _ _ _ _ _ _ Hwf Hrun)
    as (Hwf' & Ht & Hti' & Hsub & Hnew & _ & Hold & _).
  destruct (Hold t0 Ht0) as [_ Hl0].
  destruct (decide (Forall (λ kv, find_parameter d kv.1 kv.2 ≠ []) wanted))
    as [Hyes|Hno].
  { apply Hnot. intros kv Hkv. rewrite Forall_forall in Hyes. auto. }
  apply not_Forall_Exists in Hno; [|apply _].
  apply Exists_exists in Hno as ([k s] & Hks & Hmiss). cbn in Hmiss.
  assert (Hnil : find_parameter d k s = [])
    by (destruct (find_parameter d k s); [reflexivity | exfalso; apply Hmiss; done]).
  destruct (find_parameter d' k s) as [|row rs] eqn:Hf';
    [exact (Hall' (k, s) Hks Hf')|].
  assert (Hrow : row ∈ find_parameter d' k s)
    by (rewrite Hf'; apply list_elem_of_here).
  apply elem_of_find_parameter in Hrow as [Hrow Hpair].
  assert (Hge : (parameter_seq d ≤ p_pk row)%Z).
  { destruct (Hnew row Hrow) as [Hin|[Hge _]]; [|exact Hge].
    exfalso.
    assert (Hin' : row ∈ find_parameter d k s)
      by (apply elem_of_find_parameter; auto).
    rewrite Hnil in Hin'. inversion Hin'. }
  assert (Hlinked : p_pk row ∈ linked_pks d (ti_pk t0)).
  { rewrite <- Hl0. apply Hiff. apply list_elem_of_fmap. exists row.
    split; [reflexivity|]. apply LookupFacts.elem_of_q_p; [exact Hne|].
    split; [exact Hrow|]. rewrite Hpair. exact Hks. }
  unfold linked_pks in Hlinked.
  apply list_elem_of_fmap in Hlinked as (r & Hr & Hrin).
  apply list_elem_of_filter in Hrin as [_ Hrin].
  destruct (wf_links d Hwf r Hrin) as [_ Hp].
  apply list_elem_of_fmap in Hp as (q & Hq & Hqin).
  pose proof (wf_parameter_seq d Hwf q Hqin). lia.
Qed.

(** X15.  Create, then look up: in a well-formed store in which the
    lookup of a request with at least one parameter finds nothing,
    [create_task_instance] succeeds and the same lookup then returns the
    task instance just created. *)
Theorem create_task_instance_then_found (d : db) (dag task : string)
    (run : option string) (parameters : list (string * pyval)) :
  well_formed d →
  NoDup (map fst parameters) → parameters ≠ [] →
  get_task_instance json_dumps d dag task run parameters = Ok None →
  ∃ d' t,
    create_task_instance json_dumps d dag task run (Some parameters)
    = (d', Ok t)
    ∧ get_task_instance json_dumps d' dag task run parameters = Ok (Some t).
Proof.
  intros Hwf Hkeys Hne Hnone.
  destruct (wanted_pairs json_dumps parameters) as [wanted|e] eqn:Hw.
  2:{ unfold get_task_instance in Hnone. rewrite Hw in Hnone. discriminate. }
  pose proof (wanted_pairs_serialized _ _ Hw) as Hser.
  destruct (RegistryFacts.create_task_instance_total json_dumps d dag task run
              (Some parameters) (wf_pairs d Hwf) Hser) as (d' & Hrun & _).
  exists d', (insert_task_instance d dag task run).1. split; [exact Hrun|].
  set (t := (insert_task_instance d dag task run).1) in *.
  assert (Hwne : wanted ≠ []).
  { pose proof (LookupFacts.wanted_pairs_length _ _ _ Hw) as Hlen.
    intros ->. destruct parameters; [done | discriminate Hlen]. }
  assert (Hwnd : NoDup wanted).
  { apply (NoDup_fmap_1 fst). change (NoDup (map fst wanted)).
    rewrite (LookupFacts.wanted_pairs_keys _ _ _ Hw). exact Hkeys. }
  destruct (created_exact_match _ _ _ _ _ _ parameters _ _ Hwf Hrun
              (λ kv, reflexivity _) Hw Hwne) as [Hex Hall'].
  destruct (create_task_instance_effect _ _ _ _ _ _ _ Hwf Hrun)
    as (Hwf' & Ht & Hti' & _).
  rewrite (LookupMore.get_task_instance_candidates json_dumps d' dag task run
             parameters wanted Hw).
  pose proof (LookupFacts.q_p_full d' wanted (wf_pairs d' Hwf') Hwnd Hwne Hall')
    as Hfull'.
  rewrite decide_False by lia.
  rewrite (LookupMore.candidates_one d' dag task run wanted t); trivial;
    try apply Hwf'.
  intros t0 Hex0. destruct (decide (t0 = t)) as [|Hneq]; [assumption|].
  exfalso.
  assert (Ht0 : t0 ∈ task_instance d).
  { destruct Hex0 as (Hin & _). rewrite Hti' in Hin.
    apply elem_of_app in Hin as [Hin|Hin]; [exact Hin|].
    apply list_elem_of_singleton in Hin. contradiction. }
  destruct (decide (Forall (λ kv, find_parameter d kv.1 kv.2 ≠ []) wanted))
    as [Hyes|Hno].
  - assert (Hall : all_stored d wanted)
      by (intros kv Hkv; rewrite Forall_forall in Hyes; auto).
    apply (old_match_kept _ _ dag task run _ _ _ _ _ _ t0 Hwf Hrun
             Hwne Hall Ht0) in Hex0.
    rewrite (LookupMore.get_task_instance_candidates json_dumps d dag task run
               parameters wanted Hw) in Hnone.
    pose proof (LookupFacts.q_p_full d wanted (wf_pairs d Hwf) Hwnd Hwne Hall)
      as Hfull.
    rewrite decide_False in Hnone by lia.
    pose proof (LookupMore.candidates_complete d dag task run wanted t0
                  (wf_parameter_pks d Hwf) Hwne Hfull Hex0) as Hc.
    destruct (candidates d dag task run wanted) as [|a [|b rest]];
      [inversion Hc | discriminate | discriminate].
  - apply (new_row_excludes_old _ _ _ _ _ _ parameters _ _ t0 Hwf Hrun
             (λ kv, reflexivity _) Hw Hwne); auto.
    intros Hall. apply Hno. apply Forall_forall. exact Hall.
Qed.

(** X16.  Registering the same work twice breaks its lookup: after
    [get_or_create_task_instance] has returned for a request with at
    least one parameter, a second call in a well-formed store with the
    same dict, walked in any order, creates a second task instance, and
    from then on [get_task_instance] raises [MultipleResultsFound] for
    that request. *)
Theorem get_or_create_task_instance_twice_breaks_lookup (d d1 : db)
    (dag task : string) (run : option string)
    (parameters again : list (string * pyval)) (t1 : TaskInstance) :
  well_formed d →
  NoDup (map fst parameters) → parameters ≠ [] →
  again ≡ₚ parameters →
  get_or_create_task_instance json_dumps d dag task run (Some parameters)
  = (d1, Ok t1) →
  ∃ d2 t2,
    get_or_create_task_instance json_dumps d1 dag task run (Some again)
    = (d2, Ok t2)
    ∧ ti_pk t2 ≠ ti_pk t1
    ∧ get_task_instance json_dumps d2 dag task run parameters
      = Raise MultipleResultsFound.
Proof.
  unfold get_or_create_task_instance. cbn [default].
  intros Hwf Hkeys Hne Hperm Hrun1.
  pose proof (RegistryFacts.create_task_instance_ok json_dumps _ _ _ _ _ _ _ Hrun1)
    as [_ Hl1].
  pose proof (RegistryFacts.link_parameters_serialized json_dumps _ _ _ _ Hl1)
    as Hser. cbn [default] in Hser.
  destruct (wanted_pairs_total _ Hser) as [wanted Hw].
  assert (Hwne : wanted ≠ []).
  { pose proof (LookupFacts.wanted_pairs_length _ _ _ Hw) as Hlen.
    intros ->. destruct parameters; [done | discriminate Hlen]. }
  assert (Hwnd : NoDup wanted).
  { apply (NoDup_fmap_1 fst). change (NoDup (map fst wanted)).
    rewrite (LookupFacts.wanted_pairs_keys _ _ _ Hw). exact Hkeys. }
  destruct (created_exact_match _ _ _ _ _ _ parameters _ _ Hwf Hrun1
              (λ kv, reflexivity _) Hw Hwne) as [Hex1 Hall1].
  destruct (create_task_instance_effect _ _ _ _ _ _ _ Hwf Hrun1)
    as (Hwf1 & _).
  assert (Hsame : ∀ kv, kv ∈ again ↔ kv ∈ parameters)
    by (intros kv; rewrite Hperm; reflexivity).
  assert (Hser2 : ∀ kv, kv ∈ default [] (Some again) →
                        is_ok (serialize json_dumps kv.2) = true)
    by (intros kv Hkv; apply Hser, Hsame, Hkv).
  destruct (RegistryFacts.create_task_instance_total json_dumps d1 dag task run
              (Some again) (wf_pairs d1 Hwf1) Hser2) as (d2 & Hrun2 & _).
  exists d2, (insert_task_instance d1 dag task run).1. split; [exact Hrun2|].
  set (t2 := (insert_task_instance d1 dag task run).1) in *.
  destruct (created_exact_match _ _ _ _ _ _ parameters _ _ Hwf1 Hrun2
              Hsame Hw Hwne) as [Hex2 Hall2].
  destruct (create_task_instance_effect _ _ _ _ _ _ _ Hwf1 Hrun2)
    as (Hwf2 & _ & _ & _ & _ & _ & Hold & _).
  assert (Ht1 : t1 ∈ task_instance d1) by apply Hex1.
  destruct (Hold t1 Ht1) as [Hneq _].
  split; [congruence|].
  apply (old_match_kept _ _ dag task run _ _ _ _ _ _ t1 Hwf1 Hrun2
           Hwne Hall1 Ht1) in Hex1.
  rewrite (LookupMore.get_task_instance_candidates json_dumps d2 dag task run
             parameters wanted Hw).
  pose proof (LookupFacts.q_p_full d2 wanted (wf_pairs d2 Hwf2) Hwnd Hwne Hall2)
    as Hfull.
  rewrite decide_False by lia.
  apply (LookupFacts.one_or_none_two _ t1 t2).
  - apply LookupMore.candidates_complete; auto. apply Hwf2.
  - apply LookupMore.candidates_complete; auto. apply Hwf2.
  - congruence.
Qed.

End facts.

Lemma with_task_instance_well_formed dag task run parameters (d : db) :
  well_formed d →
  well_formed (MiniJson.with_task_instance dag task run parameters d).
Proof.
  intros Hwf. unfold MiniJson.with_task_instance.
  eapply StoreMore.create_task_instance_well_formed; [exact Hwf|].
  apply surjective_pairing.
Qed.

Lemma three_instances_well_formed : well_formed MiniJson.three_instances.
Proof.
  unfold MiniJson.three_instances.
  do 3 apply with_task_instance_well_formed.
  apply StoreMore.empty_db_well_formed.
Qed.

(** On the store of three instances the request for release and healpix
    is not found; once created, it is. *)
Lemma create_task_instance_then_found_witness :
  ∃ d' t,
    create_task_instance MiniJson.dumps MiniJson.three_instances
      "ingest" "classify" (Some "r1")
      (Some [("release", PStr "sdss5"); ("healpix", PInt 7)])
    = (d', Ok t)
    ∧ get_task_instance MiniJson.dumps d' "ingest" "classify" (Some "r1")
        [("release", PStr "sdss5"); ("healpix", PInt 7)]
      = Ok (Some t).
Proof.
  apply (create_task_instance_then_found MiniJson.dumps
           MiniJson.three_instances "ingest" "classify" (Some "r1")
           [("release", PStr "sdss5"); ("healpix", PInt 7)]).
  - exact three_instances_well_formed.
  - LookupFacts.by_computation.
  - discriminate.
  - vm_compute. reflexivity.
Defined.

(** Registered a second time with the keys in the other order, the same
    request can no longer be looked up. *)
Lemma get_or_create_task_instance_twice_breaks_lookup_witness :
  ∃ d2 t2,
    get_or_create_task_instance MiniJson.dumps
      (get_or_create_task_instance MiniJson.dumps MiniJson.three_instances
         "ingest" "classify" (Some "r1")
         (Some [("release", PStr "sdss5"); ("healpix", PInt 7)])).1
      "ingest" "classify" (Some "r1")
      (Some [("healpix", PInt 7); ("release", PStr "sdss5")])
    = (d2, Ok t2)
    ∧ ti_pk t2 ≠ 4
    ∧ get_task_instance MiniJson.dumps d2 "ingest" "classify" (Some "r1")
        [("release", PStr "sdss5"); ("healpix", PInt 7)]
      = Raise MultipleResultsFound.
Proof.
  apply (get_or_create_task_instance_twice_breaks_lookup MiniJson.dumps
           MiniJson.three_instances _ "ingest" "classify" (Some "r1")
           [("release", PStr "sdss5"); ("healpix", PInt 7)]
           [("healpix", PInt 7); ("release", PStr "sdss5")]
           {| ti_pk := 4; dag_id := "ingest"; task_id := "classify";
              run_id := Some "r1"; output_pk := None |}).
  - exact three_instances_well_formed.
  - LookupFacts.by_computation.
  - discriminate.
  - apply Permutation_swap.
  - vm_compute. reflexivity.
Defined.

End CreateLookup.

(** ** The bulk creators *)

Module BulkFacts.
Import Db Registry Store Bulk.

Lemma all_stored_mono (d d' : db) (wanted : list (string * string)) :
  (∀ p, p ∈ parameter d → p ∈ parameter d') →
  all_stored d wanted → all_stored d' wanted.
Proof.
  intros Hsub Hall kv Hkv Hnil. specialize (Hall kv Hkv).
  destruct (find_parameter d kv.1 kv.2) as [|row rows] eqn:Hf; [done|].
  assert (Hrow : row ∈ find_parameter d kv.1 kv.2)
    by (rewrite Hf; apply list_elem_of_here).
  apply CreateLookup.elem_of_find_parameter in Hrow as [Hrow Hpair].
  assert (Hrow' : row ∈ find_parameter d' kv.1 kv.2)
    by (apply CreateLookup.elem_of_find_parameter; auto).
  rewrite Hnil in Hrow'. inversion Hrow'.
Qed.

Lemma dict_get_set {V} (k k' : string) (v : V) (d : list (string * V)) :
  Shapes.dict_get k (dict_set k' v d)
  = if decide (k' = k) then Some v else Shapes.dict_get k d.
Proof.
  induction d as [|[k0 v0] d IH]; simpl.
  - reflexivity.
  - destruct (decide (k0 = k')) as [->|Hne]; simpl.
    + destruct (decide (k' = k)); reflexivity.
    + rewrite IH. destruct (decide (k0 = k)) as [->|];
        [rewrite decide_False by congruence|]; reflexivity.
Qed.

(** [{**kwds, **parameters}]: the caller's value wins. *)
Lemma dict_get_update {V} (k : string) (other : list (string * V)) :
  NoDup (map fst other) →
  ∀ d, Shapes.dict_get k (dict_update d other)
       = match Shapes.dict_get k other with
         | Some v => Some v
         | None => Shapes.dict_get k d
         end.
Proof.
  unfold dict_update.
  induction other as [|[k0 v0] other IH]; intros Hnd d; simpl.
  - reflexivity.
  - simpl in Hnd. apply NoDup_cons in Hnd as [Hk0 Hnd].
    rewrite (IH Hnd). destruct (decide (k0 = k)) as [->|Hne].
    + destruct (Shapes.dict_get k other) as [v|] eqn:Hget.
      * exfalso. apply Hk0. clear -Hget.
        induction other as [|[k1 v1] other IH]; [discriminate|].
        simpl in *. destruct (decide (k1 = k)) as [->|];
          [apply list_elem_of_here | right; auto].
      * rewrite dict_get_set, decide_True by reflexivity. reflexivity.
    + rewrite dict_get_set, decide_False by exact Hne. reflexivity.
Qed.

Lemma dict_set_keys {V} (k : string) (v : V) (d : list (string * V)) :
  map fst (dict_set k v d)
  = if decide (k ∈ map fst d) then map fst d else map fst d ++ [k].
Proof.
  induction d as [|[k0 v0] d IH]; cbn [dict_set map fst].
  - destruct (decide (k ∈ [])) as [H|H]; [inversion H | reflexivity].
  - destruct (decide (k0 = k)) as [->|Hne]; cbn [map fst].
    + destruct (decide (k ∈ k :: map fst d)) as [H|H]; [reflexivity|].
      exfalso. apply H, list_elem_of_here.
    + rewrite IH. destruct (decide (k ∈ map fst d)) as [Hin|Hout];
        destruct (decide (k ∈ k0 :: map fst d)) as [Hin'|Hout'];
        try reflexivity.
      * exfalso. apply Hout'. right. exact Hin.
      * exfalso. apply elem_of_cons in Hin' as [->|Hin']; auto.
Qed.

Lemma dict_update_keys_NoDup {V} (other : list (string * V)) :
  ∀ d, NoDup (map fst d) → NoDup (map fst (dict_update d other)).
Proof.
  unfold dict_update.
  induction other as [|[k v] other IH]; intros d Hnd; simpl; [exact Hnd|].
  apply IH. rewrite dict_set_keys.
  destruct (decide (k ∈ map fst d)) as [Hin|Hout]; [exact Hnd|].
  apply NoDup_app. split_and!; [exact Hnd | | apply NoDup_singleton].
  intros x Hx Hx'. apply list_elem_of_singleton in Hx'. subst x. auto.
Qed.

Lemma dict_get_elem {V} (k : string) (v : V) (d : list (string * V)) :
  Shapes.dict_get k d = Some v → (k, v) ∈ d.
Proof.
  induction d as [|[k0 v0] d IH]; simpl; [discriminate|].
  destruct (decide (k0 = k)) as [->|Hne].
  - intros [= ->]. apply list_elem_of_here.
  - intros H. right. auto.
Qed.

Lemma rows_from_app {A} (n : Z) dag task run (a b : list A) :
  rows_from n dag task run (a ++ b)
  = rows_from n dag task run a
    ++ rows_from (n + Z.of_nat (length a)) dag task run b.
Proof.
  unfold rows_from. rewrite <- map_app. f_equal.
  revert n. induction a as [|x a IH]; intros n; simpl.
  - f_equal. lia.
  - f_equal. rewrite IH. f_equal. f_equal. lia.
Qed.

Section facts.
Variable json_dumps : pyval → option string.
Variable json_loads : string → option pyval.
Variable mktemp : list (string * string) → Pks.filesystem → string.

Lemma get_or_create_task_instance_creates (d : db) dag task run
    (parameters : list (string * pyval)) :
  get_or_create_task_instance json_dumps d dag task run (Some parameters)
  = create_task_instance json_dumps d dag task run (Some parameters).
Proof. reflexivity. Qed.

(** What the loop has done when it ends without raising. *)
Lemma create_each_effect (dag task : string) (run : option string)
    (parameters : kwds) :
  ∀ (all_kwds : list kwds) (d d' : db) (pks0 pks : list Z),
    well_formed d →
    create_each json_dumps d dag task run all_kwds parameters pks0
    = (d', Ok pks) →
    pks = pks0 ++ keys_from (task_instance_seq d) all_kwds
    ∧ well_formed d'
    ∧ task_instance d'
      = task_instance d ++ rows_from (task_instance_seq d) dag task run all_kwds
    ∧ task_instance_seq d' = task_instance_seq d + Z.of_nat (length all_kwds)
    ∧ (∀ p, p ∈ parameter d → p ∈ parameter d')
    ∧ (∀ dg tk rn wanted t0,
         wanted ≠ [] → all_stored d wanted → t0 ∈ task_instance d →
         exact_match d dg tk rn wanted t0 →
         exact_match d' dg tk rn wanted t0)
    ∧ (∀ (i : nat) kw wanted,
         all_kwds !! i = Some kw →
         dict_update kw parameters ≠ [] →
         wanted_pairs json_dumps (dict_update kw parameters) = Ok wanted →
         ∃ t, rows_from (task_instance_seq d) dag task run all_kwds !! i
              = Some t
              ∧ exact_match d' dag task run wanted t
              ∧ all_stored d' wanted).
Proof.
  induction all_kwds as [|kw rest IH]; intros d d' pks0 pks Hwf; simpl.
  - intros [= <- <-]. unfold rows_from. simpl. rewrite !app_nil_r.
    split_and!; auto; [lia|]. intros i kw wanted Hi. rewrite lookup_nil in Hi.
    discriminate.
  - rewrite get_or_create_task_instance_creates.
    destruct (create_task_instance json_dumps d dag task run
                (Some (dict_update kw parameters))) as [d1 [t|e]] eqn:Hc;
      [|intros H; inversion H].
    intros Hrun.
    destruct (CreateLookup.create_task_instance_effect _ _ _ _ _ _ _ _ Hwf Hc)
      as (Hwf1 & Ht & Hti1 & Hsub1 & _ & _ & _ & _ & Hseq1).
    destruct (IH d1 d' _ pks Hwf1 Hrun)
      as (Hpks & Hwf' & Hti' & Hseq' & Hsub' & Hkeep' & Hnew').
    assert (Hpk : ti_pk t = task_instance_seq d) by (rewrite Ht; reflexivity).
    assert (Hkeep : ∀ dg tk rn wanted t0,
               wanted ≠ [] → all_stored d1 wanted → t0 ∈ task_instance d1 →
               exact_match d1 dg tk rn wanted t0 →
               exact_match d' dg tk rn wanted t0) by exact Hkeep'.
    split_and!.
    + rewrite Hpks, Hpk, Hseq1, <- app_assoc. reflexivity.
    + exact Hwf'.
    + rewrite Hti', Hti1, Hseq1, <- app_assoc, Ht. reflexivity.
    + rewrite Hseq', Hseq1. cbn [length]. lia.
    + auto.
    + intros dg tk rn wanted t0 Hne Hall Ht0 Hex.
      apply Hkeep; trivial.
      * eapply all_stored_mono; eassumption.
      * rewrite Hti1. apply elem_of_app. auto.
      * eapply (CreateLookup.old_match_kept json_dumps d d1); eassumption.
    + intros [|i] kw' wanted Hi Hne Hw.
      * injection Hi as <-. exists t. split; [rewrite Ht; reflexivity|].
        assert (Hwne : wanted ≠ []).
        { pose proof (LookupFacts.wanted_pairs_length _ _ _ Hw) as Hlen.
          intros ->. destruct (dict_update kw parameters);
            [done | discriminate Hlen]. }
        destruct (CreateLookup.created_exact_match json_dumps _ _ _ _ _ _
                    (dict_update kw parameters) _ _ Hwf Hc
                    (λ kv, reflexivity _) Hw Hwne) as [Hex Hall].
        split.
        -- apply Hkeep; trivial. apply Hex.
        -- eapply all_stored_mono; eassumption.
      * destruct (Hnew' i kw' wanted Hi Hne Hw) as (t' & Hrow & Hex).
        exists t'. split; [|exact Hex].
        rewrite Hseq1 in Hrow. exact Hrow.
Qed.

(** The loop ends without raising when every value can be serialised. *)
Lemma create_each_total (dag task : string) (run : option string)
    (parameters : kwds) :
  ∀ (all_kwds : list kwds) (d : db) (pks0 : list Z),
    well_formed d →
    (∀ kw kv, kw ∈ all_kwds → kv ∈ dict_update kw parameters →
              is_ok (serialize json_dumps kv.2) = true) →
    ∃ d' pks,
      create_each json_dumps d dag task run all_kwds parameters pks0
      = (d', Ok pks).
Proof.
  induction all_kwds as [|kw rest IH]; intros d pks0 Hwf Hser; simpl.
  - eauto.
  - rewrite get_or_create_task_instance_creates.
    destruct (RegistryFacts.create_task_instance_total json_dumps d dag task
                run (Some (dict_update kw parameters)) (wf_pairs d Hwf))
      as (d1 & Hc & _).
    { intros kv Hkv. apply (Hser kw kv); [apply list_elem_of_here | exact Hkv]. }
    rewrite Hc. apply IH.
    + eapply StoreMore.create_task_instance_well_formed; eassumption.
    + intros kw' kv Hkw. apply Hser. right. exact Hkw.
Qed.

Lemma to_py_leaves (pks : list Z) :
  Pks.to_py (Pks.Nest (map Pks.Leaf pks)) = PList (map PInt pks)
  ∧ Pks.leaves (Pks.Nest (map Pks.Leaf pks)) = pks
  ∧ (Pks.depth (Pks.Nest (map Pks.Leaf pks)) ≤ 1)%nat.
Proof.
  simpl. split_and!.
  - f_equal. rewrite map_map. reflexivity.
  - induction pks as [|z pks IH]; simpl; [reflexivity | f_equal; exact IH].
  - induction pks as [|z pks IH]; simpl in *; lia.
Qed.

(** X17.  Asked for the list, a creator returns one new primary key per
    dict of keywords, in the order of the query and counting up from the
    sequence, and the store has gained exactly the task instances of
    these keys, with the dag, the task and the run of the call; the
    store stays well formed and no file is written.  With no dict at
    all the empty list is returned whether or not the list was asked
    for. *)
Theorem create_task_instances_for_list (d : db) (fs : Pks.filesystem)
    (dag task : string) (run : option string) (all_kwds : list kwds)
    (parameters : option kwds) (return_list : bool)
    (kwargs : list (string * string)) :
  well_formed d →
  (∀ kw kv, kw ∈ all_kwds → kv ∈ dict_update kw (default [] parameters) →
            is_ok (serialize json_dumps kv.2) = true) →
  all_kwds = [] ∨ return_list = true →
  ∃ d',
    create_task_instances_for json_dumps mktemp (Ok all_kwds) d fs dag task
      run parameters return_list kwargs
    = (d', Ok (Pks (keys_from (task_instance_seq d) all_kwds), fs))
    ∧ task_instance d'
      = task_instance d ++ rows_from (task_instance_seq d) dag task run all_kwds
    ∧ length (keys_from (task_instance_seq d) all_kwds) = length all_kwds
    ∧ well_formed d'.
Proof.
  intros Hwf Hser Hcase. unfold create_task_instances_for.
  destruct (create_each_total dag task run (default [] parameters) all_kwds d []
              Hwf Hser) as (d' & pks & Hrun).
  rewrite Hrun.
  destruct (create_each_effect _ _ _ _ _ _ _ _ _ Hwf Hrun)
    as (Hpks & Hwf' & Hti' & _).
  simpl in Hpks. subst pks. exists d'. split_and!; trivial.
  - f_equal. unfold return_pks.
    destruct Hcase as [-> | ->]; [reflexivity|].
    rewrite orb_true_r. reflexivity.
  - clear. generalize (task_instance_seq d).
    induction all_kwds as [|kw rest IH]; intros n; simpl; [|rewrite IH];
      reflexivity.
Qed.

(** X18.  Asked for a path, and with at least one dict of keywords, a
    creator writes the new keys to a file and returns its path; reading
    that path back with [deserialize_pks] and [flatten=True] gives the
    keys of the task instances created, in order, for any json library
    that reads back the list of integers it wrote. *)
Theorem create_task_instances_for_path (d : db) (fs : Pks.filesystem)
    (dag task : string) (run : option string) (all_kwds : list kwds)
    (parameters : option kwds) (kwargs : list (string * string))
    (text : string) :
  well_formed d →
  (∀ kw kv, kw ∈ all_kwds → kv ∈ dict_update kw (default [] parameters) →
            is_ok (serialize json_dumps kv.2) = true) →
  all_kwds ≠ [] →
  json_dumps (PList (map PInt (keys_from (task_instance_seq d) all_kwds)))
  = Some text →
  json_loads text
  = Some (PList (map PInt (keys_from (task_instance_seq d) all_kwds))) →
  ∃ d' path fs',
    create_task_instances_for json_dumps mktemp (Ok all_kwds) d fs dag task
      run parameters false kwargs
    = (d', Ok (Path path, fs'))
    ∧ map ti_pk (drop (length (task_instance d)) (task_instance d'))
      = keys_from (task_instance_seq d) all_kwds
    ∧ ∀ fuel, (1 < fuel)%nat →
        Pks.deserialize_pks json_loads fuel fs' (PStr path) true
        = ([], Ok (PList (map PInt (keys_from (task_instance_seq d) all_kwds)))).
Proof.
  intros Hwf Hser Hne Hdump Hload. unfold create_task_instances_for.
  destruct (create_each_total dag task run (default [] parameters) all_kwds d []
              Hwf Hser) as (d' & pks & Hrun).
  rewrite Hrun.
  destruct (create_each_effect _ _ _ _ _ _ _ _ _ Hwf Hrun)
    as (Hpks & Hwf' & Hti' & _).
  simpl in Hpks. subst pks.
  set (pks := keys_from (task_instance_seq d) all_kwds) in *.
  assert (Hpksne : pks ≠ []) by (subst pks; destruct all_kwds; done).
  unfold return_pks. rewrite bool_decide_eq_false_2 by exact Hpksne.
  cbn [orb]. unfold Pks.serialize_pks_to_path. rewrite Hdump.
  cbn [mbind result_bind rbind mret result_ret].
  eexists d', _, _. split; [reflexivity|]. split.
  - rewrite Hti', drop_app_length. unfold rows_from. rewrite map_map.
    simpl. apply map_id.
  - intros fuel Hfuel.
    destruct (to_py_leaves pks) as (Hpy & Hleaves & Hdepth).
    replace (PList (map PInt pks))
      with (PList (map PInt (Pks.leaves (Pks.Nest (map Pks.Leaf pks)))))
      by (rewrite Hleaves; reflexivity).
    apply (PksFacts.deserialize_contents json_loads _ fuel _
             (map Pks.Leaf pks) true); [|lia].
    unfold Pks.contents_of. rewrite lookup_insert_eq, Hload, Hpy. reflexivity.
Qed.

(** X19.  [{**kwds, **parameters}]: a parameter of the caller
    overrides the identifying keyword of the same name.  Every task
    instance a creator makes is linked to the row of the caller's value
    for that name, and to no other row of that name. *)
Theorem create_task_instances_for_caller_wins (d : db) (fs : Pks.filesystem)
    (dag task : string) (run : option string) (all_kwds : list kwds)
    (parameters : kwds) (return_list : bool)
    (kwargs : list (string * string)) (i : nat) (kw : kwds)
    (k : string) (v : pyval) (s : string) :
  well_formed d →
  (∀ kw kv, kw ∈ all_kwds → kv ∈ dict_update kw parameters →
            is_ok (serialize json_dumps kv.2) = true) →
  all_kwds !! i = Some kw →
  NoDup (map fst kw) → NoDup (map fst parameters) →
  Shapes.dict_get k parameters = Some v →
  serialize json_dumps v = Ok s →
  let d' := (create_task_instances_for json_dumps mktemp (Ok all_kwds) d fs
               dag task run (Some parameters) return_list kwargs).1 in
  ∃ t row,
    rows_from (task_instance_seq d) dag task run all_kwds !! i = Some t
    ∧ t ∈ task_instance d'
    ∧ row ∈ parameter d' ∧ pair_of row = (k, s)
    ∧ p_pk row ∈ linked_pks d' (ti_pk t)
    ∧ ∀ row', row' ∈ parameter d' → parameter_name row' = k →
              p_pk row' ∈ linked_pks d' (ti_pk t) → row' = row.
Proof.
  intros Hwf Hser Hi Hkw Hps Hget Hs d'. subst d'.
  unfold create_task_instances_for.
  change (default [] (Some parameters)) with parameters. cbv zeta.
  destruct (create_each_total dag task run parameters all_kwds d [] Hwf Hser)
    as (d' & pks & Hrun).
  rewrite Hrun. cbn [fst].
  destruct (create_each_effect _ _ _ _ _ _ _ _ _ Hwf Hrun)
    as (_ & Hwf' & _ & _ & _ & _ & Hnew).
  set (merged := dict_update kw parameters).
  assert (Hin : (k, v) ∈ merged).
  { apply dict_get_elem. unfold merged. rewrite (dict_get_update k _ Hps).
    rewrite Hget. reflexivity. }
  assert (Hmne : merged ≠ []) by (intros Hnil; rewrite Hnil in Hin; inversion Hin).
  destruct (CreateLookup.wanted_pairs_total json_dumps merged) as [wanted Hw].
  { intros kv Hkv. apply (Hser kw kv); [|exact Hkv].
    eapply list_elem_of_lookup_2, Hi. }
  destruct (Hnew i kw wanted Hi Hmne Hw) as (t & Hrow & Hex & Hall).
  pose proof (CreateLookup.wanted_pairs_elem json_dumps _ _ Hw) as Hwe.
  assert (Hwne : wanted ≠ []).
  { pose proof (LookupFacts.wanted_pairs_length _ _ _ Hw) as Hlen.
    intros ->. fold merged in Hlen. destruct merged; [done | discriminate Hlen]. }
  assert (Hks : (k, s) ∈ wanted) by (apply Hwe; eauto).
  destruct (find_parameter d' k s) as [|row rows] eqn:Hf;
    [exfalso; exact (Hall (k, s) Hks Hf)|].
  assert (Hrin : row ∈ find_parameter d' k s)
    by (rewrite Hf; apply list_elem_of_here).
  apply CreateLookup.elem_of_find_parameter in Hrin as [Hrin Hpair].
  destruct Hex as (Ht & _ & _ & _ & Hiff).
  exists t, row. split_and!; trivial.
  - apply Hiff. apply list_elem_of_fmap. exists row. split; [reflexivity|].
    apply LookupFacts.elem_of_q_p; [exact Hwne|]. rewrite Hpair. auto.
  - intros row' Hr' Hname Hlinked.
    apply Hiff in Hlinked. apply list_elem_of_fmap in Hlinked as (q & Hq & Hqin).
    apply LookupFacts.elem_of_q_p in Hqin as [Hqin Hqw]; [|exact Hwne].
    assert (row' = q).
    { eapply (CreateLookup.NoDup_fmap_elem_inj p_pk);
        [apply (wf_parameter_pks d' Hwf') | | |]; eassumption. }
    subst q.
    destruct (pair_of row') as [k' s'] eqn:Hp'.
    assert (k' = k) by (unfold pair_of in Hp'; congruence). subst k'.
    apply Hwe in Hqw as (v' & Hv' & Hs').
    assert (Heq : (k, v') = (k, v)).
    { eapply (CreateLookup.NoDup_fmap_elem_inj fst merged);
        [apply dict_update_keys_NoDup, Hkw | | | reflexivity]; assumption. }
    injection Heq as ->. rewrite Hs in Hs'. injection Hs' as <-.
    apply (CreateLookup.unique_pairs_inj d'); [apply Hwf' | | |]; congruence.
Qed.

Lemma create_each_app (dag task : string) (run : option string)
    (parameters : kwds) (more : list kwds) :
  ∀ (good : list kwds) (d : db) (pks0 : list Z),
    create_each json_dumps d dag task run (good ++ more) parameters pks0
    = match create_each json_dumps d dag task run good parameters pks0 with
      | (d1, Ok pks) =>
          create_each json_dumps d1 dag task run more parameters pks
      | (d1, Raise e) => (d1, Raise e)
      end.
Proof.
  induction good as [|kw good IH]; intros d pks0; simpl; [reflexivity|].
  destruct (get_or_create_task_instance _ _ _ _ _ _) as [d1 [t|e]];
    [apply IH | reflexivity].
Qed.

(** X20.  A creator is not atomic.  When the dicts before some dict can
    be stored and that dict holds a value that cannot be serialised, the
    call raises: neither a list nor a path is returned; yet the task
    instances of the dicts before it, and the row of the failing one,
    stay in the store. *)
Theorem create_task_instances_for_stops_midway (d : db)
    (fs : Pks.filesystem) (dag task : string) (run : option string)
    (good rest : list kwds) (bad : kwds) (parameters : option kwds)
    (return_list : bool) (kwargs : list (string * string)) :
  well_formed d →
  (∀ kw kv, kw ∈ good → kv ∈ dict_update kw (default [] parameters) →
            is_ok (serialize json_dumps kv.2) = true) →
  (∃ kv, kv ∈ dict_update bad (default [] parameters)
         ∧ is_ok (serialize json_dumps kv.2) = false) →
  ∃ d' e,
    create_task_instances_for json_dumps mktemp (Ok (good ++ bad :: rest))
      d fs dag task run parameters return_list kwargs
    = (d', Raise e)
    ∧ task_instance d'
      = task_instance d
        ++ rows_from (task_instance_seq d) dag task run (good ++ [bad]).
Proof.
  intros Hwf Hser (kv & Hkv & Hbad). unfold create_task_instances_for.
  rewrite create_each_app.
  destruct (create_each_total dag task run (default [] parameters) good d []
              Hwf Hser) as (d1 & pks & Hrun).
  rewrite Hrun.
  destruct (create_each_effect _ _ _ _ _ _ _ _ _ Hwf Hrun)
    as (_ & Hwf1 & Hti1 & Hseq1 & _).
  cbn [create_each]. rewrite get_or_create_task_instance_creates.
  unfold create_task_instance. cbn [insert_task_instance default].
  destruct (link_parameters _ _ _ _) as [d2|e] eqn:Hl.
  - pose proof (RegistryFacts.link_parameters_serialized json_dumps _ _ _ _ Hl
                  kv Hkv) as Hok.
    rewrite Hok in Hbad. discriminate.
  - eexists _, e. split; [reflexivity|]. cbn [task_instance].
    rewrite Hti1, rows_from_app, <- app_assoc, Hseq1. reflexivity.
Qed.

(** *** From apVisit keys to apStar task instances *)

Variable task_instance_with_other_pk :
  db → pyval → result (option TaskInstance).
Variable star_healpix : string → string → string → result (option pyval).

(** The second loop never gets to its call of
    [get_or_create_task_instance]. *)
Lemma create_stars_store (dag task : string) (parameters : kwds) :
  ∀ (star_keywords : list (list string)) (d : db) (pks : list Z),
    (create_stars json_dumps star_healpix d dag task star_keywords parameters
       pks).1 = d
    ∧ ((create_stars json_dumps star_healpix d dag task star_keywords
          parameters pks).2 = Ok pks
       ∨ ∃ e, (create_stars json_dumps star_healpix d dag task star_keywords
                 parameters pks).2 = Raise e).
Proof.
  induction star_keywords as [|item rest IH]; intros d pks.
  - simpl. auto.
  - destruct item as [|a [|b [|c [|x xs]]]]; simpl; eauto.
    destruct (star_healpix c a b) as [[healpix|]|e]; simpl; eauto.
Qed.

(** The first loop gives no keywords only when every key was warned
    about. *)
Lemma star_keywords_of_none (d : db) :
  ∀ (items warned : list pyval),
    star_keywords_of task_instance_with_other_pk d items = (warned, Ok []) →
    warned = items
    ∧ Forall (λ pk, task_instance_with_pk task_instance_with_other_pk d pk
                    = Ok None) items.
Proof.
  induction items as [|pk rest IH]; intros warned; cbn [star_keywords_of].
  - intros [= <-]. auto.
  - destruct (task_instance_with_pk _ d pk) as [[instance|]|e] eqn:Hq.
    + destruct (parameters_of (parameters d (ti_pk instance)) keys)
        as [values|e]; [|discriminate].
      destruct (star_keywords_of _ d rest) as [w [r|e]]; discriminate.
    + destruct (star_keywords_of _ d rest) as [w r] eqn:Hrest.
      intros [= <- ->]. destruct (IH w eq_refl) as [-> Hall].
      split; [reflexivity|]. constructor; assumption.
    + discriminate.
Qed.

(** X21.  [create_task_instances_for_sdss5_apstars_from_apvisits] never
    creates a task instance.  The store is left as it was; when the call
    returns, it returns the empty list, having warned about every key,
    none of which named a stored task instance; and when a key does name
    a stored task instance the call raises (the keywords of the star are
    a list, which [set] cannot hash, and the name [run_id] is bound
    nowhere). *)
Theorem apstars_from_apvisits_never_creates (fuel : nat) (d : db)
    (fs : Pks.filesystem) (dag task : string) (apvisit_pks : pyval)
    (parameters : option kwds) (return_list : bool)
    (kwargs : list (string * string)) :
  let run := create_task_instances_for_sdss5_apstars_from_apvisits
               json_dumps json_loads mktemp task_instance_with_other_pk
               star_healpix fuel d fs dag task apvisit_pks parameters
               return_list kwargs in
  run.1.2 = d
  ∧ (∀ out, run.2 = Ok out →
       out = (Pks [], fs)
       ∧ ∃ lg items,
           Pks.deserialize_pks json_loads fuel fs apvisit_pks true
           = (lg, Ok (PList items))
           ∧ run.1.1 = (lg, items)
           ∧ Forall (λ pk, task_instance_with_pk task_instance_with_other_pk
                             d pk = Ok None) items)
  ∧ (∀ lg items pk t,
       Pks.deserialize_pks json_loads fuel fs apvisit_pks true
       = (lg, Ok (PList items)) →
       pk ∈ items →
       task_instance_with_pk task_instance_with_other_pk d pk = Ok (Some t) →
       ∃ e, run.2 = Raise e).
Proof.
  intros run.
  assert (Hstore : run.1.2 = d).
  { subst run. unfold create_task_instances_for_sdss5_apstars_from_apvisits.
    destruct (Pks.deserialize_pks _ _ _ _ _) as [lg [v|e]]; [|reflexivity].
    destruct (Pks.iterate v) as [items|e]; [|reflexivity].
    destruct (star_keywords_of _ d items) as [warned [sk|e]]; [|reflexivity].
    destruct (set_of_lists sk) as [sk'|e]; [|reflexivity].
    pose proof (create_stars_store dag task (default [] parameters) sk' d [])
      as [Hd _].
    destruct (create_stars _ _ _ _ _ _ _ _) as [d1 [pks|e]]; exact Hd. }
  assert (Hreturns : ∀ out, run.2 = Ok out →
            out = (Pks [], fs)
            ∧ ∃ lg items,
                Pks.deserialize_pks json_loads fuel fs apvisit_pks true
                = (lg, Ok (PList items))
                ∧ run.1.1 = (lg, items)
                ∧ Forall (λ pk, task_instance_with_pk
                                  task_instance_with_other_pk d pk = Ok None)
                         items).
  { subst run. unfold create_task_instances_for_sdss5_apstars_from_apvisits.
    intros out.
    destruct (Pks.deserialize_pks json_loads fuel fs apvisit_pks true)
      as [lg [v|e]] eqn:Hde; [|discriminate].
    assert (Hv : ∃ items, v = PList items).
    { rewrite PksFacts.deserialize_flatten in Hde.
      destruct ((Pks.deserialize_pks json_loads fuel fs apvisit_pks false).2)
        as [v0|e0]; [|discriminate].
      injection Hde as _ <-. eauto. }
    destruct Hv as [items ->]. cbn [Pks.iterate].
    destruct (star_keywords_of _ d items) as [warned [sk|e]] eqn:Hsk;
      [|discriminate].
    destruct sk as [|x xs]; [|discriminate].
    apply star_keywords_of_none in Hsk as [-> Hall].
    cbn [set_of_lists create_stars]. unfold return_pks.
    rewrite bool_decide_eq_true_2 by reflexivity. cbn.
    intros [= <-]. split; [reflexivity|]. exists lg, items. auto. }
  split_and!; [exact Hstore | exact Hreturns |].
  intros lg items pk t Hde Hpk Hfound.
  destruct (run.2) as [out|e] eqn:Hr; [|eauto].
  exfalso. destruct (Hreturns out eq_refl) as (_ & lg' & items' & Hde' & _ & Hall).
  rewrite Hde in Hde'. injection Hde' as <- <-.
  rewrite Forall_forall in Hall. rewrite (Hall pk Hpk) in Hfound. discriminate.
Qed.

End facts.

Lemma serialisable_by_lists (json_dumps : pyval → option string)
    (all_kwds : list kwds) (parameters : kwds) :
  Forall (λ kw, Forall (λ kv, is_ok (serialize json_dumps kv.2) = true)
                       (dict_update kw parameters)) all_kwds →
  ∀ kw kv, kw ∈ all_kwds → kv ∈ dict_update kw parameters →
           is_ok (serialize json_dumps kv.2) = true.
Proof.
  intros Hall kw kv Hkw Hkv. rewrite Forall_forall in Hall.
  specialize (Hall kw Hkw). rewrite Forall_forall in Hall. auto.
Qed.

Lemma create_task_instances_for_list_witness :
  ∃ d',
    create_task_instances_for MiniJson.dumps MiniJson.mktemp (Ok Samples.two_stars)
      empty_db ∅ "ingest" "classify" (Some "r1")
      (Some [("release", PStr "dr17")]) true []
    = (d', Ok (Pks [1; 2], ∅))
    ∧ task_instance d'
      = [ {| ti_pk := 1; dag_id := "ingest"; task_id := "classify";
             run_id := Some "r1"; output_pk := None |};
          {| ti_pk := 2; dag_id := "ingest"; task_id := "classify";
             run_id := Some "r1"; output_pk := None |} ]
    ∧ length [1; 2] = 2%nat
    ∧ well_formed d'.
Proof.
  apply (create_task_instances_for_list MiniJson.dumps MiniJson.mktemp
           empty_db ∅ "ingest" "classify" (Some "r1") Samples.two_stars
           (Some [("release", PStr "dr17")]) true []).
  - exact StoreMore.empty_db_well_formed.
  - apply serialisable_by_lists. LookupFacts.by_computation.
  - right. reflexivity.
Defined.

Lemma create_task_instances_for_path_witness :
  ∃ d' path fs',
    create_task_instances_for MiniJson.dumps MiniJson.mktemp (Ok Samples.two_stars)
      empty_db ∅ "ingest" "classify" (Some "r1")
      (Some [("release", PStr "dr17")]) false []
    = (d', Ok (Path path, fs'))
    ∧ map ti_pk (drop 0 (task_instance d')) = [1; 2]
    ∧ ∀ fuel, (1 < fuel)%nat →
        Pks.deserialize_pks MiniJson.loads fuel fs' (PStr path) true
        = ([], Ok (PList [PInt 1; PInt 2])).
Proof.
  apply (create_task_instances_for_path MiniJson.dumps MiniJson.loads
           MiniJson.mktemp empty_db ∅ "ingest" "classify" (Some "r1")
           Samples.two_stars (Some [("release", PStr "dr17")]) [] "[1, 2]").
  - exact StoreMore.empty_db_well_formed.
  - apply serialisable_by_lists. LookupFacts.by_computation.
  - discriminate.
  - vm_compute. reflexivity.
  - vm_compute. reflexivity.
Defined.

(** The first instance is linked to release=dr17, the caller's value,
    and to no other release. *)
Lemma create_task_instances_for_caller_wins_witness :
  let d' := (create_task_instances_for MiniJson.dumps MiniJson.mktemp
               (Ok Samples.two_stars) empty_db ∅ "ingest" "classify" (Some "r1")
               (Some [("release", PStr "dr17")]) true []).1 in
  ∃ t row,
    rows_from 1 "ingest" "classify" (Some "r1") Samples.two_stars !! 0%nat = Some t
    ∧ t ∈ task_instance d'
    ∧ row ∈ parameter d' ∧ pair_of row = ("release", "dr17")
    ∧ p_pk row ∈ linked_pks d' (ti_pk t)
    ∧ ∀ row', row' ∈ parameter d' → parameter_name row' = "release" →
              p_pk row' ∈ linked_pks d' (ti_pk t) → row' = row.
Proof.
  apply (create_task_instances_for_caller_wins MiniJson.dumps MiniJson.mktemp
           empty_db ∅ "ingest" "classify" (Some "r1") Samples.two_stars
           [("release", PStr "dr17")] true [] 0
           [("obj", PStr "2M1"); ("release", PStr "sdss5")]
           "release" (PStr "dr17") "dr17").
  - exact StoreMore.empty_db_well_formed.
  - apply serialisable_by_lists. LookupFacts.by_computation.
  - reflexivity.
  - LookupFacts.by_computation.
  - LookupFacts.by_computation.
  - reflexivity.
  - reflexivity.
Defined.

(** The second of three dicts holds [None], which this json does not
    encode: two rows of [task_instance] stay. *)
Lemma create_task_instances_for_stops_midway_witness :
  ∃ d' e,
    create_task_instances_for MiniJson.dumps MiniJson.mktemp
      (Ok ([[("obj", PStr "2M1")]]
           ++ [("obj", PNone)] :: [[("obj", PStr "2M3")]]))
      empty_db ∅ "ingest" "classify" (Some "r1") None false []
    = (d', Raise e)
    ∧ task_instance d'
      = [] ++ rows_from 1 "ingest" "classify" (Some "r1")
                ([[("obj", PStr "2M1")]] ++ [[("obj", PNone)]]).
Proof.
  apply (create_task_instances_for_stops_midway MiniJson.dumps MiniJson.mktemp
           empty_db ∅ "ingest" "classify" (Some "r1")
           [[("obj", PStr "2M1")]] [[("obj", PStr "2M3")]] [("obj", PNone)]
           None false []).
  - exact StoreMore.empty_db_well_formed.
  - apply serialisable_by_lists. LookupFacts.by_computation.
  - exists ("obj", PNone). split; [apply list_elem_of_here | reflexivity].
Defined.

(** Handed the key of the visit, the call raises; handed keys of no task
    instance, it returns the empty list after a warning for each. *)
Lemma apstars_from_apvisits_never_creates_witness :
  (∃ e,
     (create_task_instances_for_sdss5_apstars_from_apvisits MiniJson.dumps
        MiniJson.loads MiniJson.mktemp (λ _ _, Ok None) (λ _ _ _, Ok None)
        10 Samples.one_visit ∅ "ingest" "star" (PList [PInt 1]) None false []).2
     = Raise e)
  ∧ ∃ lg items,
      Pks.deserialize_pks MiniJson.loads 10 ∅ (PStr "[5, [6]]") true
      = (lg, Ok (PList items))
      ∧ (create_task_instances_for_sdss5_apstars_from_apvisits MiniJson.dumps
           MiniJson.loads MiniJson.mktemp (λ _ _, Ok None) (λ _ _ _, Ok None)
           10 Samples.one_visit ∅ "ingest" "star" (PStr "[5, [6]]") None false []).1.1
        = (lg, items)
      ∧ Forall (λ pk, task_instance_with_pk (λ _ _, Ok None) Samples.one_visit pk
                      = Ok None) items.
Proof.
  split.
  - destruct (apstars_from_apvisits_never_creates MiniJson.dumps
                MiniJson.loads MiniJson.mktemp (λ _ _, Ok None)
                (λ _ _ _, Ok None) 10 Samples.one_visit ∅ "ingest" "star"
                (PList [PInt 1]) None false []) as (_ & _ & Hraises).
    apply (Hraises [] [PInt 1] (PInt 1)
             {| ti_pk := 1; dag_id := "ingest"; task_id := "visit";
                run_id := Some "r1"; output_pk := None |}).
    + reflexivity.
    + apply list_elem_of_here.
    + vm_compute. reflexivity.
  - destruct (apstars_from_apvisits_never_creates MiniJson.dumps
                MiniJson.loads MiniJson.mktemp (λ _ _, Ok None)
                (λ _ _ _, Ok None) 10 Samples.one_visit ∅ "ingest" "star"
                (PStr "[5, [6]]") None false []) as (_ & Hreturns & _).
    destruct (Hreturns (Pks [], ∅)) as [_ H]; [vm_compute; reflexivity|].
    exact H.
Defined.

End BulkFacts.

(** ** Setting parameters of a stored task instance *)

Module UpdateFacts.
Import Db Registry Store.

Lemma filter_ext_in {A} (P Q : A → Prop) `{∀ x, Decision (P x)}
    `{∀ x, Decision (Q x)} (l : list A) :
  (∀ x, x ∈ l → P x ↔ Q x) → filter P l = filter Q l.
Proof.
  induction l as [|a l IH]; intros Hext; [reflexivity|].
  rewrite !filter_cons.
  assert (Ha : P a ↔ Q a) by (apply Hext, list_elem_of_here).
  rewrite IH by (intros x Hx; apply Hext; right; exact Hx).
  destruct (decide (P a)), (decide (Q a)); tauto || reflexivity.
Qed.

(** The effective parameter map: for each name the value of the last
    joined row of that name. *)
Lemma foldl_insert_lookup (k : string) (l : list ParameterRow) :
  ∀ m : gmap string string,
    foldl (λ m p, <[parameter_name p := parameter_value p]> m) m l !! k
    = match last (filter (λ p, parameter_name p = k) l) with
      | Some p => Some (parameter_value p)
      | None => m !! k
      end.
Proof.
  induction l as [|p l IH]; intros m; simpl; [reflexivity|].
  rewrite IH, filter_cons.
  destruct (decide (parameter_name p = k)) as [<-|Hne].
  - rewrite last_cons.
    destruct (last (filter _ l)); [reflexivity|].
    apply lookup_insert_eq.
  - destruct (last (filter _ l)); [reflexivity|].
    apply lookup_insert_ne. exact Hne.
Qed.

Lemma parameters_lookup (d : db) (ti : Z) (k : string) :
  parameters d ti !! k
  = parameter_value
      <$> last (filter (λ p, parameter_name p = k) (joined_parameters d ti)).
Proof.
  unfold parameters. rewrite foldl_insert_lookup.
  destruct (last _); reflexivity.
Qed.

Lemma parameters_lookup_None (d : db) (ti : Z) (k : string) (p : ParameterRow) :
  parameters d ti !! k = None →
  p ∈ joined_parameters d ti → parameter_name p ≠ k.
Proof.
  rewrite parameters_lookup. intros Hnone Hp Hname.
  assert (Hin : p ∈ filter (λ p, parameter_name p = k) (joined_parameters d ti))
    by (apply list_elem_of_filter; auto).
  destruct (filter _ (joined_parameters d ti)) as [|a l] using rev_ind;
    [inversion Hin|].
  rewrite last_snoc in Hnone. discriminate.
Qed.

Section facts.
Variable json_dumps : pyval → option string.

(** Adding a parameter whose name the instance does not have yet. *)
Lemma add_task_instance_parameter_fresh (d : db) (ti : Z) (key : string)
    (value : pyval) (s : string) :
  well_formed d →
  ti ∈ map ti_pk (task_instance d) →
  parameters d ti !! key = None →
  serialize json_dumps value = Ok s →
  ∃ pk d',
    add_task_instance_parameter json_dumps d ti key value = Ok (pk, d')
    ∧ parameters d' ti = <[key := s]> (parameters d ti)
    ∧ well_formed d'
    ∧ task_instance d' = task_instance d.
Proof.
  intros Hwf Hti Hnone Hs. unfold add_task_instance_parameter.
  assert (Hg : ∃ pk c d1 row extra,
             get_or_create_parameter_pk json_dumps d key value = Ok (pk, c, d1)
             ∧ parameter d1 = parameter d ++ extra
             ∧ (∀ p, p ∈ extra → p = row)
             ∧ task_instance d1 = task_instance d
             ∧ task_instance_parameter d1 = task_instance_parameter d
             ∧ row ∈ parameter d1 ∧ pair_of row = (key, s) ∧ p_pk row = pk).
  { destruct (CreateLookup.get_or_create_parameter_pk_cases json_dumps d key
                value s (wf_pairs d Hwf) Hs)
      as [(row & Hrow & Hrun)|(Hnil & row & d1 & Hins & Hrun)].
    - assert (Hin : row ∈ find_parameter d key s)
        by (rewrite Hrow; apply list_elem_of_here).
      apply CreateLookup.elem_of_find_parameter in Hin as [Hin Hpair].
      exists (p_pk row), false, d, row, []. rewrite app_nil_r.
      split_and!; auto. intros p Hp. inversion Hp.
    - unfold insert_parameter in Hins. rewrite Hnil in Hins.
      injection Hins as E1 E2. subst row d1.
      eexists _, true, _, _, [_]. split; [exact Hrun|]. cbn.
      split_and!; try reflexivity.
      + intros p Hp. apply list_elem_of_singleton in Hp. exact Hp.
      + apply elem_of_app. right. apply list_elem_of_here.
      + reflexivity.
      + reflexivity. }
  destruct Hg as (pk & c & d1 & row & extra & Hrun & Hpar & Hextra & Hti1
                  & Htips1 & Hrow & Hpair & Hpk).
  rewrite Hrun. cbn [mbind result_bind rbind mret result_ret].
  destruct (StoreMore.get_or_create_parameter_pk_well_formed json_dumps
              _ _ _ _ _ _ Hwf Hrun) as (Hwf1 & _).
  assert (Hti1in : ti ∈ map ti_pk (task_instance d1)) by (rewrite Hti1; exact Hti).
  assert (Hpkin : pk ∈ map p_pk (parameter d1)).
  { rewrite <- Hpk. apply list_elem_of_fmap. eauto. }
  eexists _, _. split; [reflexivity|]. split_and!.
  2:{ apply StoreMore.insert_task_instance_parameter_well_formed; assumption. }
  2:{ exact Hti1. }
  assert (Hname : parameter_name row = key)
    by (unfold pair_of in Hpair; congruence).
  assert (Hvalue : parameter_value row = s)
    by (unfold pair_of in Hpair; congruence).
  assert (Hsame : ∀ p q, p ∈ parameter d1 → q ∈ parameter d1 →
                         p_pk p = p_pk q → p = q).
  { intros p q Hp Hq.
    apply (CreateLookup.NoDup_fmap_elem_inj p_pk (parameter d1)); trivial.
    apply (wf_parameter_pks d1 Hwf1). }
  assert (Hold : ∀ p, p ∈ parameter d1 →
                      {| tip_ti_pk := ti; tip_parameter_pk := p_pk p |}
                      ∈ task_instance_parameter d →
                      p ∈ joined_parameters d ti).
  { intros p Hp Hlink. unfold joined_parameters.
    apply list_elem_of_filter. split; [exact Hlink|].
    destruct (wf_links d Hwf _ Hlink) as [_ Hq]. cbn in Hq.
    apply list_elem_of_fmap in Hq as (q & Hq & Hqin).
    assert (p = q); [|subst q; exact Hqin].
    apply Hsame; trivial. rewrite Hpar. apply elem_of_app. auto. }
  apply map_eq. intros k.
  rewrite parameters_lookup. unfold joined_parameters.
  cbn [insert_task_instance_parameter parameter task_instance_parameter].
  rewrite list_filter_filter. destruct (decide (k = key)) as [->|Hne].
  - rewrite lookup_insert_eq.
    rewrite (LookupMore.filter_unique _ (parameter d1) row); cbn.
    + rewrite Hvalue. reflexivity.
    + eapply NoDup_fmap_1, (wf_parameter_pks d1 Hwf1).
    + exact Hrow.
    + split; [exact Hname|]. apply elem_of_app. right.
      rewrite Hpk. apply list_elem_of_here.
    + intros p Hp [Hpn Hlink]. rewrite Htips1 in Hlink.
      apply elem_of_app in Hlink as [Hlink|Hlink].
      * exfalso. eapply parameters_lookup_None; [exact Hnone | | exact Hpn].
        apply Hold; assumption.
      * apply list_elem_of_singleton in Hlink. injection Hlink as Hlink.
        apply Hsame; trivial. congruence.
  - rewrite lookup_insert_ne by congruence.
    rewrite parameters_lookup. unfold joined_parameters.
    rewrite list_filter_filter. f_equal. f_equal.
    rewrite Hpar, filter_app.
    assert (Hnil : filter (λ p, parameter_name p = k
                               ∧ {| tip_ti_pk := ti; tip_parameter_pk := p_pk p |}
                                 ∈ task_instance_parameter d1
                                   ++ [{| tip_ti_pk := ti;
                                          tip_parameter_pk := pk |}]) extra = []).
    { destruct (filter _ extra) as [|a l] eqn:Hf; [reflexivity|]. exfalso.
      assert (Ha : a ∈ filter (λ p, parameter_name p = k
                               ∧ {| tip_ti_pk := ti; tip_parameter_pk := p_pk p |}
                                 ∈ task_instance_parameter d1
                                   ++ [{| tip_ti_pk := ti;
                                          tip_parameter_pk := pk |}]) extra)
        by (rewrite Hf; apply list_elem_of_here).
      apply list_elem_of_filter in Ha as [[Han _] Ha].
      rewrite (Hextra a Ha) in Han. congruence. }
    rewrite Hnil, app_nil_r. apply filter_ext_in. intros p Hp.
    rewrite Htips1, elem_of_app, list_elem_of_singleton.
    split; [|tauto]. intros [Hpn [Hlink|Hlink]]; [tauto|].
    exfalso. injection Hlink as Hlink.
    assert (p = row); [|congruence].
    apply Hsame; trivial; [|congruence].
    rewrite Hpar. apply elem_of_app. auto.
Qed.

(** X22.  Setting parameters a stored task instance does not have yet:
    [update_task_instance_parameters] returns [True], the effective
    parameters of the instance then hold every given name with the
    serialised value, and every other name is as before. *)
Theorem update_task_instance_parameters_new_keys (ti : Z)
    (params : list (string * pyval)) :
  ∀ d : db,
    well_formed d →
    ti ∈ map ti_pk (task_instance d) →
    NoDup (map fst params) →
    (∀ kv, kv ∈ params → parameters d ti !! kv.1 = None
                         ∧ is_ok (serialize json_dumps kv.2) = true) →
    ∃ d',
      update_task_instance_parameters json_dumps d ti params = (d', Ok true)
      ∧ (∀ k v, (k, v) ∈ params →
                ∃ s, serialize json_dumps v = Ok s
                     ∧ parameters d' ti !! k = Some s)
      ∧ (∀ k, k ∉ map fst params →
              parameters d' ti !! k = parameters d ti !! k)
      ∧ well_formed d'.
Proof.
  induction params as [|[key value] rest IH]; intros d Hwf Hti Hnd Hnew.
  - exists d. simpl. split_and!; auto. intros k v H. inversion H.
  - simpl in Hnd. apply NoDup_cons in Hnd as [Hkey Hnd].
    destruct (Hnew (key, value) (list_elem_of_here _ _)) as [Hnone Hok].
    cbn [fst snd] in Hnone, Hok.
    destruct (serialize json_dumps value) as [s|e] eqn:Hs; [|discriminate].
    destruct (add_task_instance_parameter_fresh d ti key value s Hwf Hti
                Hnone Hs) as (pk & d1 & Hadd & Hmap & Hwf1 & Hti1).
    destruct (IH d1 Hwf1) as (d' & Hrun & Hset & Hother & Hwf');
      [rewrite Hti1; exact Hti | exact Hnd | |].
    { intros kv Hkv. destruct (Hnew kv) as [Hn Hk]; [right; exact Hkv|].
      split; [|exact Hk]. rewrite Hmap, lookup_insert_ne; [exact Hn|].
      intros ->. apply Hkey. apply list_elem_of_fmap. eauto. }
    exists d'. cbn [update_task_instance_parameters].
    unfold del_task_instance_parameter. rewrite Hnone, Hadd.
    split_and!; trivial.
    + intros k v Hkv. apply elem_of_cons in Hkv as [[= -> ->]|Hkv].
      * exists s. split; [exact Hs|].
        rewrite (Hother key Hkey), Hmap. apply lookup_insert_eq.
      * apply Hset, Hkv.
    + intros k Hk. cbn [map fst] in Hk. apply not_elem_of_cons in Hk as [Hk1 Hk2].
      rewrite (Hother k Hk2), Hmap. apply lookup_insert_ne. congruence.
Qed.

End facts.

(** The second of the three instances has the release only; it is given
    an mjd and a healpix, whose rows the other instances had made. *)
Lemma update_task_instance_parameters_new_keys_witness :
  ∃ d',
    update_task_instance_parameters MiniJson.dumps MiniJson.three_instances 2
      [("mjd", PInt 59000); ("healpix", PInt 7)]
    = (d', Ok true)
    ∧ (∀ k v, (k, v) ∈ [("mjd", PInt 59000); ("healpix", PInt 7)] →
              ∃ s, serialize MiniJson.dumps v = Ok s
                   ∧ parameters d' 2 !! k = Some s)
    ∧ (∀ k, k ∉ map fst [("mjd", PInt 59000); ("healpix", PInt 7)] →
            parameters d' 2 !! k = parameters MiniJson.three_instances 2 !! k)
    ∧ well_formed d'.
Proof.
  apply (update_task_instance_parameters_new_keys MiniJson.dumps 2
           [("mjd", PInt 59000); ("healpix", PInt 7)]
           MiniJson.three_instances).
  - exact CreateLookup.three_instances_well_formed.
  - LookupFacts.by_computation.
  - LookupFacts.by_computation.
  - intros kv Hkv.
    apply elem_of_cons in Hkv as [->|Hkv]; [split; vm_compute; reflexivity|].
    apply list_elem_of_singleton in Hkv as ->. split; vm_compute; reflexivity.
Defined.

End UpdateFacts.
